(** * ncfs-policy-update-service: token issuance, authentication and
      policy validation

    A shallow embedding of [cmd/policy-update-service.go].  The handlers
    [updatePolicy], [createToken], [validateUser], [verifyToken] and
    [authMiddleware] are transcribed statement by statement, from the
    listing without metrics; the later listing only adds Prometheus
    counters and timers around the same statements.  The packages they
    import are represented as follows:

    - [net/http]: the response writer is a record; the first [WriteHeader]
      fixes the status and later ones are ignored, as in the standard
      server;
    - [golang/gddo/httputil/header]: [ParseValueAndParams] is transcribed
      (its first result only, the one the handler reads);
    - [encoding/json]: the byte-level scanner and the text codecs are
      parameters ([Platform]); the binding of a scanned object to the
      [Policy] struct (field lookup, case folding, unknown fields, type
      errors) is written out;
    - [dgrijalva/jwt-go]: [Parse], [MapClaims.Valid], the HMAC signing
      method and [SignedString] are written out over a parametric MAC and
      segment codec;
    - [go-guardian]: the authenticator is an interface value, here a
      function from requests to an identity or an error. *)

From Stdlib Require Import ZArith String Ascii List Bool Lia.
From stdpp Require Import base option strings gmap pretty sorting.

Local Open Scope string_scope.
Local Open Scope Z_scope.
Set Warnings "-register-all".

(** ** Go values shared by all packages *)

Definition dquote : string := String "034"%char "".
Definition newline : string := String "010"%char "".

(** The error values this program can observe.  [errorString] is what
    [errors.New] and [fmt.Errorf] build; the others are the typed errors
    the handlers discriminate with [errors.As] and [errors.Is]. *)
Inductive error : Type :=
| errorString (s : string)
| SyntaxError (msg : string) (Offset : Z)
| UnmarshalTypeError (Value Type_ : string) (Offset : Z) (Struct Field : string)
| io_EOF
| io_ErrUnexpectedEOF
| ValidationError (Inner : option error) (text : string) (Errors : Z).

Fixpoint Error (e : error) : string :=
  match e with
  | errorString s => s
  | SyntaxError msg _ => msg
  | UnmarshalTypeError v t _ st f =>
      if negb (String.eqb st "") || negb (String.eqb f "")
      then "json: cannot unmarshal " +:+ v +:+ " into Go struct field "
           +:+ st +:+ "." +:+ f +:+ " of type " +:+ t
      else "json: cannot unmarshal " +:+ v +:+ " into Go value of type " +:+ t
  | io_EOF => "EOF"
  | io_ErrUnexpectedEOF => "unexpected EOF"
  | ValidationError (Some inner) _ _ => Error inner
  | ValidationError None text _ =>
      if String.eqb text "" then "token is invalid" else text
  end.

(** [(T, error)] results. *)
Abbreviation Result A := (sum A error).
Abbreviation Ok := inl (only parsing).
Abbreviation Err := inr (only parsing).

Definition bindR {A B} (m : Result A) (k : A → Result B) : Result B :=
  match m with
  | inl a => k a
  | inr e => inr e
  end.

Notation "'do' x <- m ; k" := (bindR m (fun x => k))
  (at level 10, x name, m at level 100, k at level 200).

(** ** [strings] *)

Definition HasPrefix (s pre : string) : bool := String.prefix pre s.

Fixpoint drop_string (n : nat) (s : string) : string :=
  match n, s with
  | O, _ => s
  | S n', String _ s' => drop_string n' s'
  | S _, EmptyString => EmptyString
  end.

Definition TrimPrefix (s pre : string) : string :=
  if HasPrefix s pre then drop_string (String.length pre) s else s.

(** [strings.ToLower] on the ASCII range; only applied below to strings made
    of token octets, which are all below 128. *)
Definition lower_ascii (c : ascii) : ascii :=
  let n := N_of_ascii c in
  if ((65 <=? n) && (n <=? 90))%N then ascii_of_N (n + 32) else c.

Fixpoint ToLower (s : string) : string :=
  match s with
  | EmptyString => EmptyString
  | String c s' => String (lower_ascii c) (ToLower s')
  end.

(** [strings.Split(s, sep)] for a one-byte separator. *)
Fixpoint Split_go (sep : ascii) (s : string) (cur : string) : list string :=
  match s with
  | EmptyString => [cur]
  | String c s' =>
      if Ascii.eqb c sep then cur :: Split_go sep s' ""
      else Split_go sep s' (cur +:+ String c "")
  end.

Definition Split (s : string) (sep : ascii) : list string := Split_go sep s "".

(** Does [sub] occur in [s]?  ([strings.Contains]) *)
Fixpoint Contains (s sub : string) : bool :=
  String.prefix sub s ||
  match s with
  | EmptyString => false
  | String _ s' => Contains s' sub
  end.

Fixpoint no_byte (c : ascii) (s : string) : bool :=
  match s with
  | EmptyString => true
  | String d s' => negb (Ascii.eqb d c) && no_byte c s'
  end.

(** [%d] of an integer. *)
Definition fmt_d (z : Z) : string := pretty z.

(** [strconv.ParseInt(s, 10, 64)]: optional sign, at least one digit, only
    digits, value within int64. *)
Definition digit_val (c : ascii) : option Z :=
  let n := N_of_ascii c in
  if ((48 <=? n) && (n <=? 57))%N then Some (Z.of_N n - 48) else None.

Fixpoint digits_val (s : string) (acc : Z) : option Z :=
  match s with
  | EmptyString => Some acc
  | String c s' =>
      match digit_val c with
      | Some d => digits_val s' (10 * acc + d)
      | None => None
      end
  end.

Definition int64_min : Z := - 2 ^ 63.
Definition int64_max : Z := 2 ^ 63 - 1.

Definition in_int64 (z : Z) : bool := (int64_min <=? z) && (z <=? int64_max).

Definition ParseInt (s : string) : option Z :=
  let '(neg, body) :=
    match s with
    | String "-" s' => (true, s')
    | String "+" s' => (false, s')
    | _ => (false, s)
    end in
  match body with
  | EmptyString => None
  | _ =>
      match digits_val body 0 with
      | Some v => let z := if neg then - v else v in
                  if in_int64 z then Some z else None
      | None => None
      end
  end.

(** ** [net/http] *)

Module http.

Definition StatusOK : Z := 200.
Definition StatusBadRequest : Z := 400.
Definition StatusUnauthorized : Z := 401.
Definition StatusRequestEntityTooLarge : Z := 413.
Definition StatusUnsupportedMediaType : Z := 415.
Definition StatusInternalServerError : Z := 500.

Definition StatusText (code : Z) : string :=
  if code =? 200 then "OK"
  else if code =? 400 then "Bad Request"
  else if code =? 401 then "Unauthorized"
  else if code =? 413 then "Request Entity Too Large"
  else if code =? 415 then "Unsupported Media Type"
  else if code =? 500 then "Internal Server Error"
  else "".

(** The server side of one response.  [status = None] until the header has
    been written; [sent] is the header map as it stood at that moment
    (later changes to [header] never reach the client). *)
Record ResponseWriter : Type := mkResponseWriter {
  header : gmap string string;
  status : option Z;
  sent : gmap string string;
  body : string
}.

Definition fresh : ResponseWriter :=
  {| header := ∅; status := None; sent := ∅; body := "" |}.

Definition Header_Set (k v : string) (w : ResponseWriter) : ResponseWriter :=
  {| header := <[k := v]> (header w); status := status w;
     sent := sent w; body := body w |}.

(** Only the first call takes effect; the server logs later ones as
    superfluous and drops them. *)
Definition WriteHeader (code : Z) (w : ResponseWriter) : ResponseWriter :=
  match status w with
  | Some _ => w
  | None => {| header := header w; status := Some code;
               sent := header w; body := body w |}
  end.

(** A [Write] before any [WriteHeader] implies [WriteHeader(200)]. *)
Definition Write (data : string) (w : ResponseWriter) : ResponseWriter :=
  let w1 := WriteHeader StatusOK w in
  {| header := header w1; status := status w1;
     sent := sent w1; body := body w1 +:+ data |}.

(** [http.Error]. *)
Definition Error (w : ResponseWriter) (msg : string) (code : Z) : ResponseWriter :=
  let w1 := Header_Set "Content-Type" "text/plain; charset=utf-8" w in
  let w2 := Header_Set "X-Content-Type-Options" "nosniff" w1 in
  let w3 := WriteHeader code w2 in
  Write (msg +:+ newline) w3.

(** The status line the client receives once the handler has returned: a
    handler that wrote nothing gets 200. *)
Definition statusCode (w : ResponseWriter) : Z :=
  match status w with
  | Some c => c
  | None => StatusOK
  end.

(** Request headers: canonical key to the list of values. *)
Definition Header_Get (h : gmap string (list string)) (k : string) : string :=
  match h !! k with
  | Some (v :: _) => v
  | _ => ""
  end.

End http.

(** ** [github.com/golang/gddo/httputil/header] *)

Module header.

(** [separators] of RFC 2616: space, tab, double quote and the
    punctuation below. *)
Definition separators : string :=
  String " " (String "009"%char (String "034"%char "(),/:;<=>?@[]\{}")).

Definition isToken (c : ascii) : bool :=
  let n := N_of_ascii c in
  let isCtl := ((n <=? 31) || (n =? 127))%N in
  let isChar := (n <=? 127)%N in
  let isSeparator := negb (no_byte c separators) in
  isChar && negb isCtl && negb isSeparator.

(** [expectTokenSlash]: the longest prefix of token octets and slashes,
    and what follows it. *)
Fixpoint expectTokenSlash (s : string) : string * string :=
  match s with
  | EmptyString => ("", "")
  | String b s' =>
      if isToken b || Ascii.eqb b "/"
      then let '(tok, rest) := expectTokenSlash s' in (String b tok, rest)
      else ("", s)
  end.

(** [ParseValueAndParams(header, key)], first result.  The parameter loop
    that follows in the package only fills the second result, which the
    caller discards. *)
Definition ParseValueAndParams (h : gmap string (list string)) (key : string) : string :=
  let s := http.Header_Get h key in
  let '(value, _) := expectTokenSlash s in
  if String.eqb value "" then "" else ToLower value.

End header.

(** ** [encoding/json] *)

(** A scanned JSON value.  Each object member carries, besides its key and
    value, the read offset the decoder reports when that value cannot be
    stored in its destination. *)
Inductive JValue : Type :=
| JNull
| JBool (b : bool)
| JNumber (lit : string)
| JString (s : string)
| JArray (elems : list JValue)
| JObject (members : list (string * JValue * Z)).

(** What the scanner makes of the bytes a reader delivers before it ends. *)
Inductive ScanResult : Type :=
| ScanValue (v : JValue) (off : Z)
| ScanSyntax (msg : string) (off : Z)
| ScanIncomplete (nonSpace : bool).

(** Values held by a Go [interface{}] in this program.  A [float64] is only
    ever read through the conversion [int64(f)], so it is represented by
    the result of that conversion; slices and maps are never opened, so
    they carry no contents. *)
Inductive Any : Type :=
| ANil
| ABool (b : bool)
| AInt64 (z : Z)
| AFloat64 (as_int64 : Z)
| AString (s : string)
| ASlice
| AMap.

Inductive Hash : Type := SHA256 | SHA384 | SHA512.

(** The name under which the decoder reports a struct field in an
    [UnmarshalTypeError].  The image is built with whatever toolchain
    [golang:alpine] is at the time: the original [encoding/json] reports
    the name of the Go field, the package as rebuilt on [encoding/json/v2]
    reports the object key as the request spelled it. *)
Inductive FieldNaming : Type := GoName | KeyAsSent.

(** The imported primitives that are not written out.
    - [json_scan bytes atEOF]: the scanner run over all the bytes the reader
      delivers; [atEOF] tells whether the reader ended with [io.EOF] (a
      top-level number is only complete then);
    - [strconv_Quote]: the [%q] verb on a string;
    - [json_Marshal], [json_Unmarshal], [json_Decode]: the JSON text of a
      [map[string]interface{}] and back ([Unmarshal] for the token header,
      [Decoder.Decode] for the claims);
    - [EncodeSegment], [DecodeSegment]: jwt-go's unpadded base64url;
    - [hmac_Sum h key msg]: [hmac.New(h, key)], [Write(msg)], [Sum(nil)];
    - [hash_Available]: [crypto.Hash.Available];
    - [json_fieldNaming]: how the decoder names a field in a type error. *)
Record Platform : Type := {
  json_scan : string → bool → ScanResult;
  strconv_Quote : string → string;
  json_Marshal : gmap string Any → Result string;
  json_Unmarshal : string → Result (gmap string Any);
  json_Decode : string → Result (gmap string Any);
  EncodeSegment : string → string;
  DecodeSegment : string → Result string;
  hmac_Sum : Hash → string → string → string;
  hash_Available : Hash → bool;
  json_fieldNaming : FieldNaming
}.

(** An [io.Reader] seen from its consumer: the bytes it delivers and the
    error that ends them. *)
Record Reader : Type := {
  data : string;
  final : error
}.

Fixpoint len_go (s : string) (acc : Z) : Z :=
  match s with
  | EmptyString => acc
  | String _ s' => len_go s' (acc + 1)
  end.

Definition len (s : string) : Z := len_go s 0.

Fixpoint take_string (n : nat) (s : string) : string :=
  match n, s with
  | S n', String c s' => String c (take_string n' s')
  | _, _ => EmptyString
  end.

(** [http.MaxBytesReader(w, r, n)]: at most [n] bytes pass; a longer body
    ends, after those [n] bytes, with the error below instead of [io.EOF]. *)
Definition MaxBytesReader (r : Reader) (n : Z) : Reader :=
  if len (data r) <=? n then r
  else {| data := take_string (Z.to_nat n) (data r);
          final := errorString "http: request body too large" |}.

Definition body_reader (body : string) : Reader :=
  {| data := body; final := io_EOF |}.

(** *** Binding a JSON value to the [Policy] struct *)

Record Policy : Type := {
  UnprocessableFileTypeAction : option Z;
  GlasswallBlockedFilesAction : option Z
}.

Inductive PolicyField : Type := F_Unprocessable | F_Glasswall.

Definition fieldName (f : PolicyField) : string :=
  match f with
  | F_Unprocessable => "UnprocessableFileTypeAction"
  | F_Glasswall => "GlasswallBlockedFilesAction"
  end.

Definition caseMask : N := 223.  (* ^byte(0x20) *)

Definition kelvin_utf8 : string :=
  String "226"%char (String "132"%char (String "170"%char "")).
Definition smallLongEss_utf8 : string :=
  String "197"%char (String "191"%char "").

(** [equalFoldRight s t] of the decoder, for an ASCII field name [s]: [t]
    matches byte by byte up to the case of ASCII letters; in addition the
    Kelvin sign stands for [k] and the long s for [s]. *)
Fixpoint equalFold (s t : string) : bool :=
  match s with
  | EmptyString => match t with EmptyString => true | _ => false end
  | String sb s' =>
      match t with
      | EmptyString => false
      | String tb t' =>
          if (N_of_ascii tb <? 128)%N then
            if Ascii.eqb sb tb then equalFold s' t'
            else
              let sbUpper := N.land (N_of_ascii sb) caseMask in
              if ((65 <=? sbUpper) && (sbUpper <=? 90))%N
              then if (sbUpper =? N.land (N_of_ascii tb) caseMask)%N
                   then equalFold s' t' else false
              else false
          else if (Ascii.eqb sb "s" || Ascii.eqb sb "S")
                  && HasPrefix t smallLongEss_utf8
          then equalFold s' (drop_string 2 t)
          else if (Ascii.eqb sb "k" || Ascii.eqb sb "K")
                  && HasPrefix t kelvin_utf8
          then equalFold s' (drop_string 3 t)
          else false
      end
  end.

(** The field a key selects: an exact name wins, otherwise the first field
    whose name folds to the key. *)
Definition lookupField (key : string) : option PolicyField :=
  if String.eqb key (fieldName F_Unprocessable) then Some F_Unprocessable
  else if String.eqb key (fieldName F_Glasswall) then Some F_Glasswall
  else if equalFold (fieldName F_Unprocessable) key then Some F_Unprocessable
  else if equalFold (fieldName F_Glasswall) key then Some F_Glasswall
  else None.

(** Storing a value in a [*int] field; [field] is the name the decoder
    reports the field under when the value does not fit. *)
Definition storeIntPtr (field : string) (v : JValue) (off : Z) : Result (option Z) :=
  let typeError (what : string) :=
    UnmarshalTypeError what "int" off "Policy" field in
  match v with
  | JNull => Ok None
  | JNumber lit =>
      match ParseInt lit with
      | Some z => Ok (Some z)
      | None => Err (typeError ("number " +:+ lit))
      end
  | JString _ => Err (typeError "string")
  | JBool _ => Err (typeError "bool")
  | JArray _ => Err (typeError "array")
  | JObject _ => Err (typeError "object")
  end.

Definition setField (f : PolicyField) (x : option Z) (p : Policy) : Policy :=
  match f with
  | F_Unprocessable =>
      {| UnprocessableFileTypeAction := x;
         GlasswallBlockedFilesAction := GlasswallBlockedFilesAction p |}
  | F_Glasswall =>
      {| UnprocessableFileTypeAction := UnprocessableFileTypeAction p;
         GlasswallBlockedFilesAction := x |}
  end.

(** The decoder keeps the first error it meets and goes on decoding. *)
Record decodeState : Type := {
  target : Policy;
  savedError : option error
}.

Definition saveError (e : error) (d : decodeState) : decodeState :=
  match savedError d with
  | Some _ => d
  | None => {| target := target d; savedError := Some e |}
  end.

Definition zeroPolicy : Policy :=
  {| UnprocessableFileTypeAction := None; GlasswallBlockedFilesAction := None |}.

(** ** Process configuration and the cluster *)

Record Config : Type := {
  listeningPort : string;
  namespace : string;
  configmapName : string;
  username : string;
  password : string
}.

(** [policy.PolicyArgs] of the [pkg] package and its two methods, which talk
    to the cluster; [None] is a nil error. *)
Record PolicyArgs : Type := {
  Policy_ : string;
  Namespace : string;
  ConfigMapName : string
}.

Record Cluster : Type := {
  GetClient : PolicyArgs → option error;
  UpdatePolicy : PolicyArgs → option error
}.

Record Request : Type := {
  Method : string;
  Header : gmap string (list string);
  Body : string
}.

(** [auth.Info] as built by [auth.NewDefaultUser(name, id, groups, extensions)]. *)
Record Info : Type := NewDefaultUser {
  UserName : string;
  ID : string;
  Groups : list string;
  Extensions : gmap string (list string)
}.

(** Everything one handler call leaves behind: the response, the lines
    written with [log], and the policies handed to [UpdatePolicy]. *)
Record Run : Type := {
  W : http.ResponseWriter;
  Log : list string;
  Updates : list PolicyArgs
}.

Definition start : Run := {| W := http.fresh; Log := []; Updates := [] |}.

Definition onW (f : http.ResponseWriter → http.ResponseWriter) (x : Run) : Run :=
  {| W := f (W x); Log := Log x; Updates := Updates x |}.

Definition http_Error (x : Run) (msg : string) (code : Z) : Run :=
  onW (fun w => http.Error w msg code) x.

Definition w_Write (data : string) (x : Run) : Run := onW (http.Write data) x.

Definition log_Println (line : string) (x : Run) : Run :=
  {| W := W x; Log := Log x ++ [line]; Updates := Updates x |}.

Definition record_update (a : PolicyArgs) (x : Run) : Run :=
  {| W := W x; Log := Log x; Updates := Updates x ++ [a] |}.

(** The four header assignments every handler starts with. *)
Definition setCORS (x : Run) : Run :=
  onW (fun w =>
         http.Header_Set "Access-Control-Expose-Headers" "*"
           (http.Header_Set "Access-Control-Allow-Headers" "*"
              (http.Header_Set "Access-Control-Allow-Origin" "*"
                 (http.Header_Set "Access-Control-Allow-Methods" "*" w)))) x.

Section Service.

Context (P : Platform) (cfg : Config).

(** *** [json.Decoder] with [DisallowUnknownFields], into a [Policy] *)

(** The name a type error gives field [f], selected by [key]. *)
Definition errorField (key : string) (f : PolicyField) : string :=
  match json_fieldNaming P with
  | GoName => fieldName f
  | KeyAsSent => key
  end.

Definition object_member (d : decodeState) (m : string * JValue * Z) : decodeState :=
  let '(key, v, off) := m in
  match lookupField key with
  | None =>
      saveError (errorString ("json: unknown field " +:+ strconv_Quote P key)) d
  | Some f =>
      match storeIntPtr (errorField key f) v off with
      | inl x => {| target := setField f x (target d); savedError := savedError d |}
      | inr e => saveError e d
      end
  end.

Definition unmarshal (v : JValue) (off : Z) : Result Policy :=
  let typeError (what : string) :=
    Err (UnmarshalTypeError what "main.Policy" off "" "") in
  match v with
  | JNull => Ok zeroPolicy
  | JObject members =>
      let d := fold_left object_member members
                 {| target := zeroPolicy; savedError := None |} in
      match savedError d with
      | Some e => Err e
      | None => Ok (target d)
      end
  | JNumber _ => typeError "number"
  | JString _ => typeError "string"
  | JBool _ => typeError "bool"
  | JArray _ => typeError "array"
  end.

(** [dec.Decode(&p)]: scan one value out of the reader, then bind it.  A
    reader that runs dry first gives its own error, except that [io.EOF]
    after some non-space bytes becomes [io.ErrUnexpectedEOF]. *)
Definition Decode (rd : Reader) : Result Policy :=
  let atEOF := match final rd with io_EOF => true | _ => false end in
  match json_scan P (data rd) atEOF with
  | ScanValue v off => unmarshal v off
  | ScanSyntax msg off => Err (SyntaxError msg off)
  | ScanIncomplete nonSpace =>
      match final rd with
      | io_EOF => if nonSpace then Err io_ErrUnexpectedEOF else Err io_EOF
      | e => Err e
      end
  end.

(** [json.NewEncoder(&b).Encode(p)]. *)
Definition encodeIntPtr (x : option Z) : string :=
  match x with
  | Some z => fmt_d z
  | None => "null"
  end.

Definition Encode (p : Policy) : string :=
  "{" +:+ dquote +:+ "UnprocessableFileTypeAction" +:+ dquote +:+ ":"
  +:+ encodeIntPtr (UnprocessableFileTypeAction p)
  +:+ "," +:+ dquote +:+ "GlasswallBlockedFilesAction" +:+ dquote +:+ ":"
  +:+ encodeIntPtr (GlasswallBlockedFilesAction p) +:+ "}" +:+ newline.

(** *** [updatePolicy] *)

(** The [if err != nil] block after [dec.Decode]: one [http.Error] with the
    raw error, then the [switch]. *)
Definition decodeFailed (w : Run) (err : error) : Run :=
  let w := http_Error w (Error err) http.StatusBadRequest in
  match err with
  | SyntaxError _ Offset =>
      let msg := "Request body contains badly-formed JSON (at position "
                 +:+ fmt_d Offset +:+ ")" in
      http_Error w msg http.StatusBadRequest
  | io_ErrUnexpectedEOF =>
      let msg := "Request body contains badly-formed JSON" in
      http_Error w msg http.StatusBadRequest
  | UnmarshalTypeError _ _ Offset _ Field =>
      let msg := "Request body contains an invalid value for the "
                 +:+ strconv_Quote P Field +:+ " field (at position "
                 +:+ fmt_d Offset +:+ ")" in
      http_Error w msg http.StatusBadRequest
  | _ =>
      if HasPrefix (Error err) "json: unknown field " then
        let fieldName := TrimPrefix (Error err) "json: unknown field " in
        let msg := "Request body contains unknown field " +:+ fieldName in
        http_Error w msg http.StatusBadRequest
      else
        match err with
        | io_EOF =>
            let msg := "Request body must not be empty" in
            http_Error w msg http.StatusBadRequest
        | _ =>
            if String.eqb (Error err) "http: request body too large" then
              let msg := "Request body must not be larger than 1MB" in
              http_Error w msg http.StatusRequestEntityTooLarge
            else
              let w := log_Println (Error err) w in
              http_Error w (http.StatusText http.StatusInternalServerError)
                http.StatusInternalServerError
        end
  end.

(** Lines 53-122: everything [updatePolicy] does before it builds the
    cluster call.  [inl] is an early [return], [inr] carries on with the
    decoded policy. *)
Definition validatePolicy (w : Run) (r : Request) : Run + Run * Policy :=
  if negb (String.eqb (http.Header_Get (Header r) "Content-Type") "")
     && negb (String.eqb (header.ParseValueAndParams (Header r) "Content-Type")
                "application/json")
  then
    let msg := "Content-Type header is not application/json" in
    inl (http_Error w msg http.StatusUnsupportedMediaType)
  else
    let body := MaxBytesReader (body_reader (Body r)) 1048576 in
    match Decode body with
    | inr err => inl (decodeFailed w err)
    | inl p =>
        match UnprocessableFileTypeAction p with
        | None =>
            inl (http_Error w "UnprocessableFileTypeAction is required."
                   http.StatusBadRequest)
        | Some u =>
            if (u <=? 0) || (u >=? 5) then
              inl (http_Error w
                     "UnprocessableFileTypeAction must be between 1-4 inclusive."
                     http.StatusBadRequest)
            else
              match GlasswallBlockedFilesAction p with
              | None =>
                  inl (http_Error w "GlasswallBlockedFilesAction is required."
                         http.StatusBadRequest)
              | Some g =>
                  if (g <=? 0) || (g >=? 5) then
                    inl (http_Error w
                           "GlasswallBlockedFilesAction  must be between 1-4 inclusive."
                           http.StatusBadRequest)
                  else inr (w, p)
              end
        end
    end.

Definition updatePolicy (k : Cluster) (w : Run) (r : Request) : Run :=
  let w := setCORS w in
  if String.eqb (Method r) "OPTIONS" then w
  else
    match validatePolicy w r with
    | inl w => w
    | inr (w, p) =>
        let str := Encode p in
        let args := {| Policy_ := str; Namespace := namespace cfg;
                       ConfigMapName := configmapName cfg |} in
        match GetClient k args with
        | Some err =>
            let w := log_Println ("Unable to get client: " +:+ Error err) w in
            http_Error w "Something went wrong getting K8 Client."
              http.StatusInternalServerError
        | None =>
            let w := record_update args w in
            match UpdatePolicy k args with
            | Some err =>
                let w := log_Println ("Unable to update policy: " +:+ Error err) w in
                http_Error w "Something went wrong when updating the config map."
                  http.StatusInternalServerError
            | None => w_Write "Successfully updated config map." w
            end
        end
    end.

End Service.

(** ** [time] *)

(** A wall-clock instant, in nanoseconds since the Unix epoch. *)
Definition Time : Type := Z.
Definition Second : Z := 1000000000.
Definition Minute : Z := 60 * Second.
Definition Time_Add (t : Time) (d : Z) : Time := t + d.
Definition Time_Unix (t : Time) : Z := t / Second.

(** ** [github.com/dgrijalva/jwt-go] *)

Module jwt.

Inductive SigningMethod : Type :=
| SigningMethodHMAC (Name : string) (h : Hash)
| SigningMethodRSA (Name : string) (h : Hash)
| SigningMethodRSAPSS (Name : string) (h : Hash)
| SigningMethodECDSA (Name : string) (h : Hash)
| signingMethodNone.

Definition SigningMethodHS256 : SigningMethod := SigningMethodHMAC "HS256" SHA256.
Definition SigningMethodHS384 : SigningMethod := SigningMethodHMAC "HS384" SHA384.
Definition SigningMethodHS512 : SigningMethod := SigningMethodHMAC "HS512" SHA512.

Definition Alg (m : SigningMethod) : string :=
  match m with
  | SigningMethodHMAC n _ | SigningMethodRSA n _
  | SigningMethodRSAPSS n _ | SigningMethodECDSA n _ => n
  | signingMethodNone => "none"
  end.

(** The methods the package registers in its [init] functions. *)
Definition registry : list SigningMethod :=
  [ SigningMethodECDSA "ES256" SHA256; SigningMethodECDSA "ES384" SHA384;
    SigningMethodECDSA "ES512" SHA512;
    SigningMethodHS256; SigningMethodHS384; SigningMethodHS512;
    signingMethodNone;
    SigningMethodRSA "RS256" SHA256; SigningMethodRSA "RS384" SHA384;
    SigningMethodRSA "RS512" SHA512;
    SigningMethodRSAPSS "PS256" SHA256; SigningMethodRSAPSS "PS384" SHA384;
    SigningMethodRSAPSS "PS512" SHA512 ].

Definition GetSigningMethod (alg : string) : option SigningMethod :=
  List.find (fun m => String.eqb (Alg m) alg) registry.

Definition ValidationErrorMalformed : Z := Z.shiftl 1 0.
Definition ValidationErrorUnverifiable : Z := Z.shiftl 1 1.
Definition ValidationErrorSignatureInvalid : Z := Z.shiftl 1 2.
Definition ValidationErrorExpired : Z := Z.shiftl 1 4.
Definition ValidationErrorIssuedAt : Z := Z.shiftl 1 5.
Definition ValidationErrorNotValidYet : Z := Z.shiftl 1 7.
Definition ValidationErrorClaimsInvalid : Z := Z.shiftl 1 9.

Definition NewValidationError (errorText : string) (errorFlags : Z) : error :=
  ValidationError None errorText errorFlags.

Definition ErrInvalidKey : error := errorString "key is invalid".
Definition ErrInvalidKeyType : error := errorString "key is of invalid type".
Definition ErrHashUnavailable : error :=
  errorString "the requested hash function is unavailable".
Definition ErrSignatureInvalid : error := errorString "signature is invalid".
Definition NoneSignatureTypeDisallowedError : error :=
  NewValidationError "'none' signature type is not allowed"
    ValidationErrorSignatureInvalid.

Record Token : Type := {
  Raw : string;
  Method : option SigningMethod;
  Header : gmap string Any;
  Claims : gmap string Any;
  Signature : string;
  Valid : bool
}.

Definition NewWithClaims (method : SigningMethod) (claims : gmap string Any) : Token :=
  {| Raw := "";
     Method := Some method;
     Header := <["alg" := AString (Alg method)]> (<["typ" := AString "JWT"]> ∅);
     Claims := claims;
     Signature := "";
     Valid := false |}.

(** [verifyExp], [verifyIat], [verifyNbf]. *)
Definition verifyExp (exp now : Z) (required : bool) : bool :=
  if exp =? 0 then negb required else now <=? exp.

Definition verifyIat (iat now : Z) (required : bool) : bool :=
  if iat =? 0 then negb required else now >=? iat.

Definition verifyNbf (nbf now : Z) (required : bool) : bool :=
  if nbf =? 0 then negb required else now >=? nbf.

(** [MapClaims.VerifyExpiresAt] and its two siblings: only a [float64]
    claim is compared (no [json.Number] arises, the parser does not set
    [UseJSONNumber]); any other value passes unless required. *)
Definition VerifyExpiresAt (m : gmap string Any) (cmp : Z) (req : bool) : bool :=
  match m !! "exp" with
  | Some (AFloat64 exp) => verifyExp exp cmp req
  | _ => negb req
  end.

Definition VerifyIssuedAt (m : gmap string Any) (cmp : Z) (req : bool) : bool :=
  match m !! "iat" with
  | Some (AFloat64 iat) => verifyIat iat cmp req
  | _ => negb req
  end.

Definition VerifyNotBefore (m : gmap string Any) (cmp : Z) (req : bool) : bool :=
  match m !! "nbf" with
  | Some (AFloat64 nbf) => verifyNbf nbf cmp req
  | _ => negb req
  end.

(** [MapClaims.Valid], with [TimeFunc()] passed in.  [None] is a nil
    error; otherwise a [ValidationError] with the inner error of the last
    failed check and the flags of all of them. *)
Definition MapClaims_Valid (m : gmap string Any) (clock : Time) : option error :=
  let now := Time_Unix clock in
  let v0 : option error * Z := (None, 0) in
  let v1 := if negb (VerifyExpiresAt m now false)
            then (Some (errorString "Token is expired"),
                  Z.lor (snd v0) ValidationErrorExpired)
            else v0 in
  let v2 := if negb (VerifyIssuedAt m now false)
            then (Some (errorString "Token used before issued"),
                  Z.lor (snd v1) ValidationErrorIssuedAt)
            else v1 in
  let v3 := if negb (VerifyNotBefore m now false)
            then (Some (errorString "Token is not valid yet"),
                  Z.lor (snd v2) ValidationErrorNotValidYet)
            else v2 in
  if snd v3 =? 0 then None
  else Some (ValidationError (fst v3) "" (snd v3)).

Section WithPlatform.

Context (P : Platform).

(** [SigningMethod.Sign] and [Verify] with a [[]byte] key.  The
    asymmetric methods and [none] refuse such a key. *)
Definition Sign (m : SigningMethod) (signingString key : string) : Result string :=
  match m with
  | SigningMethodHMAC _ h =>
      if negb (hash_Available P h) then Err ErrHashUnavailable
      else Ok (EncodeSegment P (hmac_Sum P h key signingString))
  | SigningMethodRSA _ _ | SigningMethodRSAPSS _ _ => Err ErrInvalidKey
  | SigningMethodECDSA _ _ => Err ErrInvalidKeyType
  | signingMethodNone => Err NoneSignatureTypeDisallowedError
  end.

Definition Verify (m : SigningMethod) (signingString signature key : string)
  : option error :=
  match m with
  | SigningMethodHMAC _ h =>
      match DecodeSegment P signature with
      | inr err => Some err
      | inl sig =>
          if negb (hash_Available P h) then Some ErrHashUnavailable
          else if String.eqb sig (hmac_Sum P h key signingString) then None
          else Some ErrSignatureInvalid
      end
  | SigningMethodRSA _ _ | SigningMethodECDSA _ _ => Some ErrInvalidKeyType
  | SigningMethodRSAPSS _ _ => Some ErrInvalidKey
  | signingMethodNone => Some NoneSignatureTypeDisallowedError
  end.

Definition SigningString (t : Token) : Result string :=
  do h <- json_Marshal P (Header t);
  do c <- json_Marshal P (Claims t);
  Ok (EncodeSegment P h +:+ "." +:+ EncodeSegment P c).

Definition SignedString (t : Token) (key : string) : Result string :=
  do sstr <- SigningString t;
  do sig <- match Method t with
            | Some m => Sign m sstr key
            | None => Err ErrInvalidKey
            end;
  Ok (sstr +:+ "." +:+ sig).

(** [Parser.ParseUnverified] with [MapClaims]: the token and its three
    parts. *)
Definition ParseUnverified (tokenString : string)
  : Result (Token * (string * string * string)) :=
  match Split tokenString "." with
  | [p0; p1; p2] =>
      match DecodeSegment P p0 with
      | inr err =>
          if HasPrefix (ToLower tokenString) "bearer "
          then Err (NewValidationError "tokenstring should not contain 'bearer '"
                      ValidationErrorMalformed)
          else Err (ValidationError (Some err) "" ValidationErrorMalformed)
      | inl headerBytes =>
          match json_Unmarshal P headerBytes with
          | inr err => Err (ValidationError (Some err) "" ValidationErrorMalformed)
          | inl hdr =>
              match DecodeSegment P p1 with
              | inr err => Err (ValidationError (Some err) "" ValidationErrorMalformed)
              | inl claimBytes =>
                  match json_Decode P claimBytes with
                  | inr err =>
                      Err (ValidationError (Some err) "" ValidationErrorMalformed)
                  | inl c =>
                      match hdr !! "alg" with
                      | Some (AString method) =>
                          match GetSigningMethod method with
                          | None =>
                              Err (NewValidationError
                                     "signing method (alg) is unavailable."
                                     ValidationErrorUnverifiable)
                          | Some m =>
                              Ok ({| Raw := tokenString; Method := Some m;
                                     Header := hdr; Claims := c;
                                     Signature := ""; Valid := false |},
                                  (p0, p1, p2))
                          end
                      | _ =>
                          Err (NewValidationError
                                 "signing method (alg) is unspecified."
                                 ValidationErrorUnverifiable)
                      end
                  end
              end
          end
      end
  | _ => Err (NewValidationError "token contains an invalid number of segments"
                ValidationErrorMalformed)
  end.

(** [Parse(tokenString, keyFunc)]. *)
Definition Parse (clock : Time) (tokenString : string)
    (keyFunc : Token → Result string) : Result Token :=
  do tp <- ParseUnverified tokenString;
  let '(token, (p0, p1, p2)) := tp in
  match keyFunc token with
  | inr (ValidationError i t f) => Err (ValidationError i t f)
  | inr err => Err (ValidationError (Some err) "" ValidationErrorUnverifiable)
  | inl key =>
      let vErr : option error * Z :=
        match MapClaims_Valid (Claims token) clock with
        | Some (ValidationError inner _ flags) => (inner, flags)
        | Some err => (Some err, ValidationErrorClaimsInvalid)
        | None => (None, 0)
        end in
      let verr :=
        match Method token with
        | Some m => Verify m (p0 +:+ "." +:+ p1) p2 key
        | None => Some ErrInvalidKey
        end in
      let vErr :=
        match verr with
        | Some err => (Some err, Z.lor (snd vErr) ValidationErrorSignatureInvalid)
        | None => vErr
        end in
      if snd vErr =? 0 then
        Ok {| Raw := Raw token; Method := Method token; Header := Header token;
              Claims := Claims token; Signature := p2; Valid := true |}
      else Err (ValidationError (fst vErr) "" (snd vErr))
  end.

End WithPlatform.

End jwt.

(** ** The token and authentication handlers *)

(** How a call ends: it returns, or a run-time panic unwinds it. *)
Inductive Outcome (A : Type) : Type :=
| Returns (a : A)
| Panics (msg : string).

Arguments Returns {A} a.
Arguments Panics {A} msg.

(** The dynamic type named by a failed [x.(string)]. *)
Definition dynamicType (x : option Any) : string :=
  match x with
  | None | Some ANil => "nil"
  | Some (ABool _) => "bool"
  | Some (AInt64 _) => "int64"
  | Some (AFloat64 _) => "float64"
  | Some (AString _) => "string"
  | Some ASlice => "[]interface {}"
  | Some AMap => "map[string]interface {}"
  end.

Section Tokens.

Context (P : Platform) (cfg : Config).

(** The claims [createToken] puts in the token at instant [now]. *)
Definition issuedClaims (now : Time) : gmap string Any :=
  <["iss" := AString "auth-app"]>
    (<["sub" := AString (username cfg)]>
       (<["aud" := AString "any"]>
          (<["exp" := AInt64 (Time_Unix (Time_Add now (Minute * 5)))]> ∅))).

Definition createToken (now : Time) (w : Run) (r : Request) : Run :=
  let w := setCORS w in
  if String.eqb (Method r) "OPTIONS" then w
  else
    let token := jwt.NewWithClaims jwt.SigningMethodHS256 (issuedClaims now) in
    let jwtToken :=
      match jwt.SignedString P token "secret" with
      | inl s => s
      | inr _ => ""
      end in
    w_Write jwtToken w.

Definition validateUser (usr pass : string) : Result Info :=
  if (if String.eqb usr (username cfg) then String.eqb pass (password cfg) else false)
  then Ok (NewDefaultUser usr "1" [] ∅)
  else Err (errorString "Invalid credentials").

(** The key function handed to [jwt.Parse]. *)
Definition keyFunc (token : jwt.Token) : Result string :=
  match jwt.Method token with
  | Some (jwt.SigningMethodHMAC _ _) => Ok "secret"
  | _ =>
      Err (errorString ("Unexpected signing method: "
                        +:+ match jwt.Header token !! "alg" with
                            | Some (AString a) => a
                            | _ => "<nil>"
                            end))
  end.

Definition verifyToken (now : Time) (tokenString : string) : Outcome (Result Info) :=
  match jwt.Parse P now tokenString keyFunc with
  | inr err => Returns (Err err)
  | inl token =>
      if jwt.Valid token then
        match jwt.Claims token !! "sub" with
        | Some (AString sub) => Returns (Ok (NewDefaultUser sub "" [] ∅))
        | other =>
            Panics ("interface conversion: interface {} is "
                    +:+ dynamicType other +:+ ", not string")
        end
      else Returns (Err (errorString "Invalid token"))
  end.

(** [authenticator] is the package-level [auth.Authenticator]; [next] is
    the rest of the middleware chain. *)
Definition authMiddleware (authenticator : Request → Result Info)
    (next : Run → Request → Run) (w : Run) (r : Request) : Run :=
  let w := setCORS w in
  if String.eqb (Method r) "OPTIONS" then w
  else
    let w := log_Println "Executing Auth Middleware" w in
    match authenticator r with
    | inr err =>
        let code := http.StatusUnauthorized in
        http_Error w (Error err) code
    | inl user =>
        let w := log_Println ("User " +:+ UserName user +:+ " Authenticated") w in
        next w r
    end.

End Tokens.

(** ** The order of evaluation in [validateUser]

    The condition of [validateUser] is [usr == username && pass == password].
    Go evaluates the operands of [&&] from left to right, and the right one
    only when the left one is true.  [Steps] pairs a value with the string
    comparisons that were evaluated to obtain it, in order. *)

Definition Steps (A : Type) : Type := (A * list (string * string))%type.

Definition string_eq (x y : string) : Steps bool := (String.eqb x y, [(x, y)]).

Definition and_then (a : Steps bool) (b : unit → Steps bool) : Steps bool :=
  if fst a then (fst (b tt), (snd a ++ snd (b tt))%list) else (false, snd a).

Definition validateUser_steps (cfg : Config) (usr pass : string) : Steps (Result Info) :=
  let cond := and_then (string_eq usr (username cfg))
                (fun _ => string_eq pass (password cfg)) in
  if fst cond then (Ok (NewDefaultUser usr "1" [] ∅), snd cond)
  else (Err (errorString "Invalid credentials"), snd cond).

(** ** A reference platform

    Executable stand-ins for the [Platform] primitives, used to run the
    handlers on concrete requests.  The theorems below hold for every
    platform; this one shows their hypotheses can be met. *)

Module Ref.

(** *** Unpadded base64url

    The padded form and embedded line breaks, which the library's decoder
    also takes, are refused here. *)

Definition alphabet : string :=
  "ABCDEFGHIJKLMNOPQRSTUVWXYZabcdefghijklmnopqrstuvwxyz0123456789-_".

Definition sextet_char (n : N) : ascii :=
  match String.get (N.to_nat n) alphabet with
  | Some c => c
  | None => "="%char
  end.

Fixpoint index_of (c : ascii) (s : string) (i : N) : option N :=
  match s with
  | EmptyString => None
  | String d s' => if Ascii.eqb c d then Some i else index_of c s' (i + 1)
  end.

Definition char_sextet (c : ascii) : option N := index_of c alphabet 0.

Fixpoint b64_encode (s : string) : string :=
  match s with
  | EmptyString => ""
  | String a EmptyString =>
      let x := N_of_ascii a in
      String (sextet_char (N.shiftr x 2))
        (String (sextet_char (N.shiftl (N.land x 3) 4)) "")
  | String a (String b EmptyString) =>
      let x := N_of_ascii a in
      let y := N_of_ascii b in
      String (sextet_char (N.shiftr x 2))
        (String (sextet_char (N.lor (N.shiftl (N.land x 3) 4) (N.shiftr y 4)))
           (String (sextet_char (N.shiftl (N.land y 15) 2)) ""))
  | String a (String b (String c rest)) =>
      let x := N_of_ascii a in
      let y := N_of_ascii b in
      let z := N_of_ascii c in
      String (sextet_char (N.shiftr x 2))
        (String (sextet_char (N.lor (N.shiftl (N.land x 3) 4) (N.shiftr y 4)))
           (String (sextet_char (N.lor (N.shiftl (N.land y 15) 2) (N.shiftr z 6)))
              (String (sextet_char (N.land z 63)) (b64_encode rest))))
  end.

Definition corrupt (pos : Z) : error :=
  errorString ("illegal base64 data at input byte " +:+ fmt_d pos).

(** Four characters give three bytes; a tail of two or three characters
    gives one or two; a tail of one is corrupt. *)
Fixpoint b64_decode (s : string) (pos : Z) : Result string :=
  match s with
  | EmptyString => Ok ""
  | String c0 (String c1 rest) =>
      match char_sextet c0, char_sextet c1 with
      | Some s0, Some s1 =>
          let b0 := ascii_of_N (N.lor (N.shiftl s0 2) (N.shiftr s1 4)) in
          match rest with
          | EmptyString => Ok (String b0 "")
          | String c2 rest2 =>
              match char_sextet c2 with
              | Some s2 =>
                  let b1 := ascii_of_N
                              (N.lor (N.shiftl (N.land s1 15) 4) (N.shiftr s2 2)) in
                  match rest2 with
                  | EmptyString => Ok (String b0 (String b1 ""))
                  | String c3 rest3 =>
                      match char_sextet c3 with
                      | Some s3 =>
                          let b2 := ascii_of_N (N.lor (N.shiftl (N.land s2 3) 6) s3) in
                          do tl <- b64_decode rest3 (pos + 4);
                          Ok (String b0 (String b1 (String b2 tl)))
                      | None => Err (corrupt (pos + 3))
                      end
                  end
              | None => Err (corrupt (pos + 2))
              end
          end
      | None, _ => Err (corrupt pos)
      | _, None => Err (corrupt (pos + 1))
      end
  | String _ EmptyString => Err (corrupt pos)
  end.

Definition EncodeSegment (b : string) : string := b64_encode b.
Definition DecodeSegment (seg : string) : Result string := b64_decode seg 0.

(** *** JSON text: the scanner

    A recursive-descent reading of the grammar the package's scanner
    accepts, with its error texts.  Offsets count bytes from the start of
    the body.  Restrictions: string bytes above 127 are kept as they are
    (no UTF-8 validation), and a [\u] escape only produces code points
    below 2048 or non-surrogate three-byte ones. *)

Inductive PR (A : Type) : Type :=
| POk (a : A) (rest : string) (pos : Z)
| PSyntax (msg : string) (off : Z)
| PMore.

Arguments POk {A} a rest pos.
Arguments PSyntax {A} msg off.
Arguments PMore {A}.

Definition squote : string := "'".
Definition backslash : ascii := "\"%char.

Definition quoteChar (c : ascii) : string :=
  if Ascii.eqb c "'" then squote +:+ "\'" +:+ squote
  else squote +:+ String c "" +:+ squote.

Definition invalid {A} (c : ascii) (context : string) (pos : Z) : PR A :=
  PSyntax ("invalid character " +:+ quoteChar c +:+ " " +:+ context) (pos + 1).

Definition is_space (c : ascii) : bool :=
  Ascii.eqb c " " || Ascii.eqb c "009" || Ascii.eqb c "013" || Ascii.eqb c "010".

Fixpoint skip_space (s : string) (pos : Z) : string * Z :=
  match s with
  | String c s' => if is_space c then skip_space s' (pos + 1) else (s, pos)
  | EmptyString => (s, pos)
  end.

Definition is_digit (c : ascii) : bool :=
  let n := N_of_ascii c in ((48 <=? n) && (n <=? 57))%N.

Definition hex_val (c : ascii) : option N :=
  let n := N_of_ascii c in
  if ((48 <=? n) && (n <=? 57))%N then Some (n - 48)%N
  else if ((97 <=? n) && (n <=? 102))%N then Some (n - 87)%N
  else if ((65 <=? n) && (n <=? 70))%N then Some (n - 55)%N
  else None.

Definition utf8 (cp : N) : string :=
  if (cp <? 128)%N then String (ascii_of_N cp) ""
  else if (cp <? 2048)%N then
    String (ascii_of_N (192 + N.shiftr cp 6))
      (String (ascii_of_N (128 + N.land cp 63)) "")
  else
    let cp := if ((55296 <=? cp) && (cp <=? 57343))%N then 65533%N else cp in
    String (ascii_of_N (224 + N.shiftr cp 12))
      (String (ascii_of_N (128 + N.land (N.shiftr cp 6) 63))
         (String (ascii_of_N (128 + N.land cp 63)) "")).

Definition simple_escape (e : ascii) : option ascii :=
  if Ascii.eqb e "034" then Some "034"%char
  else if Ascii.eqb e backslash then Some backslash
  else if Ascii.eqb e "/" then Some "/"%char
  else if Ascii.eqb e "b" then Some "008"%char
  else if Ascii.eqb e "f" then Some "012"%char
  else if Ascii.eqb e "n" then Some "010"%char
  else if Ascii.eqb e "r" then Some "013"%char
  else if Ascii.eqb e "t" then Some "009"%char
  else None.

Definition prepend {A B} (f : A → B) (r : PR A) : PR B :=
  match r with
  | POk a rest pos => POk (f a) rest pos
  | PSyntax m o => PSyntax m o
  | PMore => PMore
  end.

(** The inside of a string literal, after the opening quote. *)
Fixpoint parse_string (s : string) (pos : Z) : PR string :=
  match s with
  | EmptyString => PMore
  | String c s' =>
      if Ascii.eqb c "034" then POk "" s' (pos + 1)
      else if Ascii.eqb c backslash then
        match s' with
        | EmptyString => PMore
        | String e s'' =>
            match simple_escape e with
            | Some b => prepend (String b) (parse_string s'' (pos + 2))
            | None =>
                if Ascii.eqb e "u" then
                  match s'' with
                  | String h1 (String h2 (String h3 (String h4 r))) =>
                      match hex_val h1, hex_val h2, hex_val h3, hex_val h4 with
                      | Some a, Some b, Some c4, Some d =>
                          let cp := (((a * 16 + b) * 16 + c4) * 16 + d)%N in
                          prepend (String.append (utf8 cp)) (parse_string r (pos + 6))
                      | None, _, _, _ => invalid h1 "in \u hexadecimal character escape" (pos + 2)
                      | _, None, _, _ => invalid h2 "in \u hexadecimal character escape" (pos + 3)
                      | _, _, None, _ => invalid h3 "in \u hexadecimal character escape" (pos + 4)
                      | _, _, _, None => invalid h4 "in \u hexadecimal character escape" (pos + 5)
                      end
                  | _ => PMore
                  end
                else invalid e "in string escape code" (pos + 1)
            end
        end
      else if (N_of_ascii c <? 32)%N then invalid c "in string literal" pos
      else prepend (String c) (parse_string s' (pos + 1))
  end.

(** Number literals: the scanner's states. *)
Inductive NumState : Type := NNeg | N0 | N1 | NDot | NDot0 | NE | NESign | NE0.

Definition num_final (st : NumState) : bool :=
  match st with
  | N0 | N1 | NDot0 | NE0 => true
  | _ => false
  end.

Inductive NumStep : Type := NGo (st : NumState) | NStop | NBad (context : string).

Definition num_step (st : NumState) (c : ascii) : NumStep :=
  let isE := Ascii.eqb c "e" || Ascii.eqb c "E" in
  match st with
  | NNeg => if Ascii.eqb c "0" then NGo N0
            else if is_digit c then NGo N1
            else NBad "in numeric literal"
  | N0 => if Ascii.eqb c "." then NGo NDot else if isE then NGo NE else NStop
  | N1 => if is_digit c then NGo N1
          else if Ascii.eqb c "." then NGo NDot else if isE then NGo NE else NStop
  | NDot => if is_digit c then NGo NDot0
            else NBad "after decimal point in numeric literal"
  | NDot0 => if is_digit c then NGo NDot0 else if isE then NGo NE else NStop
  | NE => if Ascii.eqb c "+" || Ascii.eqb c "-" then NGo NESign
          else if is_digit c then NGo NE0
          else NBad "in exponent of numeric literal"
  | NESign => if is_digit c then NGo NE0 else NBad "in exponent of numeric literal"
  | NE0 => if is_digit c then NGo NE0 else NStop
  end.

Inductive NumR : Type :=
| NumDone (lit rest : string) (pos : Z)
| NumEnd (lit : string) (pos : Z) (final_ : bool)
| NumBad (msg : string) (off : Z).

Fixpoint scan_num (st : NumState) (s : string) (pos : Z) : NumR :=
  match s with
  | EmptyString => NumEnd "" pos (num_final st)
  | String c s' =>
      match num_step st c with
      | NGo st' =>
          match scan_num st' s' (pos + 1) with
          | NumDone lit rest p => NumDone (String c lit) rest p
          | NumEnd lit p f => NumEnd (String c lit) p f
          | NumBad m o => NumBad m o
          end
      | NStop => NumDone "" s pos
      | NBad context =>
          NumBad ("invalid character " +:+ quoteChar c +:+ " " +:+ context) (pos + 1)
      end
  end.

(** A number starting at its first byte [c]. *)
Definition start_num (c : ascii) (s' : string) (pos : Z) : NumR :=
  let st := if Ascii.eqb c "-" then NNeg else if Ascii.eqb c "0" then N0 else N1 in
  match scan_num st s' (pos + 1) with
  | NumDone lit rest p => NumDone (String c lit) rest p
  | NumEnd lit p f => NumEnd (String c lit) p f
  | NumBad m o => NumBad m o
  end.

(** The rest of [true], [false] or [null] after the first letter. *)
Fixpoint expect_lit (name want s : string) (pos : Z) (v : JValue) : PR JValue :=
  match want with
  | EmptyString => POk v s pos
  | String w want' =>
      match s with
      | EmptyString => PMore
      | String c s' =>
          if Ascii.eqb c w then expect_lit name want' s' (pos + 1) v
          else invalid c ("in literal " +:+ name +:+ " (expecting "
                          +:+ quoteChar w +:+ ")") pos
      end
  end.

(** The offset the decoder reports for a value it cannot store: the end of
    a literal, one past the opening bracket of an array or object. *)
Definition report_offset (v : JValue) (start_ end_ : Z) : Z :=
  match v with
  | JArray _ | JObject _ => start_ + 1
  | _ => end_
  end.

Fixpoint parse_value (fuel : nat) (s : string) (pos : Z) : PR JValue :=
  match fuel with
  | O => PSyntax "exceeded max depth" pos
  | S fuel' =>
      match s with
      | EmptyString => PMore
      | String c s' =>
          if Ascii.eqb c "{" then
            let '(s1, p1) := skip_space s' (pos + 1) in
            match s1 with
            | EmptyString => PMore
            | String d s2 =>
                if Ascii.eqb d "}" then POk (JObject []) s2 (p1 + 1)
                else parse_members fuel' s1 p1 []
            end
          else if Ascii.eqb c "[" then
            let '(s1, p1) := skip_space s' (pos + 1) in
            match s1 with
            | EmptyString => PMore
            | String d s2 =>
                if Ascii.eqb d "]" then POk (JArray []) s2 (p1 + 1)
                else parse_elems fuel' s1 p1 []
            end
          else if Ascii.eqb c "034" then
            prepend JString (parse_string s' (pos + 1))
          else if Ascii.eqb c "-" || is_digit c then
            match start_num c s' pos with
            | NumDone lit rest p => POk (JNumber lit) rest p
            | NumEnd _ _ _ => PMore
            | NumBad m o => PSyntax m o
            end
          else if Ascii.eqb c "t" then expect_lit "true" "rue" s' (pos + 1) (JBool true)
          else if Ascii.eqb c "f" then expect_lit "false" "alse" s' (pos + 1) (JBool false)
          else if Ascii.eqb c "n" then expect_lit "null" "ull" s' (pos + 1) JNull
          else invalid c "looking for beginning of value" pos
      end
  end

(** Members from a key on; [acc] holds the members read so far, last
    first. *)
with parse_members (fuel : nat) (s : string) (pos : Z)
       (acc : list (string * JValue * Z)) : PR JValue :=
  match fuel with
  | O => PSyntax "exceeded max depth" pos
  | S fuel' =>
      match s with
      | EmptyString => PMore
      | String q s' =>
          if negb (Ascii.eqb q "034")
          then invalid q "looking for beginning of object key string" pos
          else
            match parse_string s' (pos + 1) with
            | PSyntax m o => PSyntax m o
            | PMore => PMore
            | POk key s1 p1 =>
                let '(s2, p2) := skip_space s1 p1 in
                match s2 with
                | EmptyString => PMore
                | String colon s3 =>
                    if negb (Ascii.eqb colon ":")
                    then invalid colon "after object key" p2
                    else
                      let '(s4, p4) := skip_space s3 (p2 + 1) in
                      match parse_value fuel' s4 p4 with
                      | PSyntax m o => PSyntax m o
                      | PMore => PMore
                      | POk v s5 p5 =>
                          let acc' := (key, v, report_offset v p4 p5) :: acc in
                          let '(s6, p6) := skip_space s5 p5 in
                          match s6 with
                          | EmptyString => PMore
                          | String d s7 =>
                              if Ascii.eqb d "}" then POk (JObject (rev acc')) s7 (p6 + 1)
                              else if Ascii.eqb d "," then
                                let '(s8, p8) := skip_space s7 (p6 + 1) in
                                parse_members fuel' s8 p8 acc'
                              else invalid d "after object key:value pair" p6
                          end
                      end
                end
            end
      end
  end

with parse_elems (fuel : nat) (s : string) (pos : Z) (acc : list JValue) : PR JValue :=
  match fuel with
  | O => PSyntax "exceeded max depth" pos
  | S fuel' =>
      match parse_value fuel' s pos with
      | PSyntax m o => PSyntax m o
      | PMore => PMore
      | POk v s1 p1 =>
          let '(s2, p2) := skip_space s1 p1 in
          match s2 with
          | EmptyString => PMore
          | String d s3 =>
              if Ascii.eqb d "]" then POk (JArray (rev (v :: acc))) s3 (p2 + 1)
              else if Ascii.eqb d "," then
                let '(s4, p4) := skip_space s3 (p2 + 1) in
                parse_elems fuel' s4 p4 (v :: acc)
              else invalid d "after array element" p2
          end
      end
  end.

Definition fuel_for (s : string) : nat := 2 * String.length s + 2.

(** One value off the front of [s]; a top-level number is complete at the
    end of the bytes only when they end with [io.EOF]. *)
Definition json_scan (s : string) (atEOF : bool) : ScanResult :=
  let '(s1, p1) := skip_space s 0 in
  match s1 with
  | EmptyString => ScanIncomplete false
  | String c s' =>
      if Ascii.eqb c "-" || is_digit c then
        match start_num c s' p1 with
        | NumDone lit _ p => ScanValue (JNumber lit) p
        | NumEnd lit p f => if f && atEOF then ScanValue (JNumber lit) p
                            else ScanIncomplete true
        | NumBad m o => ScanSyntax m o
        end
      else
        match parse_value (fuel_for s1) s1 p1 with
        | POk v _ p => ScanValue v (report_offset v p1 p)
        | PSyntax m o => ScanSyntax m o
        | PMore => ScanIncomplete true
        end
  end.

(** *** SHA-2 and HMAC (FIPS 180-4, RFC 2104), over bytes as [Z] *)

Definition bytes_of (s : string) : list Z :=
  map (fun c => Z.of_N (N_of_ascii c)) (list_ascii_of_string s).

Definition string_of (bs : list Z) : string :=
  string_of_list_ascii (map (fun b => ascii_of_N (Z.to_N b)) bs).

(** The round constants are the leading fractional bits of the cube roots
    of the first primes, the initial values those of square roots. *)
Fixpoint bisect (fuel : nat) (f : Z → bool) (lo hi : Z) : Z :=
  match fuel with
  | O => lo
  | S fuel' =>
      if hi - lo <=? 1 then lo
      else let mid := (lo + hi) / 2 in
           if f mid then bisect fuel' f mid hi else bisect fuel' f lo mid
  end.

Definition cbrt_frac (w p : Z) : Z :=
  let n := Z.shiftl p (3 * w) in
  bisect (Z.to_nat (w + 8)) (fun m => m * m * m <=? n) 0 (Z.shiftl 8 w) mod 2 ^ w.

Definition sqrt_frac (w p : Z) : Z := Z.sqrt (Z.shiftl p (2 * w)) mod 2 ^ w.

Fixpoint next_primes (fuel : nat) (count : nat) (c : Z) (found : list Z) : list Z :=
  match fuel, count with
  | _, O => rev found
  | O, _ => rev found
  | S fuel', S count' =>
      if forallb (fun q => negb (c mod q =? 0)) found
      then next_primes fuel' count' (c + 1) (c :: found)
      else next_primes fuel' count (c + 1) found
  end.

Definition primes (n : nat) : list Z := next_primes 512 n 2 [].

Record Sha2 : Type := {
  wbits : Z;
  K : list Z;
  IV : list Z;
  Sigma0 : Z * Z * Z;
  Sigma1 : Z * Z * Z;
  sigma0 : Z * Z * Z;
  sigma1 : Z * Z * Z;
  outLen : nat
}.

Definition sha256_params : Sha2 :=
  {| wbits := 32;
     K := map (cbrt_frac 32) (primes 64);
     IV := map (sqrt_frac 32) (primes 8);
     Sigma0 := (2, 13, 22); Sigma1 := (6, 11, 25);
     sigma0 := (7, 18, 3); sigma1 := (17, 19, 10);
     outLen := 32 |}.

Definition sha512_params : Sha2 :=
  {| wbits := 64;
     K := map (cbrt_frac 64) (primes 80);
     IV := map (sqrt_frac 64) (primes 8);
     Sigma0 := (28, 34, 39); Sigma1 := (14, 18, 41);
     sigma0 := (1, 8, 7); sigma1 := (19, 61, 6);
     outLen := 64 |}.

Definition sha384_params : Sha2 :=
  {| wbits := 64;
     K := map (cbrt_frac 64) (primes 80);
     IV := map (sqrt_frac 64) (skipn 8 (primes 16));
     Sigma0 := (28, 34, 39); Sigma1 := (14, 18, 41);
     sigma0 := (1, 8, 7); sigma1 := (19, 61, 6);
     outLen := 48 |}.

Section Sha2.

Context (prm : Sha2).

Let w := wbits prm.
Definition wrap (x : Z) : Z := x mod 2 ^ w.
Definition rotr (x n : Z) : Z :=
  wrap (Z.lor (Z.shiftr x n) (Z.shiftl x (w - n))).
Definition big (r : Z * Z * Z) (x : Z) : Z :=
  let '(a, b, c) := r in Z.lxor (Z.lxor (rotr x a) (rotr x b)) (rotr x c).
Definition small (r : Z * Z * Z) (x : Z) : Z :=
  let '(a, b, c) := r in Z.lxor (Z.lxor (rotr x a) (rotr x b)) (Z.shiftr x c).
Definition Ch (x y z : Z) : Z :=
  Z.lxor (Z.land x y) (Z.land (wrap (Z.lnot x)) z).
Definition Maj (x y z : Z) : Z :=
  Z.lxor (Z.lxor (Z.land x y) (Z.land x z)) (Z.land y z).

Definition wordBytes : nat := Z.to_nat (w / 8).
Definition blockBytes : nat := 16 * wordBytes.

Definition be_word (bs : list Z) : Z := fold_left (fun acc b => acc * 256 + b) bs 0.

Fixpoint be_bytes (n : nat) (x : Z) : list Z :=
  match n with
  | O => []
  | S n' => be_bytes n' (x / 256) ++ [x mod 256]
  end.

Fixpoint chunks (fuel : nat) (size : nat) (bs : list Z) : list (list Z) :=
  match fuel, bs with
  | _, [] => []
  | O, _ => []
  | S fuel', _ => firstn size bs :: chunks fuel' size (skipn size bs)
  end.

Definition pad (msg : list Z) : list Z :=
  let l := Z.of_nat (List.length msg) in
  let blk := Z.of_nat blockBytes in
  let lenBytes := (2 * wordBytes)%nat in
  let k := (blk - (l + 1 + Z.of_nat lenBytes) mod blk) mod blk in
  msg ++ [128] ++ repeat 0 (Z.to_nat k) ++ be_bytes lenBytes (8 * l).

(** The message schedule, newest word first. *)
Fixpoint schedule (n : nat) (ws : list Z) : list Z :=
  match n with
  | O => ws
  | S n' =>
      let x := wrap (small (sigma1 prm) (nth 1 ws 0) + nth 6 ws 0
                     + small (sigma0 prm) (nth 14 ws 0) + nth 15 ws 0) in
      schedule n' (x :: ws)
  end.

Definition round (st : list Z) (kw : Z * Z) : list Z :=
  match st with
  | [a; b; c; d; e; f; g; h] =>
      let t1 := h + big (Sigma1 prm) e + Ch e f g + fst kw + snd kw in
      let t2 := big (Sigma0 prm) a + Maj a b c in
      [wrap (t1 + t2); a; b; c; wrap (d + t1); e; f; g]
  | _ => st
  end.

Definition compress (h : list Z) (block : list Z) : list Z :=
  let w16 := map be_word (chunks 16 wordBytes block) in
  let ws := rev (schedule (List.length (K prm) - 16) (rev w16)) in
  let st := fold_left round (combine (K prm) ws) h in
  map (fun xy => wrap (fst xy + snd xy)) (combine h st).

Definition digest (msg : list Z) : list Z :=
  let padded := pad msg in
  let blocks := chunks (List.length padded) blockBytes padded in
  let h := fold_left compress blocks (IV prm) in
  firstn (outLen prm) (concat (map (be_bytes wordBytes) h)).

Definition hmac (key msg : list Z) : list Z :=
  let key := if (blockBytes <? List.length key)%nat then digest key else key in
  let key := (key ++ repeat 0 (blockBytes - List.length key))%list in
  let ipad := map (fun b => Z.lxor b 54) key in
  let opad := map (fun b => Z.lxor b 92) key in
  digest (opad ++ digest (ipad ++ msg)).

End Sha2.

Definition params_of (h : Hash) : Sha2 :=
  match h with
  | SHA256 => sha256_params
  | SHA384 => sha384_params
  | SHA512 => sha512_params
  end.

Definition hmac_Sum (h : Hash) (key msg : string) : string :=
  string_of (hmac (params_of h) (bytes_of key) (bytes_of msg)).

Definition hex_digit (n : Z) : ascii :=
  match String.get (Z.to_nat n) "0123456789abcdef" with
  | Some c => c
  | None => "?"%char
  end.

Definition hex_byte (b : Z) : string :=
  String (hex_digit (b / 16)) (String (hex_digit (b mod 16)) "").

(** *** JSON text of a [map[string]interface{}] *)

Definition u00 (c : ascii) : string :=
  String backslash "u00" +:+ hex_byte (Z.of_N (N_of_ascii c)).

(** The encoder's string escaping (HTML-safe form). *)
Fixpoint json_escape (s : string) : string :=
  match s with
  | EmptyString => ""
  | String c s' =>
      (if Ascii.eqb c "034" || Ascii.eqb c backslash then String backslash (String c "")
       else if Ascii.eqb c "010" then String backslash "n"
       else if Ascii.eqb c "013" then String backslash "r"
       else if Ascii.eqb c "009" then String backslash "t"
       else if (N_of_ascii c <? 32)%N || Ascii.eqb c "<" || Ascii.eqb c ">"
               || Ascii.eqb c "&" then u00 c
       else String c "") +:+ json_escape s'
  end.

Definition json_string (s : string) : string := dquote +:+ json_escape s +:+ dquote.

Definition marshal_any (x : Any) : Result string :=
  match x with
  | ANil => Ok "null"
  | ABool true => Ok "true"
  | ABool false => Ok "false"
  | AInt64 z | AFloat64 z => Ok (fmt_d z)
  | AString s => Ok (json_string s)
  | ASlice | AMap => Err (errorString "json: unsupported value: contents not represented")
  end.

Fixpoint marshal_members (kvs : list (string * Any)) : Result (list string) :=
  match kvs with
  | [] => Ok []
  | (k, v) :: rest =>
      do j <- marshal_any v;
      do tl <- marshal_members rest;
      Ok ((json_string k +:+ ":" +:+ j) :: tl)
  end.

(** Keys in byte order, as the encoder sorts them. *)
Definition json_Marshal (m : gmap string Any) : Result string :=
  let kvs := merge_sort (fun a b : string * Any => Is_true (String.leb a.1 b.1))
               (map_to_list m) in
  do ms <- marshal_members kvs;
  Ok ("{" +:+ String.concat "," ms +:+ "}").

(** Decoding into [interface{}]: numbers become [float64]; this codec
    only takes integer literals up to 2^53, which convert exactly. *)
Definition to_any (v : JValue) : Result Any :=
  match v with
  | JNull => Ok ANil
  | JBool b => Ok (ABool b)
  | JNumber lit =>
      match ParseInt lit with
      | Some z => if Z.abs z <=? 2 ^ 53 then Ok (AFloat64 z)
                  else Err (errorString "reference codec: number beyond 2^53")
      | None => Err (errorString "reference codec: not an integer literal")
      end
  | JString s => Ok (AString s)
  | JArray _ => Ok ASlice
  | JObject _ => Ok AMap
  end.

Fixpoint to_map (members : list (string * JValue * Z)) (m : gmap string Any)
  : Result (gmap string Any) :=
  match members with
  | [] => Ok m
  | (k, v, _) :: rest => do x <- to_any v; to_map rest (<[k := x]> m)
  end.

Definition kind_of (v : JValue) : string :=
  match v with
  | JNull => "null" | JBool _ => "bool" | JNumber _ => "number"
  | JString _ => "string" | JArray _ => "array" | JObject _ => "object"
  end.

Definition bind_map (type_ : string) (v : JValue) (off : Z) : Result (gmap string Any) :=
  match v with
  | JNull => Ok ∅
  | JObject members => to_map members ∅
  | _ => Err (UnmarshalTypeError (kind_of v) type_ off "" "")
  end.

(** [Decoder.Decode]: the first value of the text. *)
Definition json_Decode (text : string) : Result (gmap string Any) :=
  match json_scan text true with
  | ScanValue v off => bind_map "jwt.MapClaims" v off
  | ScanSyntax m o => Err (SyntaxError m o)
  | ScanIncomplete true => Err io_ErrUnexpectedEOF
  | ScanIncomplete false => Err io_EOF
  end.

(** [json.Unmarshal]: the whole text must be one value. *)
Definition trailing (text : string) : option (ascii * Z) :=
  let '(s1, p1) := skip_space text 0 in
  match s1 with
  | EmptyString => None
  | String c s' =>
      let after r p := match skip_space r p with
                       | (String d _, q) => Some (d, q)
                       | _ => None
                       end in
      if Ascii.eqb c "-" || is_digit c then
        match start_num c s' p1 with
        | NumDone _ r p => after r p
        | _ => None
        end
      else
        match parse_value (fuel_for s1) s1 p1 with
        | POk _ r p => after r p
        | _ => None
        end
  end.

Definition json_Unmarshal (text : string) : Result (gmap string Any) :=
  match trailing text with
  | Some (d, q) =>
      Err (SyntaxError ("invalid character " +:+ quoteChar d
                        +:+ " after top-level value") (q + 1))
  | None =>
      match json_scan text true with
      | ScanValue v off => bind_map "map[string]interface {}" v off
      | ScanSyntax m o => Err (SyntaxError m o)
      | ScanIncomplete _ => Err (SyntaxError "unexpected end of JSON input" (len text))
      end
  end.

(** [%q] on a string of printable ASCII; other bytes below 128 get the
    escapes of [strconv.Quote], bytes above are copied. *)
Fixpoint quote_body (s : string) : string :=
  match s with
  | EmptyString => ""
  | String c s' =>
      (if Ascii.eqb c "034" || Ascii.eqb c backslash then String backslash (String c "")
       else if Ascii.eqb c "007" then String backslash "a"
       else if Ascii.eqb c "008" then String backslash "b"
       else if Ascii.eqb c "012" then String backslash "f"
       else if Ascii.eqb c "010" then String backslash "n"
       else if Ascii.eqb c "013" then String backslash "r"
       else if Ascii.eqb c "009" then String backslash "t"
       else if Ascii.eqb c "011" then String backslash "v"
       else if (N_of_ascii c <? 32)%N || Ascii.eqb c "127"
       then String backslash "x" +:+ hex_byte (Z.of_N (N_of_ascii c))
       else String c "") +:+ quote_body s'
  end.

Definition strconv_Quote (s : string) : string := dquote +:+ quote_body s +:+ dquote.

(** The platform, with every hash linked in or with none, and with the
    original decoder. *)
Definition platform_with (available : Hash → bool) : Platform :=
  Build_Platform json_scan strconv_Quote json_Marshal json_Unmarshal json_Decode
    EncodeSegment DecodeSegment hmac_Sum available GoName.

Definition platform : Platform := platform_with (fun _ => true).

(** The same with a decoder that reports fields by the key as sent. *)
Definition platform_as_sent : Platform :=
  Build_Platform json_scan strconv_Quote json_Marshal json_Unmarshal json_Decode
    EncodeSegment DecodeSegment hmac_Sum (fun _ => true) KeyAsSent.

Definition platform_without_hashes : Platform := platform_with (fun _ => false).

(** A cluster that accepts every update, and one whose session cannot be
    established. *)
Definition cluster_ok : Cluster :=
  {| GetClient := fun _ => None; UpdatePolicy := fun _ => None |}.

Definition operator : Config :=
  {| listeningPort := "8443"; namespace := "icap-adaptation";
     configmapName := "ncfs-policy"; username := "operator";
     password := "correct horse" |}.

End Ref.

(** ** Vocabulary of the statements *)

(** The request with its [Content-Type] header removed. *)
Definition without_content_type (r : Request) : Request :=
  {| Method := Method r; Header := delete "Content-Type" (Header r); Body := Body r |}.

(** The media type [ParseValueAndParams] extracts: the leading run of token
    octets and slashes, lower-cased. *)
Definition media_value (ct : string) : string :=
  ToLower (fst (header.expectTokenSlash ct)).

Definition request_with (method contentType body : string) : Request :=
  {| Method := method;
     Header := if String.eqb contentType "" then ∅
               else {[ "Content-Type" := [contentType] ]};
     Body := body |}.

Fixpoint spaces (n : nat) (tail : string) : string :=
  match n with
  | O => tail
  | S n' => spaces n' (String " " tail)
  end.

(** The comparison as section 4.2 of the specification words it, to set
    against [validateUser]: a constant-time comparison combines every byte
    pair, whatever the earlier ones gave, and both fields are compared
    before the two verdicts are joined. *)
Fixpoint ct_fold (x y : string) (v : N) : N :=
  match x, y with
  | String a x', String b y' =>
      ct_fold x' y' (N.lor v (N.lxor (N_of_ascii a) (N_of_ascii b)))
  | _, _ => v
  end.

Definition ConstantTimeCompare (x y : string) : bool :=
  if negb (String.length x =? String.length y)%nat then false
  else (ct_fold x y 0 =? 0)%N.

Definition validateUser_spec (cfg : Config) (usr pass : string) : Result Info :=
  let u := ConstantTimeCompare usr (username cfg) in
  let p := ConstantTimeCompare pass (password cfg) in
  if u && p then Ok (NewDefaultUser usr "1" [] ∅)
  else Err (errorString "Invalid credentials").

(** The same with the comparisons it evaluates: always both. *)
Definition validateUser_spec_steps (cfg : Config) (usr pass : string)
  : Steps (Result Info) :=
  let u := (ConstantTimeCompare usr (username cfg), [(usr, username cfg)]) in
  let p := (ConstantTimeCompare pass (password cfg), [(pass, password cfg)]) in
  (if fst u && fst p then Ok (NewDefaultUser usr "1" [] ∅)
   else Err (errorString "Invalid credentials"),
   (snd u ++ snd p)%list).

(** Section 4.2 of the specification on [validateUser], as a property of a
    comparison [f]: whichever field fails, a rejected attempt evaluates the
    same comparisons as any other, the password's among them. *)
Definition compares_both_fields (cfg : Config)
    (f : string → string → Steps (Result Info)) : Prop :=
  ∀ usr pass, snd (f usr pass) = [(usr, username cfg); (pass, password cfg)].

(** The platform carries the byte string [b] through a token segment: the
    encoded form has no dot and decodes to [b]. *)
Definition segment_ok (P : Platform) (b : string) : Prop :=
  no_byte "." (EncodeSegment P b) = true ∧ DecodeSegment P (EncodeSegment P b) = Ok b.

(** A Go value after a trip through JSON text: an [int64] comes back as the
    [float64] of the same value. *)
Definition through_json (x : Any) : Any :=
  match x with
  | AInt64 z => AFloat64 z
  | _ => x
  end.

(** The platform's codecs carry token [t], signed with [key] under [h],
    through its compact form: header and claims marshal, their segments and
    the MAC's segment survive, and the JSON texts decode to the values
    marshalled. *)
Definition wire_ok (P : Platform) (t : jwt.Token) (key : string) (h : Hash) : Prop :=
  match json_Marshal P (jwt.Header t), json_Marshal P (jwt.Claims t) with
  | inl hj, inl cj =>
      segment_ok P hj ∧ segment_ok P cj ∧
      json_Unmarshal P hj = Ok (through_json <$> jwt.Header t) ∧
      json_Decode P cj = Ok (through_json <$> jwt.Claims t) ∧
      segment_ok P (hmac_Sum P h key (EncodeSegment P hj +:+ "." +:+ EncodeSegment P cj))
  | _, _ => False
  end.

(** The same as a test, for platforms that compute. *)
#[global] Instance Any_eq_dec : EqDecision Any.
Proof. solve_decision. Defined.

Definition segment_check (P : Platform) (b : string) : bool :=
  no_byte "." (EncodeSegment P b)
  && match DecodeSegment P (EncodeSegment P b) with
     | inl b' => String.eqb b' b
     | inr _ => false
     end.

Definition decodes_to (decoded : Result (gmap string Any)) (m : gmap string Any) : bool :=
  match decoded with
  | inl m' => bool_decide (m' = m)
  | inr _ => false
  end.

Definition wire_check (P : Platform) (t : jwt.Token) (key : string) (h : Hash) : bool :=
  match json_Marshal P (jwt.Header t), json_Marshal P (jwt.Claims t) with
  | inl hj, inl cj =>
      segment_check P hj && segment_check P cj
      && decodes_to (json_Unmarshal P hj) (through_json <$> jwt.Header t)
      && decodes_to (json_Decode P cj) (through_json <$> jwt.Claims t)
      && segment_check P (hmac_Sum P h key (EncodeSegment P hj +:+ "." +:+ EncodeSegment P cj))
  | _, _ => false
  end.

(** The token string has three parts and its header declares [alg]. *)
Definition declares_alg (P : Platform) (tokenString alg : string) : Prop :=
  ∃ p0 p1 p2 headerBytes hdr,
    Split tokenString "." = [p0; p1; p2] ∧
    DecodeSegment P p0 = Ok headerBytes ∧
    json_Unmarshal P headerBytes = Ok hdr ∧
    hdr !! "alg" = Some (AString alg).

Definition hmac_scheme (alg : string) : Prop :=
  alg = "HS256" ∨ alg = "HS384" ∨ alg = "HS512".

(** The token string declares an HMAC method and its third part is the MAC
    of the first two under [key]. *)
Definition signed_with (P : Platform) (tokenString key : string) : Prop :=
  ∃ p0 p1 p2 alg h,
    Split tokenString "." = [p0; p1; p2] ∧
    declares_alg P tokenString alg ∧
    jwt.GetSigningMethod alg = Some (jwt.SigningMethodHMAC alg h) ∧
    DecodeSegment P p2 = Ok (hmac_Sum P h key (p0 +:+ "." +:+ p1)).

(** Under every hash, [key] gives the signing input of the token a MAC
    other than the one the configured key gives. *)
Definition mac_differs (P : Platform) (tokenString key : string) : Prop :=
  ∀ p0 p1 p2 h,
    Split tokenString "." = [p0; p1; p2] →
    hmac_Sum P h key (p0 +:+ "." +:+ p1) ≠ hmac_Sum P h "secret" (p0 +:+ "." +:+ p1).

(** A token an outsider who knows the key can mint: an expiry, no subject. *)
Definition subjectless (exp : Z) : jwt.Token :=
  jwt.NewWithClaims jwt.SigningMethodHS256 (<["exp" := AFloat64 exp]> ∅).


(** Two names that differ at most in the case of ASCII letters. *)
Definition same_letters (a b : string) : Prop := ToLower a = ToLower b.

(** An object with at most one member per policy field, in either order. *)
Definition member (key : string) (v : option (JValue * Z)) : list (string * JValue * Z) :=
  match v with
  | Some (x, off) => [(key, x, off)]
  | None => []
  end.

Definition policy_object (ku kg : string) (swap : bool) (u g : option (JValue * Z)) : JValue :=
  JObject (if swap then member kg g ++ member ku u else member ku u ++ member kg g).

Definition number (x : option (string * Z)) : option (JValue * Z) :=
  match x with
  | Some (lit, off) => Some (JNumber lit, off)
  | None => None
  end.

(** The literal of a present member denotes the integer [a]. *)
Definition denotes (x : option (string * Z)) (a : option Z) : Prop :=
  match x, a with
  | Some (lit, _), Some z => ParseInt lit = Some z
  | None, None => True
  | _, _ => False
  end.

(** The decoder, reading the body through the size limit, finds value [v]. *)
Definition scans_to (P : Platform) (r : Request) (v : JValue) : Prop :=
  ∃ off,
    let rd := MaxBytesReader (body_reader (Body r)) 1048576 in
    json_scan P (data rd) (match final rd with io_EOF => true | _ => false end)
    = ScanValue v off.

Definition content_type_ok (r : Request) : Prop :=
  http.Header_Get (Header r) "Content-Type" = ""
  ∨ media_value (http.Header_Get (Header r) "Content-Type") = "application/json".



Definition in_range (a : Z) : Prop := 1 <= a <= 4.

(** The four validation messages. *)
Definition msg_required (f : PolicyField) : string := fieldName f +:+ " is required.".

Definition msg_range (f : PolicyField) : string :=
  match f with
  | F_Unprocessable => "UnprocessableFileTypeAction must be between 1-4 inclusive."
  | F_Glasswall => "GlasswallBlockedFilesAction  must be between 1-4 inclusive."
  end.

(** A response of [code] whose body is [msg] and a newline, added to [w]. *)
Definition rejects (w : Run) (out : Run + Run * Policy) (code : Z) (msg : string) : Prop :=
  ∃ w', out = inl w' ∧
        http.statusCode (W w') = code ∧
        http.body (W w') = http.body (W w) +:+ msg +:+ newline ∧
        Updates w' = Updates w.

(** All 256 bytes, for facts checked byte by byte. *)
Definition all_ascii : list ascii := map ascii_of_nat (seq 0 256).

(** One step of [equalFold] when the key byte is ASCII. *)
Definition char_fold (sb tb : ascii) : bool :=
  Ascii.eqb sb tb
  || (let sbUpper := N.land (N_of_ascii sb) caseMask in
      ((65 <=? sbUpper) && (sbUpper <=? 90))%N
      && (sbUpper =? N.land (N_of_ascii tb) caseMask)%N).

Fixpoint ascii_only (s : string) : bool :=
  match s with
  | EmptyString => true
  | String c s' => (N_of_ascii c <? 128)%N && ascii_only s'
  end.

(** The token a client is sent by [createToken] at instant [issued]. *)
Definition issue (P : Platform) (cfg : Config) (issued : Time) : string :=
  http.body (W (createToken P cfg issued start (request_with "GET" "" ""))).

(** The identity [verifyToken] returns for subject [sub]. *)
Definition identity (sub : string) : Info := NewDefaultUser sub "" [] ∅.

(** ** Sample requests, run on the reference platform *)

Module Sample.

Definition key_value (key value : string) : string :=
  dquote +:+ key +:+ dquote +:+ ":" +:+ value.

Definition policy_body (u g : string) : string :=
  "{" +:+ key_value "unprocessableFileTypeAction" u +:+ ","
      +:+ key_value "glasswallBlockedFilesAction" g +:+ "}".

Definition put_policy : Request :=
  request_with "PUT" "application/json" (policy_body "1" "2").

Definition put_policy_charset : Request :=
  request_with "PUT" "application/json; charset=utf-8" (policy_body "1" "2").

Definition put_policy_shouting : Request :=
  request_with "PUT" "application/json"
    ("{" +:+ key_value "UNPROCESSABLEFILETYPEACTION" "3" +:+ ","
         +:+ key_value "glasswallblockedfilesaction" "4" +:+ "}").

Definition put_text : Request := request_with "PUT" "text/plain" "{}".

(** An opening brace followed by 1 MiB of spaces. *)
Definition put_oversized : Request :=
  request_with "PUT" "application/json" (String "{" (spaces (Z.to_nat 1048576) "")).

Definition get_token : Request := request_with "GET" "" "".

Definition t0 : Time := 1600000000 * Second + 123456789.

(** Two authenticators, each handing on the verdict of one of the
    service's own callbacks for the credential presented: a password pair,
    or a bearer token checked at instant [now]. *)
Definition password_authenticator (usr pass : string) : Request → Result Info :=
  fun _ => validateUser Ref.operator usr pass.

Definition bearer_authenticator (now : Time) (tokenString : string) : Request → Result Info :=
  fun _ => match verifyToken Ref.platform now tokenString with
           | Returns verdict => verdict
           | Panics msg => Err (errorString msg)
           end.

Definition downstream : Run → Request → Run :=
  fun w _ => w_Write "reached" w.

(** A token that declares the [none] algorithm and carries no signature. *)
Definition unsigned_token : string :=
  Ref.EncodeSegment ("{" +:+ key_value "alg" (dquote +:+ "none" +:+ dquote) +:+ "}")
  +:+ "."
  +:+ Ref.EncodeSegment ("{" +:+ key_value "sub" (dquote +:+ "operator" +:+ dquote) +:+ "}")
  +:+ ".".

(** The operator's claims, signed by someone who guessed the key wrong. *)
Definition forged_token : string :=
  match jwt.SignedString Ref.platform
          (jwt.NewWithClaims jwt.SigningMethodHS256 (issuedClaims Ref.operator t0))
          "Secret" with
  | inl tokenString => tokenString
  | inr _ => ""
  end.

End Sample.

(** ** Vocabulary of the further statements *)

(** The header map the client receives: the one frozen by the first
    [WriteHeader], or, for a handler that never wrote, the map as the
    handler left it. *)
Definition delivered (w : http.ResponseWriter) : gmap string string :=
  match http.status w with
  | Some _ => http.sent w
  | None => http.header w
  end.

Definition permissive (h : gmap string string) : Prop :=
  h !! "Access-Control-Allow-Methods" = Some "*"
  ∧ h !! "Access-Control-Allow-Origin" = Some "*"
  ∧ h !! "Access-Control-Allow-Headers" = Some "*"
  ∧ h !! "Access-Control-Expose-Headers" = Some "*".

(** The arguments [updatePolicy] builds for the cluster from a policy. *)
Definition cluster_args (cfg : Config) (p : Policy) : PolicyArgs :=
  {| Policy_ := Encode p; Namespace := namespace cfg;
     ConfigMapName := configmapName cfg |}.

Definition populated (p : Policy) : Prop :=
  ∃ x y, p = {| UnprocessableFileTypeAction := Some x;
                GlasswallBlockedFilesAction := Some y |}
         ∧ in_range x ∧ in_range y.

(** The error, if any, that one member makes the decoder save. *)
Definition member_fault (P : Platform) (m : string * JValue * Z) : option error :=
  let '(key, v, off) := m in
  match lookupField key with
  | None => Some (errorString ("json: unknown field " +:+ strconv_Quote P key))
  | Some f =>
      match storeIntPtr (errorField P key f) v off with
      | inl _ => None
      | inr e => Some e
      end
  end.

(** The value field [f] holds after the members, starting from [cur]: each
    member that selects [f] and can be stored replaces it (the name handed
    to [storeIntPtr] only shows in its error). *)
Fixpoint last_bound (f : PolicyField) (members : list (string * JValue * Z))
    (cur : option Z) : option Z :=
  match members with
  | [] => cur
  | (key, v, off) :: rest =>
      match lookupField key with
      | Some f' =>
          match f, f', storeIntPtr key v off with
          | F_Unprocessable, F_Unprocessable, inl x => last_bound f rest x
          | F_Glasswall, F_Glasswall, inl x => last_bound f rest x
          | _, _, _ => last_bound f rest cur
          end
      | None => last_bound f rest cur
      end
  end.

(** What may follow a media type: nothing, or a byte that is neither a
    token octet nor a slash. *)
Definition ends_value (rest : string) : Prop :=
  match rest with
  | EmptyString => True
  | String c _ => header.isToken c = false ∧ c ≠ "/"%char
  end.

Definition token_or_slash (c : ascii) : bool := header.isToken c || Ascii.eqb c "/".

Fixpoint all_bytes (f : ascii → bool) (s : string) : bool :=
  match s with
  | EmptyString => true
  | String c s' => f c && all_bytes f s'
  end.

(** The number of dots in a string. *)
Fixpoint dots (s : string) : nat :=
  match s with
  | EmptyString => O
  | String c s' => if Ascii.eqb c "." then S (dots s') else dots s'
  end.

(** The four headers are in the map being built and, once the header has
    been written, in the map that went out. *)
Definition cors_kept (w : http.ResponseWriter) : Prop :=
  permissive (http.header w) ∧ (http.status w ≠ None → permissive (http.sent w)).

(** A run with [lines] put in front of its log, and a run with its log
    emptied. *)
Definition prefix_log (lines : list string) (x : Run) : Run :=
  {| W := W x; Log := lines ++ Log x; Updates := Updates x |}.

Definition clear_log (x : Run) : Run :=
  {| W := W x; Log := []; Updates := Updates x |}.

(** The two lines [authMiddleware] logs for an authenticated user. *)
Definition auth_lines (user : Info) : list string :=
  ["Executing Auth Middleware"; "User " +:+ UserName user +:+ " Authenticated"].

(** Clusters that fail: one whose session cannot be established, one that
    refuses the update. *)
Module Faults.

Definition cluster_unreachable : Cluster :=
  {| GetClient := fun _ => Some (errorString "dial tcp: connection refused");
     UpdatePolicy := fun _ => None |}.

Definition cluster_refusing : Cluster :=
  {| GetClient := fun _ => None;
     UpdatePolicy := fun _ => Some (errorString "configmaps is forbidden") |}.

End Faults.

(** The two headers [http.Error] sets. *)
Definition plain_text (h : gmap string string) : Prop :=
  h !! "Content-Type" = Some "text/plain; charset=utf-8"
  ∧ h !! "X-Content-Type-Options" = Some "nosniff".

(** The header has been written and went out with those two. *)
Definition sent_plain (w : http.ResponseWriter) : Prop :=
  http.status w ≠ None ∧ plain_text (http.sent w).

(** The first error the members of an object make the decoder save. *)
Definition first_fault (P : Platform) (members : list (string * JValue * Z)) : option error :=
  head (omap (member_fault P) members).

(** [TrimPrefix] and [%q] as [updatePolicy] uses them on the decoder's
    message for an unknown key. *)
Definition msg_unknown (P : Platform) (key : string) : string :=
  "json: unknown field " +:+ strconv_Quote P key.

(** A JSON value of a kind no [*int] field accepts, with the name the
    decoder gives the kind. *)
Definition kind_refused (v : JValue) : option string :=
  match v with
  | JString _ => Some "string"
  | JBool _ => Some "bool"
  | JArray _ => Some "array"
  | JObject _ => Some "object"
  | JNull | JNumber _ => None
  end.

(** A JSON value that is neither an object nor [null], with the name the
    decoder gives its kind. *)
Definition kind_of_scalar (v : JValue) : option string :=
  match v with
  | JString _ => Some "string"
  | JBool _ => Some "bool"
  | JArray _ => Some "array"
  | JNumber _ => Some "number"
  | JNull | JObject _ => None
  end.

(** The decoder, reading the body through the size limit, ends as
    [result] says. *)
Definition scan_gives (P : Platform) (r : Request) (result : ScanResult) : Prop :=
  let rd := MaxBytesReader (body_reader (Body r)) 1048576 in
  json_scan P (data rd) (match final rd with io_EOF => true | _ => false end) = result.

(** A 400 answer made of two lines. *)
Definition answers_400 (w : Run) (out : Run) (line1 line2 : string) : Prop :=
  http.statusCode (W out) = 400
  ∧ http.body (W out) = http.body (W w) +:+ line1 +:+ newline +:+ line2 +:+ newline
  ∧ Updates out = Updates w.

(** ** Further sample requests *)

Module Probe.

Definition put (body : string) : Request := request_with "PUT" "application/json" body.

(** The first field given twice, under two spellings. *)
Definition put_duplicate : Request :=
  put ("{" +:+ Sample.key_value "unprocessableFileTypeAction" "9" +:+ ","
           +:+ Sample.key_value "glasswallBlockedFilesAction" "2" +:+ ","
           +:+ Sample.key_value "UnprocessableFileTypeAction" "1" +:+ "}").

Definition put_null_field : Request := put (Sample.policy_body "1" "null").

Definition put_comment : Request :=
  put ("{" +:+ Sample.key_value "unprocessableFileTypeAction" "1" +:+ ","
           +:+ Sample.key_value "comment" (dquote +:+ "x" +:+ dquote) +:+ ","
           +:+ Sample.key_value "glasswallBlockedFilesAction" "2" +:+ "}").

Definition put_quoted : Request :=
  put (Sample.policy_body (dquote +:+ "1" +:+ dquote) "2").

Definition put_empty : Request := put "".
Definition put_truncated : Request := put "{".
Definition put_garbled : Request := put "{]".
Definition put_array : Request := put "[1]".
Definition put_null : Request := put "null".

(** As [Sample.put_oversized], with a closing brace after the spaces. *)
Definition put_oversized_closed : Request :=
  put (String "{" (spaces (Z.to_nat 1048576) "}")).

(** A token under HS512 that names the operator and carries no time
    claim, and one under HS384 that carries an expiry and a not-before
    second but no subject. *)
Definition eternal_claims : gmap string Any := <["sub" := AString "operator"]> ∅.

Definition windowed_claims : gmap string Any :=
  <["sub" := AString "operator"]>
    (<["nbf" := AFloat64 1600000000]> (<["exp" := AFloat64 1600000600]> ∅)).

End Probe.

(** A time claim that [MapClaims.Valid] compares: a number other than
    zero. *)
Definition time_claim (m : gmap string Any) (key : string) : option Z :=
  match m !! key with
  | Some (AFloat64 z) => if z =? 0 then None else Some z
  | _ => None
  end.

(** Second [t] is not after [exp] and not before [iat] and [nbf], as far as
    the claims give them. *)
Definition in_window (m : gmap string Any) (t : Z) : bool :=
  match time_claim m "exp" with Some e => t <=? e | None => true end
  && match time_claim m "iat" with Some i => i <=? t | None => true end
  && match time_claim m "nbf" with Some n => n <=? t | None => true end.

(** A token of claims [claims] under the HMAC method [name]. *)
Definition hmac_token (name : string) (h : Hash) (claims : gmap string Any) : jwt.Token :=
  jwt.NewWithClaims (jwt.SigningMethodHMAC name h) claims.

(** * The handlers with their metrics

    The second listing of [policy-update-service.go] is the first with
    Prometheus metrics added: three counters with a [status] label and three
    histograms of processing times.  The handlers below thread the metrics
    along with the run; everything else is the code of the first listing. *)

Module Instrumented.

Definition ok : string := "ok".
Definition usererr : string := "user_error".
Definition jwterr : string := "jwt_error".
Definition jsonerr : string := "json_error".
Definition k8sclient : string := "k8s_client_error".
Definition configmaperr : string := "configmap_error".

(** A [CounterVec] with one label: the count of each label value that has
    been used.  [WithLabelValues(l).Inc()] creates the child at zero if need
    be and adds one to its unsigned 64-bit count. *)
Definition CounterVec : Type := gmap string Z.

Definition count (c : CounterVec) (l : string) : Z := default 0 (c !! l).

Definition Inc (l : string) (c : CounterVec) : CounterVec :=
  <[l := (count c l + 1) mod 2 ^ 64]> c.

(** A [Histogram], as the values observed so far, oldest first; its
    buckets, sum and count are functions of these. *)
Definition Histogram : Type := list Z.

Definition Observe (v : Z) (h : Histogram) : Histogram := (h ++ [v])%list.

Record Metrics : Type := {
  tokenProcTime : Histogram;
  tokenReqTotal : CounterVec;
  policyUpdateProcTime : Histogram;
  policyUpdateReqTotal : CounterVec;
  authProcTime : Histogram;
  authReqTotal : CounterVec
}.

Definition no_metrics : Metrics :=
  {| tokenProcTime := []; tokenReqTotal := ∅;
     policyUpdateProcTime := []; policyUpdateReqTotal := ∅;
     authProcTime := []; authReqTotal := ∅ |}.

Definition tokenReqTotal_Inc (l : string) (m : Metrics) : Metrics :=
  {| tokenProcTime := tokenProcTime m; tokenReqTotal := Inc l (tokenReqTotal m);
     policyUpdateProcTime := policyUpdateProcTime m;
     policyUpdateReqTotal := policyUpdateReqTotal m;
     authProcTime := authProcTime m; authReqTotal := authReqTotal m |}.

Definition policyUpdateReqTotal_Inc (l : string) (m : Metrics) : Metrics :=
  {| tokenProcTime := tokenProcTime m; tokenReqTotal := tokenReqTotal m;
     policyUpdateProcTime := policyUpdateProcTime m;
     policyUpdateReqTotal := Inc l (policyUpdateReqTotal m);
     authProcTime := authProcTime m; authReqTotal := authReqTotal m |}.

Definition authReqTotal_Inc (l : string) (m : Metrics) : Metrics :=
  {| tokenProcTime := tokenProcTime m; tokenReqTotal := tokenReqTotal m;
     policyUpdateProcTime := policyUpdateProcTime m;
     policyUpdateReqTotal := policyUpdateReqTotal m;
     authProcTime := authProcTime m; authReqTotal := Inc l (authReqTotal m) |}.

Definition tokenProcTime_Observe (v : Z) (m : Metrics) : Metrics :=
  {| tokenProcTime := Observe v (tokenProcTime m); tokenReqTotal := tokenReqTotal m;
     policyUpdateProcTime := policyUpdateProcTime m;
     policyUpdateReqTotal := policyUpdateReqTotal m;
     authProcTime := authProcTime m; authReqTotal := authReqTotal m |}.

Definition policyUpdateProcTime_Observe (v : Z) (m : Metrics) : Metrics :=
  {| tokenProcTime := tokenProcTime m; tokenReqTotal := tokenReqTotal m;
     policyUpdateProcTime := Observe v (policyUpdateProcTime m);
     policyUpdateReqTotal := policyUpdateReqTotal m;
     authProcTime := authProcTime m; authReqTotal := authReqTotal m |}.

Definition authProcTime_Observe (v : Z) (m : Metrics) : Metrics :=
  {| tokenProcTime := tokenProcTime m; tokenReqTotal := tokenReqTotal m;
     policyUpdateProcTime := policyUpdateProcTime m;
     policyUpdateReqTotal := policyUpdateReqTotal m;
     authProcTime := Observe v (authProcTime m); authReqTotal := authReqTotal m |}.

(** [time.Since(start)] read at instant [finish], and
    [Duration.Milliseconds]: a [Duration] is an [int64] of nanoseconds, the
    difference saturates, the division truncates toward zero. *)
Definition Time_Sub (t u : Time) : Z :=
  let d := t - u in
  if d <? int64_min then int64_min else if int64_max <? d then int64_max else d.

Definition Since (start finish : Time) : Z := Time_Sub finish start.

Definition Milliseconds (d : Z) : Z := Z.quot d 1000000.

Section Handlers.

Context (P : Platform) (cfg : Config).

(** [updatePolicy], called at [start]; its deferred function runs at
    [finish].  Each of the six early returns of lines 366-438 first counts
    [json_error]. *)
Definition updatePolicy (start finish : Time) (k : Cluster)
    (x : Run * Metrics) (r : Request) : Run * Metrics :=
  let '(w, m) := x in
  let '(w, m) :=
    let w := setCORS w in
    if String.eqb (Method r) "OPTIONS" then (w, m)
    else
      match validatePolicy P w r with
      | inl w => (w, policyUpdateReqTotal_Inc jsonerr m)
      | inr (w, p) =>
          let str := Encode p in
          let args := {| Policy_ := str; Namespace := namespace cfg;
                         ConfigMapName := configmapName cfg |} in
          match GetClient k args with
          | Some err =>
              let m := policyUpdateReqTotal_Inc k8sclient m in
              let w := log_Println ("Unable to get client: " +:+ Error err) w in
              (http_Error w "Something went wrong getting K8 Client."
                 http.StatusInternalServerError, m)
          | None =>
              let w := record_update args w in
              match UpdatePolicy k args with
              | Some err =>
                  let m := policyUpdateReqTotal_Inc configmaperr m in
                  let w := log_Println ("Unable to update policy: " +:+ Error err) w in
                  (http_Error w "Something went wrong when updating the config map."
                     http.StatusInternalServerError, m)
              | None =>
                  let w := w_Write "Successfully updated config map." w in
                  (w, policyUpdateReqTotal_Inc ok m)
              end
          end
      end in
  (w, policyUpdateProcTime_Observe (Milliseconds (Since start finish)) m).

(** [createToken]; [now] is the clock reading that dates the token. *)
Definition createToken (start now finish : Time)
    (x : Run * Metrics) (r : Request) : Run * Metrics :=
  let '(w, m) := x in
  let '(w, m) :=
    let w := setCORS w in
    if String.eqb (Method r) "OPTIONS" then (w, m)
    else
      let token := jwt.NewWithClaims jwt.SigningMethodHS256 (issuedClaims cfg now) in
      let jwtToken :=
        match jwt.SignedString P token "secret" with
        | inl s => s
        | inr _ => ""
        end in
      let w := w_Write jwtToken w in
      (w, tokenReqTotal_Inc ok m) in
  (w, tokenProcTime_Observe (Milliseconds (Since start finish)) m).

Definition validateUser (usr pass : string) (m : Metrics) : Result Info * Metrics :=
  if (if String.eqb usr (username cfg) then String.eqb pass (password cfg) else false)
  then (Ok (NewDefaultUser usr "1" [] ∅), m)
  else (Err (errorString "Invalid credentials"), authReqTotal_Inc usererr m).

(** The key function of [verifyToken], which counts before it refuses. *)
Definition keyFunc (token : jwt.Token) (m : Metrics) : Result string * Metrics :=
  match jwt.Method token with
  | Some (jwt.SigningMethodHMAC _ _) => (Ok "secret", m)
  | _ =>
      let m := authReqTotal_Inc jwterr m in
      (Err (errorString ("Unexpected signing method: "
                         +:+ match jwt.Header token !! "alg" with
                             | Some (AString a) => a
                             | _ => "<nil>"
                             end)), m)
  end.

(** [jwt.Parse] with a key function that acts on a state: the parser calls
    it once, after [ParseUnverified] has succeeded. *)
Definition Parse {S : Type} (clock : Time) (tokenString : string)
    (keyFunc : jwt.Token → S → Result string * S) (s : S) : Result jwt.Token * S :=
  match jwt.ParseUnverified P tokenString with
  | inr err => (Err err, s)
  | inl (token, (p0, p1, p2)) =>
      match keyFunc token s with
      | (inr (ValidationError i t f), s) => (Err (ValidationError i t f), s)
      | (inr err, s) =>
          (Err (ValidationError (Some err) "" jwt.ValidationErrorUnverifiable), s)
      | (inl key, s) =>
          let vErr : option error * Z :=
            match jwt.MapClaims_Valid (jwt.Claims token) clock with
            | Some (ValidationError inner _ flags) => (inner, flags)
            | Some err => (Some err, jwt.ValidationErrorClaimsInvalid)
            | None => (None, 0)
            end in
          let verr :=
            match jwt.Method token with
            | Some m => jwt.Verify P m (p0 +:+ "." +:+ p1) p2 key
            | None => Some jwt.ErrInvalidKey
            end in
          let vErr :=
            match verr with
            | Some err =>
                (Some err, Z.lor (snd vErr) jwt.ValidationErrorSignatureInvalid)
            | None => vErr
            end in
          if snd vErr =? 0 then
            (Ok {| jwt.Raw := jwt.Raw token; jwt.Method := jwt.Method token;
                   jwt.Header := jwt.Header token; jwt.Claims := jwt.Claims token;
                   jwt.Signature := p2; jwt.Valid := true |}, s)
          else (Err (ValidationError (fst vErr) "" (snd vErr)), s)
      end
  end.

Definition verifyToken (now : Time) (tokenString : string) (m : Metrics)
  : Outcome (Result Info) * Metrics :=
  match Parse now tokenString keyFunc m with
  | (inr err, m) => (Returns (Err err), authReqTotal_Inc jwterr m)
  | (inl token, m) =>
      if jwt.Valid token then
        match jwt.Claims token !! "sub" with
        | Some (AString sub) => (Returns (Ok (NewDefaultUser sub "" [] ∅)), m)
        | other =>
            (Panics ("interface conversion: interface {} is "
                     +:+ dynamicType other +:+ ", not string"), m)
        end
      else (Returns (Err (errorString "Invalid token")), authReqTotal_Inc jwterr m)
  end.

(** [authMiddleware]: the authenticator's strategies and the handlers
    behind the middleware touch the metrics too. *)
Definition authMiddleware (start finish : Time)
    (authenticator : Request → Metrics → Result Info * Metrics)
    (next : Run * Metrics → Request → Run * Metrics)
    (x : Run * Metrics) (r : Request) : Run * Metrics :=
  let '(w, m) := x in
  let '(w, m) :=
    let w := setCORS w in
    if String.eqb (Method r) "OPTIONS" then (w, m)
    else
      let w := log_Println "Executing Auth Middleware" w in
      match authenticator r m with
      | (inr err, m) =>
          let code := http.StatusUnauthorized in
          (http_Error w (Error err) code, m)
      | (inl user, m) =>
          let m := authReqTotal_Inc ok m in
          let w := log_Println ("User " +:+ UserName user +:+ " Authenticated") w in
          next (w, m) r
      end in
  (w, authProcTime_Observe (Milliseconds (Since start finish)) m).

End Handlers.

End Instrumented.

(** ** Vocabulary of the statements on metrics *)

(** The token string parses and the key function refuses its method. *)
Definition refused_by_key (P : Platform) (tokenString : string) : bool :=
  match jwt.ParseUnverified P tokenString with
  | inl (token, _) =>
      match keyFunc token with
      | inl _ => false
      | inr _ => true
      end
  | inr _ => false
  end.

(** [m'] is [m] with one more processing time for policy updates and the
    counter of policy updates replaced by [c]. *)
Definition update_metered (m m' : Instrumented.Metrics) (ms : Z)
    (c : Instrumented.CounterVec) : Prop :=
  m' = {| Instrumented.tokenProcTime := Instrumented.tokenProcTime m;
          Instrumented.tokenReqTotal := Instrumented.tokenReqTotal m;
          Instrumented.policyUpdateProcTime :=
            (Instrumented.policyUpdateProcTime m ++ [ms])%list;
          Instrumented.policyUpdateReqTotal := c;
          Instrumented.authProcTime := Instrumented.authProcTime m;
          Instrumented.authReqTotal := Instrumented.authReqTotal m |}.

(** * Theorems *)

(** ** The response writer *)

Lemma eqb_false_of_ne (a b : string) : a ≠ b → String.eqb a b = false.
Proof. intros H. apply String.eqb_neq. exact H. Qed.

Lemma status_setCORS (w : Run) : http.status (W (setCORS w)) = http.status (W w).
Proof. reflexivity. Qed.

Lemma body_setCORS (w : Run) : http.body (W (setCORS w)) = http.body (W w).
Proof. reflexivity. Qed.

(** On a response whose header is still unwritten, [http.Error] fixes the
    status and appends the message and a newline. *)
Lemma http_Error_fresh (w : Run) (msg : string) (code : Z) :
  http.status (W w) = None →
  http.status (W (http_Error w msg code)) = Some code
  ∧ http.body (W (http_Error w msg code)) = http.body (W w) +:+ msg +:+ newline
  ∧ Log (http_Error w msg code) = Log w
  ∧ Updates (http_Error w msg code) = Updates w.
Proof.
  destruct w as [[h s snt b] l u]; simpl; intros ->.
  unfold http_Error, onW, http.Error, http.Write, http.WriteHeader; simpl.
  repeat split.
Qed.

(** Once the header is written, a further [http.Error] only adds to the
    body: its status code is dropped. *)
Lemma http_Error_superfluous (w : Run) (msg : string) (code c : Z) :
  http.status (W w) = Some c →
  http.status (W (http_Error w msg code)) = Some c
  ∧ http.body (W (http_Error w msg code)) = http.body (W w) +:+ msg +:+ newline
  ∧ Log (http_Error w msg code) = Log w
  ∧ Updates (http_Error w msg code) = Updates w.
Proof.
  destruct w as [[h s snt b] l u]; simpl; intros ->.
  unfold http_Error, onW, http.Error, http.Write, http.WriteHeader; simpl.
  repeat split.
Qed.

Lemma statusCode_of_status (w : http.ResponseWriter) (c : Z) :
  http.status w = Some c → http.statusCode w = c.
Proof. unfold http.statusCode; intros ->; reflexivity. Qed.

Lemma append_nil_l (b : string) : "" +:+ b = b.
Proof. reflexivity. Qed.

Lemma append_cons (c : ascii) (a b : string) : String c a +:+ b = String c (a +:+ b).
Proof. reflexivity. Qed.

Lemma append_nil_r (a : string) : a +:+ "" = a.
Proof. induction a as [|x a IH]; [reflexivity|]. now rewrite append_cons, IH. Qed.

Lemma append_assoc (a b c : string) : (a +:+ b) +:+ c = a +:+ b +:+ c.
Proof.
  induction a as [|x a IH]; [reflexivity|].
  now rewrite !append_cons, IH.
Qed.

(** ** Content type *)

Lemma ParseValueAndParams_media (h : gmap string (list string)) (key : string) :
  header.ParseValueAndParams h key = media_value (http.Header_Get h key).
Proof.
  unfold header.ParseValueAndParams, media_value.
  destruct (header.expectTokenSlash (http.Header_Get h key)) as [v rest]; simpl.
  destruct (String.eqb_spec v "") as [-> | _]; reflexivity.
Qed.

Lemma Header_Get_without (r : Request) :
  http.Header_Get (Header (without_content_type r)) "Content-Type" = "".
Proof.
  unfold http.Header_Get, without_content_type; simpl.
  now rewrite lookup_delete_eq.
Qed.

(** A request that passes the [Content-Type] check is handled like the same
    request without that header. *)
Lemma validatePolicy_content_type_ok (P : Platform) (w : Run) (r : Request) :
  content_type_ok r →
  validatePolicy P w r = validatePolicy P w (without_content_type r).
Proof.
  intros Hok. unfold validatePolicy.
  rewrite Header_Get_without. simpl.
  rewrite ParseValueAndParams_media.
  destruct Hok as [-> | ->]; simpl.
  - reflexivity.
  - rewrite andb_false_r. reflexivity.
Qed.

(** C8, as amended.  With a [Content-Type] header present, [updatePolicy]
    looks only at its media type, that is the leading run of token
    characters and slashes, lower-cased: when this is not
    [application/json] the answer is 415 with the fixed message and nothing
    else happens; when it is, whatever parameters follow, the request is
    handled exactly as if the header were absent. *)
Theorem content_type_decided_by_media_value
    (P : Platform) (cfg : Config) (k : Cluster) (w : Run) (r : Request) :
  Method r ≠ "OPTIONS" →
  http.status (W w) = None →
  http.Header_Get (Header r) "Content-Type" ≠ "" →
  (media_value (http.Header_Get (Header r) "Content-Type") ≠ "application/json" →
     updatePolicy P cfg k w r
     = http_Error (setCORS w) "Content-Type header is not application/json" 415
     ∧ http.statusCode (W (updatePolicy P cfg k w r)) = 415
     ∧ Updates (updatePolicy P cfg k w r) = Updates w)
  ∧ (media_value (http.Header_Get (Header r) "Content-Type") = "application/json" →
     updatePolicy P cfg k w r = updatePolicy P cfg k w (without_content_type r)).
Proof.
  intros Hm Hs Hct. split.
  - intros Hv.
    assert (E : updatePolicy P cfg k w r
                = http_Error (setCORS w) "Content-Type header is not application/json" 415).
    { unfold updatePolicy. rewrite (eqb_false_of_ne _ _ Hm).
      unfold validatePolicy. rewrite ParseValueAndParams_media.
      rewrite (eqb_false_of_ne _ _ Hct), (eqb_false_of_ne _ _ Hv). reflexivity. }
    rewrite E.
    destruct (http_Error_fresh (setCORS w) "Content-Type header is not application/json" 415)
      as (H1 & _ & _ & H4); [now rewrite status_setCORS|].
    split; [reflexivity | split].
    + now apply statusCode_of_status.
    + now rewrite H4.
  - intros Hv. unfold updatePolicy. simpl.
    rewrite (validatePolicy_content_type_ok P (setCORS w) r); [reflexivity|].
    now right.
Qed.

Lemma content_type_decided_by_media_value_witness :
  http.statusCode (W (updatePolicy Ref.platform Ref.operator Ref.cluster_ok start
                        Sample.put_text)) = 415.
Proof.
  refine (proj1 (proj2 (proj1
    (content_type_decided_by_media_value Ref.platform Ref.operator Ref.cluster_ok start
       Sample.put_text _ eq_refl _) _))).
  - vm_compute; discriminate.
  - vm_compute; discriminate.
  - vm_compute; discriminate.
Defined.

(** C8 as stated fails: a header that is not exactly [application/json]
    but carries that media type with a parameter is accepted, and the
    update goes through with status 200. *)
Lemma content_type_with_parameter_accepted :
  http.Header_Get (Header Sample.put_policy_charset) "Content-Type" ≠ "application/json"
  ∧ http.statusCode (W (updatePolicy Ref.platform Ref.operator Ref.cluster_ok start
                          Sample.put_policy_charset)) = 200
  ∧ http.body (W (updatePolicy Ref.platform Ref.operator Ref.cluster_ok start
                    Sample.put_policy_charset)) = "Successfully updated config map.".
Proof.
  split; [vm_compute; discriminate|]. split; vm_compute; reflexivity.
Qed.

(** ** Body size *)

Lemma MaxBytesReader_over (body : string) (n : Z) :
  n < len body →
  MaxBytesReader (body_reader body) n
  = {| data := take_string (Z.to_nat n) body;
       final := errorString "http: request body too large" |}.
Proof.
  intros H. unfold MaxBytesReader, body_reader; simpl.
  destruct (Z.leb_spec (len body) n); [lia | reflexivity].
Qed.

Lemma Decode_cut (P : Platform) (d msg : string) (nonSpace : bool) :
  json_scan P d false = ScanIncomplete nonSpace →
  Decode P {| data := d; final := errorString msg |} = Err (errorString msg).
Proof. intros H. unfold Decode; simpl. now rewrite H. Qed.

Lemma decodeFailed_too_large (P : Platform) (w : Run) :
  decodeFailed P w (errorString "http: request body too large")
  = http_Error (http_Error w "http: request body too large" 400)
      "Request body must not be larger than 1MB" 413.
Proof. reflexivity. Qed.

(** C3, what the code does.  When the size limit cuts the body before the
    decoder has a complete value, [updatePolicy] first writes the raw error
    with status 400 and then the 413 message; the header is already out, so
    the client receives status 400 and both lines. *)
Theorem oversized_body_answers_400
    (P : Platform) (cfg : Config) (k : Cluster) (w : Run) (r : Request)
    (nonSpace : bool) :
  Method r ≠ "OPTIONS" →
  http.status (W w) = None →
  content_type_ok r →
  1048576 < len (Body r) →
  json_scan P (take_string (Z.to_nat 1048576) (Body r)) false = ScanIncomplete nonSpace →
  http.statusCode (W (updatePolicy P cfg k w r)) = 400
  ∧ http.body (W (updatePolicy P cfg k w r))
    = http.body (W w) +:+ "http: request body too large" +:+ newline
      +:+ "Request body must not be larger than 1MB" +:+ newline
  ∧ Updates (updatePolicy P cfg k w r) = Updates w.
Proof.
  intros Hm Hs Hct Hlen Hscan.
  assert (E : updatePolicy P cfg k w r
              = decodeFailed P (setCORS w) (errorString "http: request body too large")).
  { unfold updatePolicy. rewrite (eqb_false_of_ne _ _ Hm).
    rewrite validatePolicy_content_type_ok by assumption.
    unfold validatePolicy. rewrite Header_Get_without.
    rewrite MaxBytesReader_over by assumption.
    rewrite (Decode_cut P _ _ nonSpace Hscan). reflexivity. }
  rewrite E, decodeFailed_too_large.
  destruct (http_Error_fresh (setCORS w) "http: request body too large" 400)
    as (H1 & H2 & _ & H4); [assumption|].
  destruct (http_Error_superfluous
              (http_Error (setCORS w) "http: request body too large" 400)
              "Request body must not be larger than 1MB" 413 400 H1)
    as (G1 & G2 & _ & G4).
  split; [now apply statusCode_of_status|].
  split.
  - rewrite G2, H2, body_setCORS, !append_assoc. reflexivity.
  - now rewrite G4, H4.
Qed.

(** ** The authentication middleware *)

(** C4, as amended.  When the authenticator returns an error,
    [authMiddleware] answers 401 with the text of that very error as the
    body; it logs only its fixed line, and the rest of the chain is not
    run. *)
Theorem auth_failure_echoes_error
    (authenticator : Request → Result Info) (next : Run → Request → Run)
    (w : Run) (r : Request) (err : error) :
  Method r ≠ "OPTIONS" →
  http.status (W w) = None →
  authenticator r = Err err →
  http.statusCode (W (authMiddleware authenticator next w r)) = 401
  ∧ http.body (W (authMiddleware authenticator next w r))
    = http.body (W w) +:+ Error err +:+ newline
  ∧ Log (authMiddleware authenticator next w r) = (Log w ++ ["Executing Auth Middleware"])%list
  ∧ Updates (authMiddleware authenticator next w r) = Updates w.
Proof.
  intros Hm Hs Ha. unfold authMiddleware.
  rewrite (eqb_false_of_ne _ _ Hm), Ha.
  destruct (http_Error_fresh
              (log_Println "Executing Auth Middleware" (setCORS w)) (Error err) 401)
    as (H1 & H2 & H3 & H4); [assumption|].
  split; [now apply statusCode_of_status|].
  repeat split; assumption.
Qed.

(** ** Token issuance *)

(** C5, as amended.  [createToken] discards the error of the signing step:
    whether [SignedString] succeeds or fails the answer is 200; on success
    the body is the token, on failure nothing is written to it. *)
Theorem createToken_ignores_signing_error
    (P : Platform) (cfg : Config) (now : Time) (w : Run) (r : Request) :
  Method r ≠ "OPTIONS" →
  http.status (W w) = None →
  http.statusCode (W (createToken P cfg now w r)) = 200
  ∧ (∀ e, jwt.SignedString P
             (jwt.NewWithClaims jwt.SigningMethodHS256 (issuedClaims cfg now)) "secret"
           = Err e →
          http.body (W (createToken P cfg now w r)) = http.body (W w))
  ∧ (∀ s, jwt.SignedString P
             (jwt.NewWithClaims jwt.SigningMethodHS256 (issuedClaims cfg now)) "secret"
           = Ok s →
          http.body (W (createToken P cfg now w r)) = http.body (W w) +:+ s).
Proof.
  intros Hm Hs. unfold createToken. rewrite (eqb_false_of_ne _ _ Hm).
  destruct w as [[h s0 snt b] l u]; simpl in Hs; subst s0.
  split; [reflexivity|]. split.
  - intros e ->. simpl. apply append_nil_r.
  - intros s ->. reflexivity.
Qed.

(** ** Operator credentials *)

Lemma N_of_ascii_inj (a b : ascii) : N_of_ascii a = N_of_ascii b → a = b.
Proof.
  intros H. rewrite <- (ascii_N_embedding a), <- (ascii_N_embedding b). now rewrite H.
Qed.

Lemma ct_fold_zero (x y : string) (v : N) :
  String.length x = String.length y →
  ct_fold x y v = 0%N ↔ v = 0%N ∧ x = y.
Proof.
  revert y v. induction x as [|a x IH]; intros [|b y] v Hl; simpl in *; try discriminate.
  - tauto.
  - injection Hl as Hl. rewrite (IH y _ Hl), N.lor_eq_0_iff. split.
    + intros [[Hv Hx] ->]. split; [assumption|].
      f_equal. apply N_of_ascii_inj. now apply N.lxor_eq.
    + intros [Hv E]. injection E as -> ->. rewrite N.lxor_nilpotent. tauto.
Qed.

Lemma ConstantTimeCompare_eqb (x y : string) :
  ConstantTimeCompare x y = String.eqb x y.
Proof.
  unfold ConstantTimeCompare.
  destruct (Nat.eqb_spec (String.length x) (String.length y)) as [Hl | Hl]; simpl.
  - destruct (String.eqb_spec x y) as [-> | Hne].
    + apply N.eqb_eq. now apply ct_fold_zero.
    + apply N.eqb_neq. intros H. apply ct_fold_zero in H; [|assumption]. tauto.
  - symmetry. apply String.eqb_neq. intros ->. now apply Hl.
Qed.

(** The results of [validateUser] are those of the comparison of the
    specification ([validateUser_spec], every byte of both fields compared):
    it accepts exactly when both fields match, and every rejection is the
    same error value. *)
Lemma validateUser_results (cfg : Config) (usr pass : string) :
  validateUser cfg usr pass = validateUser_spec cfg usr pass
  ∧ (validateUser cfg usr pass = Ok (NewDefaultUser usr "1" [] ∅)
     ↔ usr = username cfg ∧ pass = password cfg)
  ∧ (¬ (usr = username cfg ∧ pass = password cfg)
     ↔ validateUser cfg usr pass = Err (errorString "Invalid credentials"))
  ∧ (∀ usr' pass',
       ¬ (usr = username cfg ∧ pass = password cfg) →
       ¬ (usr' = username cfg ∧ pass' = password cfg) →
       validateUser cfg usr pass = validateUser cfg usr' pass').
Proof.
  assert (R : ∀ u p, ¬ (u = username cfg ∧ p = password cfg)
                     ↔ validateUser cfg u p = Err (errorString "Invalid credentials")).
  { intros u p. unfold validateUser.
    destruct (String.eqb_spec u (username cfg)) as [Hu | Hu];
      [destruct (String.eqb_spec p (password cfg)) as [Hp | Hp]|];
      split; intros H; try discriminate; try reflexivity; tauto. }
  split; [|split; [|split]].
  - unfold validateUser, validateUser_spec. rewrite !ConstantTimeCompare_eqb.
    destruct (String.eqb usr (username cfg)); reflexivity.
  - unfold validateUser.
    destruct (String.eqb_spec usr (username cfg)) as [Hu | Hu];
      [destruct (String.eqb_spec pass (password cfg)) as [Hp | Hp]|];
      split; intros H; try discriminate; try reflexivity; tauto.
  - apply R.
  - intros usr' pass' H H'. apply R in H, H'. congruence.
Qed.

(** C7, as amended.  [validateUser] accepts exactly when both fields match
    and every rejection is the same error value, as the comparison of the
    specification would give; but its condition is [==] joined by [&&],
    which short-circuits: the password is compared only when the username
    matched, where the comparison of the specification compares both
    fields on every attempt. *)
Theorem validateUser_short_circuits (cfg : Config) (usr pass : string) :
  fst (validateUser_steps cfg usr pass) = validateUser cfg usr pass
  ∧ validateUser cfg usr pass = validateUser_spec cfg usr pass
  ∧ (validateUser cfg usr pass = Ok (NewDefaultUser usr "1" [] ∅)
     ↔ usr = username cfg ∧ pass = password cfg)
  ∧ (¬ (usr = username cfg ∧ pass = password cfg)
     ↔ validateUser cfg usr pass = Err (errorString "Invalid credentials"))
  ∧ (usr = username cfg →
     snd (validateUser_steps cfg usr pass)
     = [(usr, username cfg); (pass, password cfg)])
  ∧ (usr ≠ username cfg →
     snd (validateUser_steps cfg usr pass) = [(usr, username cfg)])
  ∧ compares_both_fields cfg (validateUser_spec_steps cfg)
  ∧ ¬ compares_both_fields cfg (validateUser_steps cfg).
Proof.
  destruct (validateUser_results cfg usr pass) as (H1 & H2 & H3 & _).
  split; [|split; [exact H1 | split; [exact H2 | split; [exact H3|]]]].
  - unfold validateUser_steps, validateUser, and_then, string_eq; simpl.
    destruct (String.eqb usr (username cfg)); simpl; [|reflexivity].
    destruct (String.eqb pass (password cfg)); reflexivity.
  - split; [|split].
    + intros ->. unfold validateUser_steps, and_then, string_eq; simpl.
      rewrite String.eqb_refl; simpl.
      destruct (String.eqb pass (password cfg)); reflexivity.
    + intros Hne. unfold validateUser_steps, and_then, string_eq; simpl.
      apply String.eqb_neq in Hne. rewrite Hne. reflexivity.
    + split; [intros u p; reflexivity|].
      intros H. specialize (H (String "x" (username cfg)) "").
      assert (Hne : String.eqb (String "x" (username cfg)) (username cfg) = false).
      { apply String.eqb_neq. intros E.
        apply (f_equal String.length) in E. simpl in E. lia. }
      unfold validateUser_steps, and_then, string_eq in H. cbn [fst snd] in H.
      rewrite Hne in H. cbn [fst snd] in H. discriminate H.
Qed.

(** ** Policy fields *)

Lemma Decode_scanned (P : Platform) (r : Request) (v : JValue) :
  scans_to P r v →
  ∃ off, Decode P (MaxBytesReader (body_reader (Body r)) 1048576) = unmarshal P v off.
Proof.
  intros [off H]. exists off. unfold Decode.
  cbv zeta in H. rewrite H. reflexivity.
Qed.


(** An object with at most one number per field binds each number to its
    field, whatever the order of the members. *)
Lemma unmarshal_policy_object (P : Platform) (ku kg : string) (swap : bool)
    (u g : option (string * Z)) (a b : option Z) (off : Z) :
  lookupField ku = Some F_Unprocessable →
  lookupField kg = Some F_Glasswall →
  denotes u a → denotes g b →
  unmarshal P (policy_object ku kg swap (number u) (number g)) off
  = Ok {| UnprocessableFileTypeAction := a; GlasswallBlockedFilesAction := b |}.
Proof.
  intros Hu Hg Da Db.
  destruct u as [[lu ou]|], a as [x|]; simpl in Da; try contradiction;
    destruct g as [[lg og]|], b as [y|]; simpl in Db; try contradiction;
    destruct swap; unfold unmarshal, policy_object, object_member; simpl;
    rewrite ?Hu, ?Hg; simpl; rewrite ?Da, ?Db; simpl;
    rewrite ?Hu, ?Hg; simpl; rewrite ?Da, ?Db; reflexivity.
Qed.

Lemma range_test (a : Z) : (a <=? 0) || (a >=? 5) = false ↔ in_range a.
Proof. unfold in_range. rewrite orb_false_iff. lia. Qed.

Lemma range_test_fails (a : Z) : ¬ in_range a → (a <=? 0) || (a >=? 5) = true.
Proof.
  intros H. destruct ((a <=? 0) || (a >=? 5)) eqn:E; [reflexivity|].
  apply range_test in E. contradiction.
Qed.

(** What [validatePolicy] does once the body has decoded to a policy. *)
Lemma validatePolicy_decoded (P : Platform) (w : Run) (r : Request) (v : JValue)
    (a b : option Z) :
  content_type_ok r →
  scans_to P r v →
  (∀ off, unmarshal P v off
          = Ok {| UnprocessableFileTypeAction := a; GlasswallBlockedFilesAction := b |}) →
  validatePolicy P w r
  = match a with
    | None => inl (http_Error w (msg_required F_Unprocessable) 400)
    | Some x =>
        if (x <=? 0) || (x >=? 5)
        then inl (http_Error w (msg_range F_Unprocessable) 400)
        else match b with
             | None => inl (http_Error w (msg_required F_Glasswall) 400)
             | Some y =>
                 if (y <=? 0) || (y >=? 5)
                 then inl (http_Error w (msg_range F_Glasswall) 400)
                 else inr (w, {| UnprocessableFileTypeAction := Some x;
                                 GlasswallBlockedFilesAction := Some y |})
             end
    end.
Proof.
  intros Hct Hscan Hun.
  rewrite validatePolicy_content_type_ok by assumption.
  unfold validatePolicy. rewrite Header_Get_without.
  change (Body (without_content_type r)) with (Body r).
  destruct (Decode_scanned P r v Hscan) as [off ->].
  rewrite Hun.
  change (negb ("" =? "")%string) with false. rewrite andb_false_l.
  cbv beta iota delta [UnprocessableFileTypeAction GlasswallBlockedFilesAction].
  destruct a as [x|]; [|reflexivity].
  destruct ((x <=? 0) || (x >=? 5)); [reflexivity|].
  destruct b as [y|]; [|reflexivity].
  destruct ((y <=? 0) || (y >=? 5)); reflexivity.
Qed.

Lemma rejects_http_Error (w : Run) (msg : string) (code : Z) :
  http.status (W w) = None →
  rejects w (inl (http_Error w msg code)) code msg.
Proof.
  intros Hs. exists (http_Error w msg code).
  destruct (http_Error_fresh w msg code Hs) as (H1 & H2 & _ & H4).
  repeat split; try assumption. now apply statusCode_of_status.
Qed.

Lemma prefix_append (s rest : string) : String.prefix s (s +:+ rest) = true.
Proof.
  induction s as [|c s IH]; [destruct rest; reflexivity|].
  rewrite append_cons. simpl. destruct (ascii_dec c c); [exact IH | contradiction].
Qed.




Lemma validatePolicy_decode_error (P : Platform) (w : Run) (r : Request) (v : JValue)
    (e : error) :
  content_type_ok r →
  scans_to P r v →
  (∀ off, unmarshal P v off = Err e) →
  validatePolicy P w r = inl (decodeFailed P w e).
Proof.
  intros Hct Hscan Hun.
  rewrite validatePolicy_content_type_ok by assumption.
  unfold validatePolicy. rewrite Header_Get_without.
  change (Body (without_content_type r)) with (Body r).
  destruct (Decode_scanned P r v Hscan) as [off ->].
  rewrite Hun. reflexivity.
Qed.

(** Whatever the decoder reports, the first [http.Error] of the error block
    has already fixed the status: 400. *)
Lemma decodeFailed_status (P : Platform) (w : Run) (e : error) :
  http.status (W w) = None →
  http.statusCode (W (decodeFailed P w e)) = 400
  ∧ ∃ tail, http.body (W (decodeFailed P w e))
            = http.body (W w) +:+ Error e +:+ newline +:+ tail.
Proof.
  intros Hs.
  destruct (http_Error_fresh w (Error e) 400 Hs) as (H1 & H2 & _ & _).
  assert (G : ∀ x msg code,
             http.status (W x) = Some 400 →
             http.body (W x) = http.body (W w) +:+ Error e +:+ newline →
             http.statusCode (W (http_Error x msg code)) = 400
             ∧ ∃ tail, http.body (W (http_Error x msg code))
                       = http.body (W w) +:+ Error e +:+ newline +:+ tail).
  { intros x msg code Hx Hb.
    destruct (http_Error_superfluous x msg code 400 Hx) as (G1 & G2 & _ & _).
    split; [now apply statusCode_of_status|].
    exists (msg +:+ newline). rewrite G2, Hb, !append_assoc. reflexivity. }
  unfold decodeFailed.
  destruct e; try (apply G; assumption);
    (destruct (HasPrefix _ "json: unknown field "); [apply G; assumption|]);
    try (apply G; assumption);
    (destruct (String.eqb _ "http: request body too large"); apply G; assumption).
Qed.



(** Once validation has passed, [updatePolicy] hands the encoded policy to
    the cluster and, when both cluster calls succeed, confirms with 200;
    when validation has not passed, the cluster is not called. *)
Lemma updatePolicy_after_validation (P : Platform) (cfg : Config) (k : Cluster)
    (w w' : Run) (r : Request) (p : Policy) :
  Method r ≠ "OPTIONS" →
  validatePolicy P (setCORS w) r = inr (w', p) →
  let args := {| Policy_ := Encode p; Namespace := namespace cfg;
                 ConfigMapName := configmapName cfg |} in
  GetClient k args = None →
  UpdatePolicy k args = None →
  updatePolicy P cfg k w r
  = w_Write "Successfully updated config map." (record_update args w').
Proof.
  intros Hm Hv args Hg Hu. unfold updatePolicy.
  rewrite (eqb_false_of_ne _ _ Hm), Hv. fold args. now rewrite Hg, Hu.
Qed.

Lemma updatePolicy_rejected (P : Platform) (cfg : Config) (k : Cluster)
    (w w' : Run) (r : Request) :
  Method r ≠ "OPTIONS" →
  validatePolicy P (setCORS w) r = inl w' →
  updatePolicy P cfg k w r = w'.
Proof.
  intros Hm Hv. unfold updatePolicy.
  now rewrite (eqb_false_of_ne _ _ Hm), Hv.
Qed.

(** ** Case folding of field names *)

Lemma in_all_ascii (c : ascii) : In c all_ascii.
Proof.
  unfold all_ascii. apply in_map_iff. exists (nat_of_ascii c). split.
  - apply ascii_nat_embedding.
  - apply in_seq. pose proof (nat_ascii_bounded c). lia.
Qed.

Lemma forall_ascii2 (f : ascii → ascii → bool) :
  forallb (fun a => forallb (f a) all_ascii) all_ascii = true →
  ∀ a b, f a b = true.
Proof.
  intros H a b.
  rewrite forallb_forall in H. specialize (H a (in_all_ascii a)).
  rewrite forallb_forall in H. exact (H b (in_all_ascii b)).
Qed.

Lemma equalFold_cons_ascii (sb tb : ascii) (s t : string) :
  (N_of_ascii tb <? 128)%N = true →
  equalFold (String sb s) (String tb t) = char_fold sb tb && equalFold s t.
Proof.
  intros H. simpl. rewrite H. unfold char_fold.
  destruct (Ascii.eqb sb tb); [reflexivity|]. simpl.
  destruct ((65 <=? N.land (N_of_ascii sb) caseMask)
            && (N.land (N_of_ascii sb) caseMask <=? 90))%N; [|reflexivity]. simpl.
  destruct (N.land (N_of_ascii sb) caseMask =? N.land (N_of_ascii tb) caseMask)%N;
    reflexivity.
Qed.

(** Two bytes with the same lower-case form, one of them ASCII: the other
    is ASCII too and the decoder's step accepts the pair. *)
Lemma char_fold_of_lower (sb tb : ascii) :
  (N_of_ascii sb <? 128)%N = true →
  lower_ascii tb = lower_ascii sb →
  (N_of_ascii tb <? 128)%N = true ∧ char_fold sb tb = true.
Proof.
  intros Hs Hl.
  pose (f := fun a b : ascii =>
               implb ((N_of_ascii a <? 128)%N && Ascii.eqb (lower_ascii b) (lower_ascii a))
                     ((N_of_ascii b <? 128)%N && char_fold a b)).
  assert (H : f sb tb = true) by (apply forall_ascii2; vm_compute; reflexivity).
  unfold f in H. rewrite Hs, Hl, Ascii.eqb_refl in H. simpl in H.
  now apply andb_true_iff in H.
Qed.

Lemma equalFold_same_letters (s t : string) :
  ascii_only s = true → same_letters t s → equalFold s t = true.
Proof.
  unfold same_letters. revert t.
  induction s as [|sb s IH]; intros [|tb t] Ha Hl; simpl in Hl; try discriminate.
  - reflexivity.
  - simpl in Ha. apply andb_true_iff in Ha as [Hsb Ha].
    injection Hl as Hc Hl.
    destruct (char_fold_of_lower sb tb Hsb Hc) as [Htb Hcf].
    rewrite (equalFold_cons_ascii sb tb s t Htb), Hcf. simpl. now apply IH.
Qed.

Lemma lower_eq_letter (c l : ascii) :
  lower_ascii c = l → (N_of_ascii l <? 128)%N = true → (N_of_ascii c <? 128)%N = true.
Proof.
  intros <- H.
  destruct c as [[] [] [] [] [] [] [] []]; vm_compute in H |- *; congruence.
Qed.

(** A key that is a case variant of a field name selects that field. *)
Lemma lookupField_same_letters (key : string) (f : PolicyField) :
  same_letters key (fieldName f) → lookupField key = Some f.
Proof.
  intros H. unfold lookupField.
  destruct f.
  - destruct (String.eqb_spec key (fieldName F_Unprocessable)); [reflexivity|].
    destruct (String.eqb_spec key (fieldName F_Glasswall)) as [-> | _];
      [discriminate H|].
    now rewrite (equalFold_same_letters (fieldName F_Unprocessable) key eq_refl H).
  - destruct (String.eqb_spec key (fieldName F_Unprocessable)) as [-> | _];
      [discriminate H|].
    destruct (String.eqb_spec key (fieldName F_Glasswall)); [reflexivity|].
    assert (E : equalFold (fieldName F_Unprocessable) key = false).
    { unfold same_letters in H. destruct key as [|c key]; [discriminate H|].
      simpl in H. injection H as Hc _.
      pose proof (lower_eq_letter c _ Hc eq_refl) as Hlt.
      change (fieldName F_Unprocessable) with (String "U" "nprocessableFileTypeAction").
      rewrite (equalFold_cons_ascii _ c _ key Hlt).
      assert (Hcf : char_fold "U" c = false).
      { destruct c as [[] [] [] [] [] [] [] []]; vm_compute in Hc |- *; congruence. }
      now rewrite Hcf. }
    rewrite E.
    now rewrite (equalFold_same_letters (fieldName F_Glasswall) key eq_refl H).
Qed.

Lemma object_member_unknown (P : Platform) (d : decodeState) (key : string)
    (v : JValue) (off : Z) :
  savedError d = None →
  savedError (object_member P d (key, v, off))
  = Some (errorString ("json: unknown field " +:+ strconv_Quote P key))
  ↔ lookupField key = None.
Proof.
  intros Hd. unfold object_member.
  destruct (lookupField key) as [f|]; split; intros H; try discriminate.
  - exfalso. destruct (storeIntPtr (errorField P key f) v off) as [x | e] eqn:E; simpl in H.
    + congruence.
    + unfold saveError in H. rewrite Hd in H. simpl in H.
      destruct v; simpl in E; try (destruct (ParseInt lit)); congruence.
  - reflexivity.
  - unfold saveError. rewrite Hd. reflexivity.
Qed.

(** C10.  Field names are matched without regard to the case of letters: a
    body whose two keys are any case variants of the field names is bound
    to the corresponding fields and, with both values in 1..4, accepted;
    and a member is reported as an unknown field exactly when its key
    selects no field, which never happens for a case variant of either
    name. *)
Theorem field_names_case_insensitive
    (P : Platform) (w : Run) (r : Request) (swap : bool) (ku kg : string)
    (lu lg : string) (ou og x y : Z) :
  content_type_ok r →
  same_letters ku (fieldName F_Unprocessable) →
  same_letters kg (fieldName F_Glasswall) →
  scans_to P r (policy_object ku kg swap (Some (JNumber lu, ou)) (Some (JNumber lg, og))) →
  ParseInt lu = Some x → ParseInt lg = Some y →
  in_range x → in_range y →
  validatePolicy P w r
  = inr (w, {| UnprocessableFileTypeAction := Some x;
               GlasswallBlockedFilesAction := Some y |})
  ∧ (∀ key f, same_letters key (fieldName f) → lookupField key = Some f)
  ∧ (∀ d key v off, savedError d = None →
       (savedError (object_member P d (key, v, off))
        = Some (errorString ("json: unknown field " +:+ strconv_Quote P key))
        ↔ lookupField key = None))
  ∧ (∀ d key v off, savedError d = None →
       savedError (object_member P d (key, v, off))
       = Some (errorString ("json: unknown field " +:+ strconv_Quote P key)) →
       ∀ f, ¬ same_letters key (fieldName f)).
Proof.
  intros Hct Hu Hg Hscan Pu Pg Hx Hy.
  split; [|split; [|split]].
  - rewrite (validatePolicy_decoded P w r _ (Some x) (Some y) Hct Hscan).
    + apply range_test in Hx, Hy. now rewrite Hx, Hy.
    + intros off.
      apply (unmarshal_policy_object P ku kg swap (Some (lu, ou)) (Some (lg, og))
               (Some x) (Some y) off);
        [now apply lookupField_same_letters | now apply lookupField_same_letters
        | exact Pu | exact Pg].
  - apply lookupField_same_letters.
  - apply object_member_unknown.
  - intros d key v off Hd Hsaved f Hsame.
    apply (object_member_unknown P d key v off Hd) in Hsaved.
    rewrite (lookupField_same_letters key f Hsame) in Hsaved. discriminate.
Qed.

(** ** Compact tokens *)

Lemma Split_go_no_sep (a rest cur : string) :
  no_byte "." a = true →
  Split_go "." (a +:+ rest) cur = Split_go "." rest (cur +:+ a).
Proof.
  revert cur. induction a as [|c a IH]; intros cur H.
  - now rewrite append_nil_l, append_nil_r.
  - simpl in H. apply andb_true_iff in H as [Hc Ha].
    rewrite append_cons. simpl.
    apply negb_true_iff in Hc. rewrite Hc.
    rewrite (IH _ Ha), append_assoc. reflexivity.
Qed.

Lemma Split_go_end (a cur : string) :
  no_byte "." a = true → Split_go "." a cur = [cur +:+ a].
Proof.
  intros H. rewrite <- (append_nil_r a) at 1.
  now rewrite Split_go_no_sep.
Qed.

Lemma Split_three (a b c : string) :
  no_byte "." a = true → no_byte "." b = true → no_byte "." c = true →
  Split (a +:+ "." +:+ b +:+ "." +:+ c) "." = [a; b; c].
Proof.
  intros Ha Hb Hc. unfold Split.
  rewrite (Split_go_no_sep a _ "" Ha), append_nil_l.
  change ("." +:+ b +:+ "." +:+ c) with (String "." (b +:+ "." +:+ c)).
  simpl. rewrite (Split_go_no_sep b _ "" Hb), append_nil_l.
  change ("." +:+ c) with (String "." c).
  simpl. now rewrite (Split_go_end c "" Hc), append_nil_l.
Qed.

Lemma GetSigningMethod_name (alg : string) (m : jwt.SigningMethod) :
  jwt.GetSigningMethod alg = Some m → jwt.Alg m = alg.
Proof.
  intros H. apply find_some in H as [_ H]. now apply String.eqb_eq.
Qed.

Lemma GetSigningMethod_hmac (alg name : string) (h : Hash) :
  jwt.GetSigningMethod alg = Some (jwt.SigningMethodHMAC name h) → hmac_scheme alg.
Proof.
  intros H. pose proof (GetSigningMethod_name _ _ H) as E. simpl in E. subst name.
  apply find_some in H as [Hin _]. unfold hmac_scheme.
  simpl in Hin.
  repeat (destruct Hin as [Hin | Hin]; [inversion Hin; auto|]).
  contradiction.
Qed.

Lemma claims_valid_cases (m : gmap string Any) (clock : Time) :
  jwt.MapClaims_Valid m clock = None
  ∨ ∃ inner flags, jwt.MapClaims_Valid m clock = Some (ValidationError inner "" flags)
                   ∧ (flags =? 0) = false.
Proof.
  unfold jwt.MapClaims_Valid.
  match goal with |- context [if ?c =? 0 then None else _] => destruct (c =? 0) eqn:E end.
  - now left.
  - right. eauto.
Qed.

Lemma claims_valid_exp_only (m : gmap string Any) (clock : Time) (exp : Z) :
  m !! "exp" = Some (AFloat64 exp) →
  m !! "iat" = None →
  m !! "nbf" = None →
  jwt.MapClaims_Valid m clock
  = if jwt.verifyExp exp (Time_Unix clock) false then None
    else Some (ValidationError (Some (errorString "Token is expired")) ""
                 jwt.ValidationErrorExpired).
Proof.
  intros He Hi Hn.
  unfold jwt.MapClaims_Valid, jwt.VerifyExpiresAt, jwt.VerifyIssuedAt, jwt.VerifyNotBefore.
  rewrite He, Hi, Hn.
  destruct (jwt.verifyExp exp (Time_Unix clock) false); reflexivity.
Qed.

(** What the parser returns for a token whose parts are known. *)
Lemma Parse_parts (P : Platform) (clock : Time) (p0 p1 p2 hj cj : string)
    (hdr claims : gmap string Any) (name : string) (h : Hash) :
  no_byte "." p0 = true → no_byte "." p1 = true → no_byte "." p2 = true →
  DecodeSegment P p0 = Ok hj →
  json_Unmarshal P hj = Ok hdr →
  DecodeSegment P p1 = Ok cj →
  json_Decode P cj = Ok claims →
  hdr !! "alg" = Some (AString name) →
  jwt.GetSigningMethod name = Some (jwt.SigningMethodHMAC name h) →
  DecodeSegment P p2 = Ok (hmac_Sum P h "secret" (p0 +:+ "." +:+ p1)) →
  hash_Available P h = true →
  let tok := p0 +:+ "." +:+ p1 +:+ "." +:+ p2 in
  signed_with P tok "secret"
  ∧ (jwt.MapClaims_Valid claims clock = None →
     jwt.Parse P clock tok keyFunc
     = Ok {| jwt.Raw := tok; jwt.Method := Some (jwt.SigningMethodHMAC name h);
             jwt.Header := hdr; jwt.Claims := claims;
             jwt.Signature := p2; jwt.Valid := true |})
  ∧ (∀ e, jwt.MapClaims_Valid claims clock = Some e →
          jwt.Parse P clock tok keyFunc = Err e).
Proof.
  intros N0 N1 N2 D0 U0 D1 U1 Halg Hm D2 Hav tok.
  assert (HS : Split tok "." = [p0; p1; p2]) by now apply Split_three.
  split; [|split].
  - exists p0, p1, p2, name, h. repeat split; try assumption.
    exists p0, p1, p2, hj, hdr. repeat split; assumption.
  - intros Hv. unfold jwt.Parse, jwt.ParseUnverified.
    rewrite HS, D0, U0, D1, U1, Halg, Hm. simpl.
    rewrite Hv, D2, Hav. simpl. rewrite String.eqb_refl. reflexivity.
  - intros e He. unfold jwt.Parse, jwt.ParseUnverified.
    rewrite HS, D0, U0, D1, U1, Halg, Hm. simpl.
    rewrite D2, Hav. simpl. rewrite String.eqb_refl.
    destruct (claims_valid_cases claims clock) as [Hn | (i & f & Hf & Hz)];
      rewrite He in *; [discriminate|].
    injection Hf as ->. simpl. rewrite Hz. reflexivity.
Qed.

(** A token signed by [SignedString] under the configured key, on a
    platform that carries it, parses back to the values it was made of. *)
Lemma Parse_signed (P : Platform) (clock : Time) (t : jwt.Token)
    (name : string) (h : Hash) :
  jwt.Method t = Some (jwt.SigningMethodHMAC name h) →
  jwt.Header t !! "alg" = Some (AString name) →
  jwt.GetSigningMethod name = Some (jwt.SigningMethodHMAC name h) →
  hash_Available P h = true →
  wire_ok P t "secret" h →
  ∃ tok,
    jwt.SignedString P t "secret" = Ok tok
    ∧ signed_with P tok "secret"
    ∧ (jwt.MapClaims_Valid (through_json <$> jwt.Claims t) clock = None →
       ∃ token, jwt.Parse P clock tok keyFunc = Ok token
                ∧ jwt.Valid token = true
                ∧ jwt.Claims token = through_json <$> jwt.Claims t)
    ∧ (∀ e, jwt.MapClaims_Valid (through_json <$> jwt.Claims t) clock = Some e →
            jwt.Parse P clock tok keyFunc = Err e).
Proof.
  intros Hmeth Halg Hm Hav Hw. unfold wire_ok in Hw.
  destruct (json_Marshal P (jwt.Header t)) as [hj|] eqn:Mh; [|contradiction].
  destruct (json_Marshal P (jwt.Claims t)) as [cj|] eqn:Mc; [|contradiction].
  destruct Hw as ([N0 D0] & [N1 D1] & U0 & U1 & [N2 D2]).
  set (p0 := EncodeSegment P hj) in *. set (p1 := EncodeSegment P cj) in *.
  set (p2 := EncodeSegment P (hmac_Sum P h "secret" (p0 +:+ "." +:+ p1))) in *.
  exists (p0 +:+ "." +:+ p1 +:+ "." +:+ p2).
  assert (Halg' : (through_json <$> jwt.Header t) !! "alg" = Some (AString name))
    by now rewrite lookup_fmap, Halg.
  destruct (Parse_parts P clock p0 p1 p2 hj cj _ _ name h
              N0 N1 N2 D0 U0 D1 U1 Halg' Hm D2 Hav) as (S1 & S2 & S3).
  split; [|split; [exact S1 | split]].
  - unfold jwt.SignedString, jwt.SigningString. rewrite Mh, Mc. simpl.
    rewrite Hmeth. simpl. rewrite Hav. simpl.
    fold p0 p1. fold p2. now rewrite append_assoc.
  - intros Hv. eexists. split; [exact (S2 Hv)|]. split; reflexivity.
  - exact S3.
Qed.

Lemma segment_check_sound (P : Platform) (b : string) :
  segment_check P b = true → segment_ok P b.
Proof.
  unfold segment_check, segment_ok. intros H.
  apply andb_true_iff in H as [H1 H2]. split; [exact H1|].
  destruct (DecodeSegment P (EncodeSegment P b)) as [b'|]; [|discriminate].
  apply String.eqb_eq in H2. now subst.
Qed.

Lemma decodes_to_sound (decoded : Result (gmap string Any)) (m : gmap string Any) :
  decodes_to decoded m = true → decoded = Ok m.
Proof.
  unfold decodes_to. destruct decoded as [m'|]; [|discriminate].
  intros H. apply bool_decide_eq_true in H. now subst.
Qed.

Lemma wire_check_sound (P : Platform) (t : jwt.Token) (key : string) (h : Hash) :
  wire_check P t key h = true → wire_ok P t key h.
Proof.
  unfold wire_check, wire_ok.
  destruct (json_Marshal P (jwt.Header t)) as [hj|]; [|discriminate].
  destruct (json_Marshal P (jwt.Claims t)) as [cj|]; [|discriminate].
  rewrite !andb_true_iff. intros ((((H1 & H2) & H3) & H4) & H5).
  split; [now apply segment_check_sound|].
  split; [now apply segment_check_sound|].
  split; [now apply decodes_to_sound|].
  split; [now apply decodes_to_sound|].
  now apply segment_check_sound.
Qed.

(** ** Issue, then verify *)

Lemma issuedClaims_exp (cfg : Config) (issued : Time) :
  issuedClaims cfg issued !! "exp" = Some (AInt64 (Time_Unix issued + 300)).
Proof.
  unfold issuedClaims.
  rewrite !lookup_insert_ne by discriminate. rewrite lookup_insert_eq.
  unfold Time_Unix, Time_Add, Minute.
  replace (issued + 60 * Second * 5) with (issued + 300 * Second) by lia.
  now rewrite Z.div_add by (unfold Second; lia).
Qed.

Lemma issuedClaims_sub (cfg : Config) (issued : Time) :
  issuedClaims cfg issued !! "sub" = Some (AString (username cfg)).
Proof.
  unfold issuedClaims.
  rewrite lookup_insert_ne by discriminate. now rewrite lookup_insert_eq.
Qed.

Lemma issuedClaims_other (cfg : Config) (issued : Time) (k : string) :
  k ≠ "iss" → k ≠ "sub" → k ≠ "aud" → k ≠ "exp" →
  issuedClaims cfg issued !! k = None.
Proof.
  intros. unfold issuedClaims.
  rewrite !lookup_insert_ne by congruence. apply lookup_empty.
Qed.

Lemma issue_SignedString (P : Platform) (cfg : Config) (issued : Time) (tok : string) :
  jwt.SignedString P (jwt.NewWithClaims jwt.SigningMethodHS256 (issuedClaims cfg issued))
    "secret" = Ok tok →
  issue P cfg issued = tok.
Proof.
  intros H. unfold issue, createToken. simpl. rewrite H. reflexivity.
Qed.

Lemma Time_Unix_mono (a b : Time) : a <= b → Time_Unix a <= Time_Unix b.
Proof. intros H. unfold Time_Unix. apply Z.div_le_mono; [reflexivity | exact H]. Qed.

Lemma Time_Unix_add_5min (t : Time) : Time_Unix (Time_Add t (Minute * 5)) = Time_Unix t + 300.
Proof.
  unfold Time_Unix, Time_Add, Minute.
  replace (t + 60 * Second * 5) with (t + 300 * Second) by lia.
  now rewrite Z.div_add by (unfold Second; lia).
Qed.

(** What [verifyToken] makes of the issued token at any instant. *)
Lemma verify_issued (P : Platform) (cfg : Config) (issued tv : Time) :
  hash_Available P SHA256 = true →
  wire_ok P (jwt.NewWithClaims jwt.SigningMethodHS256 (issuedClaims cfg issued))
    "secret" SHA256 →
  verifyToken P tv (issue P cfg issued)
  = if jwt.verifyExp (Time_Unix issued + 300) (Time_Unix tv) false
    then Returns (Ok (identity (username cfg)))
    else Returns (Err (ValidationError (Some (errorString "Token is expired")) ""
                         jwt.ValidationErrorExpired)).
Proof.
  intros Hav Hw.
  destruct (Parse_signed P tv
              (jwt.NewWithClaims jwt.SigningMethodHS256 (issuedClaims cfg issued))
              "HS256" SHA256 eq_refl eq_refl eq_refl Hav Hw)
    as (tok & Hsig & _ & Hok & Herr).
  rewrite (issue_SignedString P cfg issued tok Hsig).
  simpl jwt.Claims in Hok, Herr.
  assert (Hv := claims_valid_exp_only (through_json <$> issuedClaims cfg issued) tv
                  (Time_Unix issued + 300)).
  rewrite !lookup_fmap, issuedClaims_exp in Hv.
  rewrite !issuedClaims_other in Hv by discriminate.
  specialize (Hv eq_refl eq_refl eq_refl).
  unfold verifyToken.
  destruct (jwt.verifyExp (Time_Unix issued + 300) (Time_Unix tv) false).
  - destruct (Hok Hv) as (token & -> & Hvalid & Hclaims).
    rewrite Hvalid, Hclaims, lookup_fmap, issuedClaims_sub. reflexivity.
  - now rewrite (Herr _ Hv).
Qed.

(** C1, as amended.  For the operator's credentials the token issued at
    [issued] verifies to an identity with the operator's name at every
    instant whose Unix second is at most that of [issued] plus 300, hence
    at every instant before [issued] plus five minutes and also during the
    whole second the five minutes end in; from the second after, it is
    rejected as expired (for a clock past the epoch). *)
Theorem issued_token_verifies_until_expiry
    (P : Platform) (cfg : Config) (usr pass : string) (issued tv : Time) :
  usr = username cfg →
  pass = password cfg →
  0 <= issued →
  hash_Available P SHA256 = true →
  wire_ok P (jwt.NewWithClaims jwt.SigningMethodHS256 (issuedClaims cfg issued))
    "secret" SHA256 →
  validateUser cfg usr pass = Ok (NewDefaultUser usr "1" [] ∅)
  ∧ (Time_Unix tv <= Time_Unix issued + 300 →
     verifyToken P tv (issue P cfg issued) = Returns (Ok (identity usr)))
  ∧ (tv < Time_Add issued (Minute * 5) →
     verifyToken P tv (issue P cfg issued) = Returns (Ok (identity usr)))
  ∧ (Time_Unix issued + 300 < Time_Unix tv →
     verifyToken P tv (issue P cfg issued)
     = Returns (Err (ValidationError (Some (errorString "Token is expired")) ""
                       jwt.ValidationErrorExpired))).
Proof.
  intros -> -> Hpos Hav Hw.
  assert (Hexp : 300 <= Time_Unix issued + 300).
  { pose proof (Time_Unix_mono 0 issued Hpos) as H. change (Time_Unix 0) with 0 in H. lia. }
  rewrite (verify_issued P cfg issued tv Hav Hw).
  unfold jwt.verifyExp.
  destruct (Z.eqb_spec (Time_Unix issued + 300) 0) as [E | _]; [lia|].
  split; [|split; [|split]].
  - unfold validateUser. now rewrite !String.eqb_refl.
  - intros H. simpl. destruct (Z.leb_spec (Time_Unix tv) (Time_Unix issued + 300));
      [reflexivity | lia].
  - intros H. simpl.
    assert (Time_Unix tv <= Time_Unix issued + 300).
    { rewrite <- Time_Unix_add_5min. apply Time_Unix_mono. lia. }
    destruct (Z.leb_spec (Time_Unix tv) (Time_Unix issued + 300)); [reflexivity | lia].
  - intros H. simpl.
    destruct (Z.leb_spec (Time_Unix tv) (Time_Unix issued + 300)); [lia | reflexivity].
Qed.

(** ** Tokens without a subject *)

(** C9.  Whoever holds the signing key can mint a token with an expiry and
    no subject; on a platform that carries it, the parser accepts it as
    valid and [verifyToken] then panics in the type assertion instead of
    returning an error. *)
Theorem subjectless_token_panics (P : Platform) (now : Time) (exp : Z) :
  hash_Available P SHA256 = true →
  wire_ok P (subjectless exp) "secret" SHA256 →
  Time_Unix now <= exp →
  ∃ tok,
    jwt.SignedString P (subjectless exp) "secret" = Ok tok
    ∧ signed_with P tok "secret"
    ∧ (∃ token, jwt.Parse P now tok keyFunc = Ok token
                ∧ jwt.Valid token = true
                ∧ jwt.Claims token !! "exp" = Some (AFloat64 exp)
                ∧ jwt.Claims token !! "sub" = None)
    ∧ verifyToken P now tok
      = Panics "interface conversion: interface {} is nil, not string".
Proof.
  intros Hav Hw Hexp.
  destruct (Parse_signed P now (subjectless exp)
              "HS256" SHA256 eq_refl eq_refl eq_refl Hav Hw)
    as (tok & Hsig & Hsw & Hok & _).
  exists tok. split; [exact Hsig | split; [exact Hsw|]].
  simpl jwt.Claims in Hok.
  assert (Hv := claims_valid_exp_only
                  (through_json <$> (<["exp" := AFloat64 exp]> (∅ : gmap string Any)))
                  now exp).
  rewrite !lookup_fmap, lookup_insert_eq in Hv.
  rewrite !lookup_insert_ne, !lookup_empty in Hv by discriminate.
  specialize (Hv eq_refl eq_refl eq_refl).
  assert (Hve : jwt.verifyExp exp (Time_Unix now) false = true).
  { unfold jwt.verifyExp. destruct (exp =? 0); [reflexivity|]. now apply Z.leb_le. }
  rewrite Hve in Hv.
  destruct (Hok Hv) as (token & HP & Hvalid & Hclaims).
  assert (Hsub : jwt.Claims token !! "sub" = None).
  { rewrite Hclaims, lookup_fmap, lookup_insert_ne, lookup_empty by discriminate.
    reflexivity. }
  split.
  - exists token. repeat split; try assumption.
    now rewrite Hclaims, lookup_fmap, lookup_insert_eq.
  - unfold verifyToken. rewrite HP, Hvalid, Hsub. reflexivity.
Qed.

(** ** Tokens not signed with the configured key *)

Lemma declares_alg_unique (P : Platform) (tok a b : string) :
  declares_alg P tok a → declares_alg P tok b → a = b.
Proof.
  intros (p0 & p1 & p2 & hj & hdr & S & D & U & L)
         (q0 & q1 & q2 & hj' & hdr' & S' & D' & U' & L').
  rewrite S in S'. injection S' as <- <- <-.
  rewrite D in D'. injection D' as <-.
  rewrite U in U'. injection U' as <-.
  congruence.
Qed.

Lemma lor_signature_flag (x : Z) : (Z.lor x jwt.ValidationErrorSignatureInvalid =? 0) = false.
Proof.
  apply Z.eqb_neq. intros H. apply Z.lor_eq_0_iff in H as [_ H]. discriminate H.
Qed.

(** Whatever the parser accepts was signed with the configured key under
    an HMAC method. *)
Lemma Parse_Ok_signed (P : Platform) (clock : Time) (tok : string) (token : jwt.Token) :
  jwt.Parse P clock tok keyFunc = Ok token → signed_with P tok "secret".
Proof.
  unfold jwt.Parse, jwt.ParseUnverified, bindR.
  destruct (Split tok ".") as [|p0 [|p1 [|p2 [|p3 rest]]]] eqn:S; try discriminate.
  destruct (DecodeSegment P p0) as [hj | e0] eqn:D0;
    [|destruct (HasPrefix (ToLower tok) "bearer "); discriminate].
  destruct (json_Unmarshal P hj) as [hdr | e1] eqn:U0; [|discriminate].
  destruct (DecodeSegment P p1) as [cj | e2] eqn:D1; [|discriminate].
  destruct (json_Decode P cj) as [claims | e3] eqn:U1; [|discriminate].
  destruct (hdr !! "alg") as [[| | | | alg | |]|] eqn:L; try discriminate.
  destruct (jwt.GetSigningMethod alg) as [m|] eqn:G; [|discriminate].
  pose proof (GetSigningMethod_name alg m G) as Hname.
  destruct m as [n h | n h | n h | n h |]; simpl; try discriminate.
  simpl in Hname. subst n.
  destruct (DecodeSegment P p2) as [sig | e4] eqn:D2;
    [|cbn [fst snd]; rewrite lor_signature_flag; discriminate].
  destruct (hash_Available P h); simpl; [|cbn [fst snd]; rewrite lor_signature_flag; discriminate].
  destruct (String.eqb_spec sig (hmac_Sum P h "secret" (p0 +:+ "." +:+ p1))) as [-> | _];
    [|cbn [fst snd]; rewrite lor_signature_flag; discriminate].
  intros _.
  exists p0, p1, p2, alg, h. repeat split; try assumption.
  exists p0, p1, p2, hj, hdr. repeat split; assumption.
Qed.

(** C6.  A token whose header declares an algorithm outside the HMAC
    family, or that is signed under a key whose MAC differs from that of
    the configured key, or more generally that is not signed under the
    configured key with the HMAC method it declares, gets an error from
    [verifyToken], never an identity and never a panic, whatever its
    claims say. *)
Theorem foreign_tokens_rejected (P : Platform) (now : Time) (tok : string) :
  (∃ alg, declares_alg P tok alg ∧ ¬ hmac_scheme alg)
  ∨ (∃ key, signed_with P tok key ∧ mac_differs P tok key)
  ∨ ¬ signed_with P tok "secret" →
  ∃ e, verifyToken P now tok = Returns (Err e).
Proof.
  intros H.
  assert (Hns : ¬ signed_with P tok "secret").
  { destruct H as [(alg & Hd & Hn) | [(key & Hk & Hdiff) | H]]; [| |exact H].
    - intros (p0 & p1 & p2 & alg' & h & _ & Hd' & G & _).
      apply Hn. rewrite (declares_alg_unique P tok alg alg' Hd Hd').
      exact (GetSigningMethod_hmac _ _ _ G).
    - destruct Hk as (p0 & p1 & p2 & alg & h & S & Hd & G & D).
      intros (q0 & q1 & q2 & alg' & h' & S' & Hd' & G' & D').
      rewrite S in S'. injection S' as <- <- <-.
      rewrite <- (declares_alg_unique P tok alg alg' Hd Hd') in G'.
      rewrite G in G'. injection G' as <-.
      rewrite D in D'. injection D' as D'.
      exact (Hdiff p0 p1 p2 h S D'). }
  unfold verifyToken.
  destruct (jwt.Parse P now tok keyFunc) as [token | e] eqn:E.
  - exfalso. apply Hns. exact (Parse_Ok_signed P now tok token E).
  - now exists e.
Qed.

(** ** The statements at work on the reference platform *)

Lemma content_type_ok_json (method body : string) :
  content_type_ok (request_with method "application/json" body).
Proof. right. reflexivity. Qed.

Lemma issued_token_verifies_until_expiry_witness :
  verifyToken Ref.platform (Sample.t0 + Second) (issue Ref.platform Ref.operator Sample.t0)
  = Returns (Ok (identity "operator")).
Proof.
  refine (proj1 (proj2 (proj2
    (issued_token_verifies_until_expiry Ref.platform Ref.operator
       "operator" "correct horse" Sample.t0 (Sample.t0 + Second)
       eq_refl eq_refl _ eq_refl _))) _).
  - vm_compute; discriminate.
  - apply wire_check_sound. vm_compute. reflexivity.
  - vm_compute; reflexivity.
Defined.

(** C1 as stated fails at its boundary: exactly five minutes after
    issuance the operator's token still verifies. *)
Lemma token_still_valid_at_five_minutes :
  validateUser Ref.operator "operator" "correct horse"
  = Ok (NewDefaultUser "operator" "1" [] ∅)
  ∧ verifyToken Ref.platform (Time_Add Sample.t0 (Minute * 5))
      (issue Ref.platform Ref.operator Sample.t0)
    = Returns (Ok (identity "operator")).
Proof. split; vm_compute; reflexivity. Qed.


Lemma oversized_body_answers_400_witness :
  1048576 < len (Body Sample.put_oversized)
  ∧ http.statusCode (W (updatePolicy Ref.platform Ref.operator Ref.cluster_ok start
                          Sample.put_oversized)) = 400.
Proof.
  split; [vm_compute; reflexivity|].
  refine (proj1
    (oversized_body_answers_400 Ref.platform Ref.operator Ref.cluster_ok start
       Sample.put_oversized true _ eq_refl (content_type_ok_json _ _) _ _)).
  - vm_compute; discriminate.
  - vm_compute; reflexivity.
  - vm_compute; reflexivity.
Defined.

Lemma auth_failure_echoes_error_witness :
  http.body (W (authMiddleware (Sample.password_authenticator "operator" "guess")
                  Sample.downstream start Sample.get_token))
  = "Invalid credentials" +:+ newline.
Proof.
  refine (proj1 (proj2
    (auth_failure_echoes_error (Sample.password_authenticator "operator" "guess")
       Sample.downstream start Sample.get_token (errorString "Invalid credentials")
       _ eq_refl _))).
  - vm_compute; discriminate.
  - vm_compute; reflexivity.
Defined.

(** C4 as stated fails: the body is not a fixed generic text but the
    reason itself, different for a wrong password and for an expired
    token. *)
Lemma auth_failure_body_names_reason :
  http.body (W (authMiddleware (Sample.password_authenticator "operator" "guess")
                  Sample.downstream start Sample.get_token))
  = "Invalid credentials" +:+ newline
  ∧ http.body (W (authMiddleware
                    (Sample.bearer_authenticator (Sample.t0 + 10 * Minute)
                       (issue Ref.platform Ref.operator Sample.t0))
                    Sample.downstream start Sample.put_policy))
    = "Token is expired" +:+ newline.
Proof. split; vm_compute; reflexivity. Qed.

(** C7 as stated fails: for the operator's configuration, an attempt with
    a wrong username is rejected after one comparison, its password never
    looked at, while an attempt with the right username and a wrong password
    is rejected after two; both get the same error, but the comparisons
    made tell which field failed, and they are not those of a comparison
    that takes both fields every time. *)
Lemma wrong_username_skips_password :
  fst (validateUser_steps Ref.operator "nobody" "guess")
  = Err (errorString "Invalid credentials")
  ∧ fst (validateUser_steps Ref.operator "operator" "guess")
    = Err (errorString "Invalid credentials")
  ∧ snd (validateUser_steps Ref.operator "nobody" "guess") = [("nobody", "operator")]
  ∧ snd (validateUser_steps Ref.operator "operator" "guess")
    = [("operator", "operator"); ("guess", "correct horse")]
  ∧ snd (validateUser_steps Ref.operator "nobody" "guess")
    ≠ snd (validateUser_spec_steps Ref.operator "nobody" "guess").
Proof.
  split; [reflexivity|]. split; [reflexivity|]. split; [reflexivity|].
  split; [reflexivity|]. vm_compute. discriminate.
Qed.

Lemma createToken_ignores_signing_error_witness :
  http.statusCode (W (createToken Ref.platform_without_hashes Ref.operator Sample.t0
                        start Sample.get_token)) = 200.
Proof.
  refine (proj1
    (createToken_ignores_signing_error Ref.platform_without_hashes Ref.operator
       Sample.t0 start Sample.get_token _ eq_refl)).
  vm_compute; discriminate.
Defined.

(** C5 as stated fails: where the hash is not available, signing fails,
    and the client gets 200 with an empty body. *)
Lemma signing_failure_answers_200_empty :
  jwt.SignedString Ref.platform_without_hashes
    (jwt.NewWithClaims jwt.SigningMethodHS256 (issuedClaims Ref.operator Sample.t0))
    "secret" = Err jwt.ErrHashUnavailable
  ∧ http.statusCode (W (createToken Ref.platform_without_hashes Ref.operator Sample.t0
                          start Sample.get_token)) = 200
  ∧ http.body (W (createToken Ref.platform_without_hashes Ref.operator Sample.t0
                    start Sample.get_token)) = "".
Proof. repeat split; vm_compute; reflexivity. Qed.

Lemma foreign_tokens_rejected_witness :
  ∃ e, verifyToken Ref.platform Sample.t0 Sample.unsigned_token = Returns (Err e).
Proof.
  apply (foreign_tokens_rejected Ref.platform Sample.t0 Sample.unsigned_token).
  left. exists "none". split.
  - eexists _, _, _, _, _. split; [vm_compute; reflexivity|].
    split; [vm_compute; reflexivity|].
    split; [vm_compute; reflexivity|].
    vm_compute; reflexivity.
  - intros [H | [H | H]]; discriminate H.
Defined.

Lemma subjectless_token_panics_witness :
  ∃ tok, jwt.SignedString Ref.platform (subjectless 2000000000) "secret" = Ok tok
         ∧ verifyToken Ref.platform Sample.t0 tok
           = Panics "interface conversion: interface {} is nil, not string".
Proof.
  destruct (subjectless_token_panics Ref.platform Sample.t0 2000000000) as (tok & H1 & _ & _ & H4).
  - reflexivity.
  - apply wire_check_sound. vm_compute. reflexivity.
  - vm_compute; discriminate.
  - exists tok. split; assumption.
Defined.

Lemma field_names_case_insensitive_witness :
  validatePolicy Ref.platform start Sample.put_policy_shouting
  = inr (start, {| UnprocessableFileTypeAction := Some 3;
                   GlasswallBlockedFilesAction := Some 4 |}).
Proof.
  refine (proj1
    (field_names_case_insensitive Ref.platform start Sample.put_policy_shouting false
       "UNPROCESSABLEFILETYPEACTION" "glasswallblockedfilesaction" "3" "4" 32 64 3 4
       (content_type_ok_json _ _) eq_refl eq_refl _ eq_refl eq_refl _ _)).
  - exists 1. vm_compute. reflexivity.
  - unfold in_range; lia.
  - unfold in_range; lia.
Defined.

(** A token signed under another key is turned away as well. *)
Example forged_token_rejected :
  verifyToken Ref.platform Sample.t0 Sample.forged_token
  = Returns (Err (ValidationError (Some jwt.ErrSignatureInvalid) ""
                    jwt.ValidationErrorSignatureInvalid)).
Proof. vm_compute. reflexivity. Qed.

(** ** The scenarios of the specification, run *)

Example scenario_valid_policy_stored :
  http.statusCode (W (updatePolicy Ref.platform Ref.operator Ref.cluster_ok start
                        Sample.put_policy)) = 200
  ∧ Updates (updatePolicy Ref.platform Ref.operator Ref.cluster_ok start Sample.put_policy)
    = [ {| Policy_ := "{" +:+ Sample.key_value "UnprocessableFileTypeAction" "1" +:+ ","
                      +:+ Sample.key_value "GlasswallBlockedFilesAction" "2" +:+ "}"
                      +:+ newline;
           Namespace := "icap-adaptation";
           ConfigMapName := "ncfs-policy" |} ].
Proof. split; vm_compute; reflexivity. Qed.

Example scenario_zero_rejected :
  updatePolicy Ref.platform Ref.operator Ref.cluster_ok start
    (request_with "PUT" "application/json" (Sample.policy_body "0" "2"))
  = http_Error (setCORS start)
      "UnprocessableFileTypeAction must be between 1-4 inclusive." 400.
Proof. vm_compute. reflexivity. Qed.

(** A number beyond 64 bits: 400 under either decoder, the field named
    by the key as sent or by its Go name. *)
Example scenario_unfit_number_rejected :
  http.statusCode (W (updatePolicy Ref.platform_as_sent Ref.operator Ref.cluster_ok start
                        (request_with "PUT" "application/json"
                           (Sample.policy_body "99999999999999999999" "2")))) = 400
  ∧ Contains (http.body (W (updatePolicy Ref.platform_as_sent Ref.operator Ref.cluster_ok
                              start
                              (request_with "PUT" "application/json"
                                 (Sample.policy_body "99999999999999999999" "2")))))
      "Policy.unprocessableFileTypeAction" = true
  ∧ Contains (http.body (W (updatePolicy Ref.platform Ref.operator Ref.cluster_ok start
                              (request_with "PUT" "application/json"
                                 (Sample.policy_body "99999999999999999999" "2")))))
      "Policy.UnprocessableFileTypeAction" = true
  ∧ Updates (updatePolicy Ref.platform_as_sent Ref.operator Ref.cluster_ok start
               (request_with "PUT" "application/json"
                  (Sample.policy_body "99999999999999999999" "2"))) = [].
Proof. repeat split; vm_compute; reflexivity. Qed.

Example scenario_unknown_field_rejected :
  http.statusCode
    (W (updatePolicy Ref.platform Ref.operator Ref.cluster_ok start
          (request_with "PUT" "application/json"
             ("{" +:+ Sample.key_value "foo" "1" +:+ ","
                  +:+ Sample.key_value "unprocessableFileTypeAction" "1" +:+ "}")))) = 400
  ∧ http.body
      (W (updatePolicy Ref.platform Ref.operator Ref.cluster_ok start
            (request_with "PUT" "application/json"
               ("{" +:+ Sample.key_value "foo" "1" +:+ ","
                    +:+ Sample.key_value "unprocessableFileTypeAction" "1" +:+ "}"))))
    = "json: unknown field " +:+ dquote +:+ "foo" +:+ dquote +:+ newline
      +:+ "Request body contains unknown field " +:+ dquote +:+ "foo" +:+ dquote
      +:+ newline.
Proof. split; vm_compute; reflexivity. Qed.

Example scenario_wrong_password :
  authMiddleware (Sample.password_authenticator "operator" "guess")
    (createToken Ref.platform Ref.operator Sample.t0) start Sample.get_token
  = http_Error (log_Println "Executing Auth Middleware" (setCORS start))
      "Invalid credentials" 401.
Proof. vm_compute. reflexivity. Qed.

Example scenario_preflight :
  authMiddleware (Sample.password_authenticator "" "")
    (createToken Ref.platform Ref.operator Sample.t0) start
    (request_with "OPTIONS" "" "")
  = setCORS start.
Proof. reflexivity. Qed.

(** * Further properties of the handlers *)

(** ** Outcomes of [updatePolicy] *)

Lemma decodeFailed_keeps_updates (P : Platform) (w : Run) (e : error) :
  Updates (decodeFailed P w e) = Updates w.
Proof.
  unfold decodeFailed.
  destruct e; try reflexivity;
    (destruct (HasPrefix _ "json: unknown field "); [reflexivity|]);
    try reflexivity;
    (destruct (String.eqb _ "http: request body too large"); reflexivity).
Qed.

(** Validation ends in one of two ways: a 400 or 415 answer with the
    cluster untouched, or an unchanged response and a policy with both
    fields present and in 1..4. *)
Lemma validatePolicy_cases (P : Platform) (w : Run) (r : Request) :
  http.status (W w) = None →
  (∃ w', validatePolicy P w r = inl w'
         ∧ (http.statusCode (W w') = 400 ∨ http.statusCode (W w') = 415)
         ∧ Updates w' = Updates w)
  ∨ (∃ p, validatePolicy P w r = inr (w, p) ∧ populated p).
Proof.
  intros Hs.
  assert (R : ∀ msg code, code = 400 ∨ code = 415 →
              ∃ w', @inl Run (Run * Policy) (http_Error w msg code) = inl w'
                    ∧ (http.statusCode (W w') = 400 ∨ http.statusCode (W w') = 415)
                    ∧ Updates w' = Updates w).
  { intros msg code Hc. exists (http_Error w msg code).
    destruct (http_Error_fresh w msg code Hs) as (H1 & _ & _ & H4).
    rewrite (statusCode_of_status _ _ H1). auto. }
  unfold validatePolicy.
  destruct (negb _ && negb _); [left; apply R; now right|].
  destruct (Decode P _) as [p | err].
  - destruct p as [[u|] g]; cbv beta iota delta [UnprocessableFileTypeAction
                                                   GlasswallBlockedFilesAction];
      [|left; apply R; now left].
    destruct ((u <=? 0) || (u >=? 5)) eqn:Eu; [left; apply R; now left|].
    destruct g as [g|]; [|left; apply R; now left].
    destruct ((g <=? 0) || (g >=? 5)) eqn:Eg; [left; apply R; now left|].
    right. eexists. split; [reflexivity|].
    exists u, g. repeat split; try (now apply range_test); now apply range_test.
  - left. exists (decodeFailed P w err). split; [reflexivity|].
    destruct (decodeFailed_status P w err Hs) as [H400 _].
    split; [now left | apply decodeFailed_keeps_updates].
Qed.

(** X1.  Whatever the request, [updatePolicy] hands the cluster at most one
    policy, and only one that is complete, in range, encoded for the
    configured namespace and document, and for which the client session was
    obtained. *)
Theorem updates_are_validated
    (P : Platform) (cfg : Config) (k : Cluster) (w : Run) (r : Request) :
  http.status (W w) = None →
  Updates (updatePolicy P cfg k w r) = Updates w
  ∨ ∃ p, populated p
         ∧ Updates (updatePolicy P cfg k w r) = (Updates w ++ [cluster_args cfg p])%list
         ∧ GetClient k (cluster_args cfg p) = None.
Proof.
  intros Hs. unfold updatePolicy.
  destruct (String.eqb (Method r) "OPTIONS"); [now left|].
  destruct (validatePolicy_cases P (setCORS w) r Hs)
    as [(w' & -> & _ & Hu) | (p & -> & Hp)]; [now left|].
  fold (cluster_args cfg p).
  destruct (GetClient k (cluster_args cfg p)) eqn:G; [now left|].
  right. exists p. split; [exact Hp|]. split; [|exact G].
  destruct (UpdatePolicy k (cluster_args cfg p)); reflexivity.
Qed.

Lemma updates_are_validated_witness :
  ∃ p, populated p
       ∧ Updates (updatePolicy Ref.platform Ref.operator Ref.cluster_ok start
                    Sample.put_policy) = [cluster_args Ref.operator p].
Proof.
  destruct (updates_are_validated Ref.platform Ref.operator Ref.cluster_ok start
              Sample.put_policy eq_refl) as [H | (p & Hp & Hu & _)].
  - vm_compute in H. discriminate H.
  - exists p. split; [exact Hp | exact Hu].
Defined.

(** X2.  On a fresh response [updatePolicy] answers 200, 400, 415 or 500
    and nothing else; in particular never 413 or 401. *)
Theorem updatePolicy_status_codes
    (P : Platform) (cfg : Config) (k : Cluster) (w : Run) (r : Request) :
  http.status (W w) = None →
  In (http.statusCode (W (updatePolicy P cfg k w r))) [200; 400; 415; 500].
Proof.
  intros Hs. unfold updatePolicy.
  destruct (String.eqb (Method r) "OPTIONS").
  - unfold http.statusCode. rewrite status_setCORS, Hs. simpl. auto.
  - destruct (validatePolicy_cases P (setCORS w) r Hs)
      as [(w' & -> & [-> | ->] & _) | (p & -> & _)]; simpl; auto.
    fold (cluster_args cfg p). unfold http.StatusInternalServerError.
    destruct (GetClient k (cluster_args cfg p)) as [e|].
    + destruct (http_Error_fresh
                  (log_Println ("Unable to get client: " +:+ Error e) (setCORS w))
                  "Something went wrong getting K8 Client." 500 Hs) as (H1 & _).
      rewrite (statusCode_of_status _ _ H1). simpl. auto.
    + destruct (UpdatePolicy k (cluster_args cfg p)) as [e|].
      * destruct (http_Error_fresh
                    (log_Println ("Unable to update policy: " +:+ Error e)
                       (record_update (cluster_args cfg p) (setCORS w)))
                    "Something went wrong when updating the config map." 500 Hs)
          as (H1 & _).
        rewrite (statusCode_of_status _ _ H1). simpl. auto.
      * unfold http.statusCode, w_Write, onW, http.Write, http.WriteHeader; simpl.
        rewrite Hs. simpl. auto.
Qed.

Lemma updatePolicy_status_codes_witness :
  In (http.statusCode (W (updatePolicy Ref.platform Ref.operator Ref.cluster_ok start
                            Sample.put_text))) [200; 400; 415; 500].
Proof.
  exact (updatePolicy_status_codes Ref.platform Ref.operator Ref.cluster_ok start
           Sample.put_text eq_refl).
Defined.

Lemma updates_grow (l : list PolicyArgs) (a : PolicyArgs) : (l ++ [a])%list ≠ l.
Proof.
  intros H. apply (f_equal (@List.length _)) in H.
  rewrite List.length_app in H. simpl in H. lia.
Qed.

(** What [updatePolicy] does with a policy that passed validation. *)
Lemma updatePolicy_validated (P : Platform) (cfg : Config) (k : Cluster)
    (w : Run) (r : Request) (p : Policy) :
  Method r ≠ "OPTIONS" →
  validatePolicy P (setCORS w) r = inr (setCORS w, p) →
  updatePolicy P cfg k w r
  = match GetClient k (cluster_args cfg p) with
    | Some err =>
        http_Error (log_Println ("Unable to get client: " +:+ Error err) (setCORS w))
          "Something went wrong getting K8 Client." 500
    | None =>
        match UpdatePolicy k (cluster_args cfg p) with
        | Some err =>
            http_Error (log_Println ("Unable to update policy: " +:+ Error err)
                          (record_update (cluster_args cfg p) (setCORS w)))
              "Something went wrong when updating the config map." 500
        | None =>
            w_Write "Successfully updated config map."
              (record_update (cluster_args cfg p) (setCORS w))
        end
    end.
Proof.
  intros Hm Hv. unfold updatePolicy.
  now rewrite (eqb_false_of_ne _ _ Hm), Hv.
Qed.

(** X3.  A request other than a pre-flight is answered 200 exactly when a
    complete, in-range policy was handed to the cluster and both cluster
    calls returned no error. *)
Theorem ok_iff_stored
    (P : Platform) (cfg : Config) (k : Cluster) (w : Run) (r : Request) :
  http.status (W w) = None →
  Method r ≠ "OPTIONS" →
  http.statusCode (W (updatePolicy P cfg k w r)) = 200
  ↔ ∃ p, populated p
         ∧ Updates (updatePolicy P cfg k w r) = (Updates w ++ [cluster_args cfg p])%list
         ∧ GetClient k (cluster_args cfg p) = None
         ∧ UpdatePolicy k (cluster_args cfg p) = None.
Proof.
  intros Hs Hm.
  destruct (validatePolicy_cases P (setCORS w) r Hs)
    as [(w' & Hv & Hc & Hu) | (p & Hv & Hp)].
  - rewrite (updatePolicy_rejected P cfg k w w' r Hm Hv). split.
    + intros H. destruct Hc as [Hc | Hc]; rewrite Hc in H; discriminate.
    + intros (p & _ & H & _). rewrite Hu in H. symmetry in H.
      now apply updates_grow in H.
  - rewrite (updatePolicy_validated P cfg k w r p Hm Hv).
    destruct (GetClient k (cluster_args cfg p)) as [e|] eqn:G.
    + destruct (http_Error_fresh
                  (log_Println ("Unable to get client: " +:+ Error e) (setCORS w))
                  "Something went wrong getting K8 Client." 500 Hs) as (H1 & _ & _ & H4).
      rewrite (statusCode_of_status _ _ H1), H4. split; [discriminate|].
      intros (p' & _ & H & _). symmetry in H. now apply updates_grow in H.
    + destruct (UpdatePolicy k (cluster_args cfg p)) as [e|] eqn:U.
      * destruct (http_Error_fresh
                    (log_Println ("Unable to update policy: " +:+ Error e)
                       (record_update (cluster_args cfg p) (setCORS w)))
                    "Something went wrong when updating the config map." 500 Hs)
          as (H1 & _ & _ & H4).
        rewrite (statusCode_of_status _ _ H1), H4. split; [discriminate|].
        intros (p' & _ & H & _ & U').
        change (Updates (record_update (cluster_args cfg p) (setCORS w)))
          with (Updates w ++ [cluster_args cfg p])%list in H.
        apply app_inv_head in H.
        apply (f_equal (fun l => List.hd (cluster_args cfg p) l)) in H.
        cbn [List.hd] in H. rewrite <- H in U'. congruence.
      * split.
        -- intros _. exists p. repeat split; assumption.
        -- intros _. unfold http.statusCode, w_Write, onW, http.Write, http.WriteHeader.
           simpl. rewrite Hs. reflexivity.
Qed.

Lemma ok_iff_stored_witness :
  http.statusCode (W (updatePolicy Ref.platform Ref.operator Ref.cluster_ok start
                        Sample.put_policy)) = 200
  ↔ ∃ p, populated p
         ∧ Updates (updatePolicy Ref.platform Ref.operator Ref.cluster_ok start
                      Sample.put_policy)
           = ([] ++ [cluster_args Ref.operator p])%list
         ∧ GetClient Ref.cluster_ok (cluster_args Ref.operator p) = None
         ∧ UpdatePolicy Ref.cluster_ok (cluster_args Ref.operator p) = None.
Proof.
  apply (ok_iff_stored Ref.platform Ref.operator Ref.cluster_ok start Sample.put_policy);
    [reflexivity | vm_compute; discriminate].
Defined.

(** X4.  A 500 answer comes only from the cluster: the policy had passed
    validation and one of the two cluster calls failed.  The client gets a
    fixed sentence; the error's text goes to the log only; when the client
    session failed, [UpdatePolicy] was not called. *)
Theorem server_error_only_from_cluster
    (P : Platform) (cfg : Config) (k : Cluster) (w : Run) (r : Request) :
  http.status (W w) = None →
  http.statusCode (W (updatePolicy P cfg k w r)) = 500 →
  ∃ p e, populated p ∧
    ((GetClient k (cluster_args cfg p) = Some e
      ∧ http.body (W (updatePolicy P cfg k w r))
        = http.body (W w) +:+ "Something went wrong getting K8 Client." +:+ newline
      ∧ Log (updatePolicy P cfg k w r)
        = (Log w ++ ["Unable to get client: " +:+ Error e])%list
      ∧ Updates (updatePolicy P cfg k w r) = Updates w)
     ∨ (GetClient k (cluster_args cfg p) = None
        ∧ UpdatePolicy k (cluster_args cfg p) = Some e
        ∧ http.body (W (updatePolicy P cfg k w r))
          = http.body (W w) +:+ "Something went wrong when updating the config map."
            +:+ newline
        ∧ Log (updatePolicy P cfg k w r)
          = (Log w ++ ["Unable to update policy: " +:+ Error e])%list
        ∧ Updates (updatePolicy P cfg k w r)
          = (Updates w ++ [cluster_args cfg p])%list)).
Proof.
  intros Hs. destruct (String.eqb (Method r) "OPTIONS") eqn:Em.
  { unfold updatePolicy. rewrite Em. unfold http.statusCode.
    rewrite status_setCORS, Hs. discriminate. }
  assert (Hm : Method r ≠ "OPTIONS") by (intros E; rewrite E in Em; discriminate).
  destruct (validatePolicy_cases P (setCORS w) r Hs)
    as [(w' & Hv & Hc & Hu) | (p & Hv & Hp)].
  - rewrite (updatePolicy_rejected P cfg k w w' r Hm Hv).
    intros H. destruct Hc as [Hc | Hc]; rewrite Hc in H; discriminate.
  - rewrite (updatePolicy_validated P cfg k w r p Hm Hv).
    destruct (GetClient k (cluster_args cfg p)) as [e|] eqn:G.
    + intros _. exists p, e. split; [exact Hp|]. left.
      destruct (http_Error_fresh
                  (log_Println ("Unable to get client: " +:+ Error e) (setCORS w))
                  "Something went wrong getting K8 Client." 500 Hs) as (_ & H2 & H3 & H4).
      rewrite H2, H3, H4. repeat split; first [assumption | reflexivity].
    + destruct (UpdatePolicy k (cluster_args cfg p)) as [e|] eqn:U.
      * intros _. exists p, e. split; [exact Hp|]. right.
        destruct (http_Error_fresh
                    (log_Println ("Unable to update policy: " +:+ Error e)
                       (record_update (cluster_args cfg p) (setCORS w)))
                    "Something went wrong when updating the config map." 500 Hs)
          as (_ & H2 & H3 & H4).
        rewrite H2, H3, H4. repeat split; first [assumption | reflexivity].
      * unfold http.statusCode, w_Write, onW, http.Write, http.WriteHeader.
        simpl. rewrite Hs. discriminate.
Qed.

Lemma server_error_only_from_cluster_witness :
  ∃ p e, populated p ∧
    ((GetClient Faults.cluster_refusing (cluster_args Ref.operator p) = Some e
      ∧ http.body (W (updatePolicy Ref.platform Ref.operator Faults.cluster_refusing
                        start Sample.put_policy))
        = http.body (W start) +:+ "Something went wrong getting K8 Client." +:+ newline
      ∧ Log (updatePolicy Ref.platform Ref.operator Faults.cluster_refusing
               start Sample.put_policy)
        = (Log start ++ ["Unable to get client: " +:+ Error e])%list
      ∧ Updates (updatePolicy Ref.platform Ref.operator Faults.cluster_refusing
                   start Sample.put_policy) = Updates start)
     ∨ (GetClient Faults.cluster_refusing (cluster_args Ref.operator p) = None
        ∧ UpdatePolicy Faults.cluster_refusing (cluster_args Ref.operator p) = Some e
        ∧ http.body (W (updatePolicy Ref.platform Ref.operator Faults.cluster_refusing
                          start Sample.put_policy))
          = http.body (W start) +:+ "Something went wrong when updating the config map."
            +:+ newline
        ∧ Log (updatePolicy Ref.platform Ref.operator Faults.cluster_refusing
                 start Sample.put_policy)
          = (Log start ++ ["Unable to update policy: " +:+ Error e])%list
        ∧ Updates (updatePolicy Ref.platform Ref.operator Faults.cluster_refusing
                     start Sample.put_policy)
          = (Updates start ++ [cluster_args Ref.operator p])%list)).
Proof.
  apply (server_error_only_from_cluster Ref.platform Ref.operator
           Faults.cluster_refusing start Sample.put_policy);
    [reflexivity | vm_compute; reflexivity].
Defined.

(** ** The CORS headers *)

Lemma cors_kept_delivered (w : http.ResponseWriter) :
  cors_kept w → permissive (delivered w).
Proof.
  intros [H1 H2]. unfold delivered.
  destruct (http.status w) eqn:E; [apply H2; congruence | exact H1].
Qed.

Lemma permissive_insert (k v : string) (h : gmap string string) :
  k = "Content-Type" ∨ k = "X-Content-Type-Options" →
  permissive h → permissive (<[k := v]> h).
Proof.
  intros Hk (H1 & H2 & H3 & H4). unfold permissive.
  rewrite !lookup_insert_ne by (destruct Hk; subst; discriminate).
  auto.
Qed.

Lemma cors_kept_setCORS (w : Run) :
  http.status (W w) = None → cors_kept (W (setCORS w)).
Proof.
  intros Hs. split.
  - unfold permissive; simpl.
    repeat split;
      repeat first [rewrite lookup_insert_eq; reflexivity
                   | rewrite lookup_insert_ne by discriminate].
  - simpl. intros H. contradiction.
Qed.

Lemma cors_kept_Write (data : string) (w : http.ResponseWriter) :
  cors_kept w → cors_kept (http.Write data w).
Proof.
  intros [H1 H2]. unfold http.Write, http.WriteHeader.
  destruct (http.status w) eqn:E; simpl.
  - split; [exact H1 | intros _; apply H2; congruence].
  - split; [exact H1 | intros _; exact H1].
Qed.

Lemma cors_kept_Error (msg : string) (code : Z) (w : http.ResponseWriter) :
  cors_kept w → cors_kept (http.Error w msg code).
Proof.
  intros [H1 H2]. unfold http.Error. apply cors_kept_Write.
  unfold http.WriteHeader, http.Header_Set; simpl.
  assert (H1' : permissive
                  (<["X-Content-Type-Options" := "nosniff"]>
                     (<["Content-Type" := "text/plain; charset=utf-8"]> (http.header w)))).
  { apply permissive_insert; [now right|]. apply permissive_insert; [now left | exact H1]. }
  destruct (http.status w) eqn:E; simpl.
  - split; [exact H1' | simpl; intros _; apply H2; congruence].
  - split; [exact H1' | intros _; exact H1'].
Qed.

Lemma cors_kept_decodeFailed (P : Platform) (w : Run) (e : error) :
  cors_kept (W w) → cors_kept (W (decodeFailed P w e)).
Proof.
  intros H.
  assert (H' : cors_kept (W (http_Error w (Error e) http.StatusBadRequest)))
    by (apply cors_kept_Error; exact H).
  unfold decodeFailed.
  destruct e; try (apply cors_kept_Error; exact H');
    (destruct (HasPrefix _ "json: unknown field ");
       [apply cors_kept_Error; exact H'|]);
    try (apply cors_kept_Error; exact H');
    (destruct (String.eqb _ "http: request body too large");
       apply cors_kept_Error; exact H').
Qed.

Lemma cors_kept_validatePolicy (P : Platform) (w w' : Run) (r : Request) :
  cors_kept (W w) → validatePolicy P w r = inl w' → cors_kept (W w').
Proof.
  intros H. unfold validatePolicy.
  destruct (negb _ && negb _);
    [intros [= <-]; apply cors_kept_Error; exact H|].
  destruct (Decode P _) as [p | err];
    [| intros [= <-]; apply cors_kept_decodeFailed; exact H].
  destruct (UnprocessableFileTypeAction p) as [u|];
    [| intros [= <-]; apply cors_kept_Error; exact H].
  destruct ((u <=? 0) || (u >=? 5));
    [intros [= <-]; apply cors_kept_Error; exact H|].
  destruct (GlasswallBlockedFilesAction p) as [g|];
    [| intros [= <-]; apply cors_kept_Error; exact H].
  destruct ((g <=? 0) || (g >=? 5));
    [intros [= <-]; apply cors_kept_Error; exact H | discriminate].
Qed.

Lemma validatePolicy_inr (P : Platform) (w w' : Run) (r : Request) (p : Policy) :
  validatePolicy P w r = inr (w', p) → w' = w.
Proof.
  unfold validatePolicy.
  destruct (negb _ && negb _); [discriminate|].
  destruct (Decode P _) as [q | err]; [|discriminate].
  destruct (UnprocessableFileTypeAction q) as [u|]; [|discriminate].
  destruct ((u <=? 0) || (u >=? 5)); [discriminate|].
  destruct (GlasswallBlockedFilesAction q) as [g|]; [|discriminate].
  destruct ((g <=? 0) || (g >=? 5)); [discriminate|].
  now intros [= <- _].
Qed.

(** X5.  Every response of [updatePolicy] and of [createToken], and every
    response [authMiddleware] writes itself (to a pre-flight or to a request
    it rejects), reaches the client with the four CORS headers set to the
    wildcard; the headers [http.Error] adds do not displace them. *)
Theorem responses_carry_cors_headers
    (P : Platform) (cfg : Config) (k : Cluster) (now : Time)
    (authenticator : Request → Result Info) (next : Run → Request → Run)
    (w : Run) (r : Request) :
  http.status (W w) = None →
  permissive (delivered (W (updatePolicy P cfg k w r)))
  ∧ permissive (delivered (W (createToken P cfg now w r)))
  ∧ (Method r = "OPTIONS" ∨ (∃ e, authenticator r = Err e) →
     permissive (delivered (W (authMiddleware authenticator next w r)))).
Proof.
  intros Hs. pose proof (cors_kept_setCORS w Hs) as Hc.
  split; [|split].
  - apply cors_kept_delivered. unfold updatePolicy.
    destruct (String.eqb (Method r) "OPTIONS"); [exact Hc|].
    destruct (validatePolicy P (setCORS w) r) as [w' | [w' p]] eqn:Hv.
    + exact (cors_kept_validatePolicy P _ _ r Hc Hv).
    + apply validatePolicy_inr in Hv. subst w'.
      destruct (GetClient k _); [apply cors_kept_Error; exact Hc|].
      destruct (UpdatePolicy k _);
        [apply cors_kept_Error; exact Hc | apply cors_kept_Write; exact Hc].
  - apply cors_kept_delivered. unfold createToken.
    destruct (String.eqb (Method r) "OPTIONS"); [exact Hc|].
    apply cors_kept_Write; exact Hc.
  - intros H. apply cors_kept_delivered. unfold authMiddleware.
    destruct (String.eqb (Method r) "OPTIONS") eqn:Em; [exact Hc|].
    destruct H as [H | [e He]].
    + rewrite H in Em. discriminate.
    + rewrite He. apply cors_kept_Error; exact Hc.
Qed.

Lemma responses_carry_cors_headers_witness :
  permissive (delivered (W (updatePolicy Ref.platform Ref.operator Ref.cluster_ok
                              start Sample.put_text)))
  ∧ permissive (delivered (W (createToken Ref.platform Ref.operator Sample.t0
                                start Sample.put_text)))
  ∧ permissive (delivered (W (authMiddleware
                                (Sample.password_authenticator "operator" "guess")
                                Sample.downstream start Sample.put_text))).
Proof.
  destruct (responses_carry_cors_headers Ref.platform Ref.operator Ref.cluster_ok
              Sample.t0 (Sample.password_authenticator "operator" "guess")
              Sample.downstream start Sample.put_text eq_refl) as (H1 & H2 & H3).
  split; [exact H1 | split; [exact H2 | apply H3]].
  right. eexists. reflexivity.
Defined.

(** ** The handlers behind the middleware *)

Lemma prefix_log_clear (x : Run) : prefix_log (Log x) (clear_log x) = x.
Proof. destruct x as [a l u]. unfold prefix_log, clear_log; simpl. now rewrite app_nil_r. Qed.

Lemma prefix_log_http_Error (l : list string) (x : Run) (msg : string) (code : Z) :
  http_Error (prefix_log l x) msg code = prefix_log l (http_Error x msg code).
Proof. reflexivity. Qed.

Lemma prefix_log_log_Println (l : list string) (x : Run) (line : string) :
  log_Println line (prefix_log l x) = prefix_log l (log_Println line x).
Proof. unfold log_Println, prefix_log; simpl. now rewrite app_assoc. Qed.

Lemma prefix_log_decodeFailed (P : Platform) (l : list string) (x : Run) (e : error) :
  decodeFailed P (prefix_log l x) e = prefix_log l (decodeFailed P x e).
Proof.
  unfold decodeFailed. destruct e; cbv beta iota zeta;
    repeat match goal with
           | |- context [if ?c then _ else _] => destruct c
           end;
    repeat first [rewrite prefix_log_http_Error | rewrite prefix_log_log_Println];
    reflexivity.
Qed.

Lemma prefix_log_validatePolicy (P : Platform) (l : list string) (x : Run) (r : Request) :
  validatePolicy P (prefix_log l x) r
  = match validatePolicy P x r with
    | inl x' => inl (prefix_log l x')
    | inr (x', p) => inr (prefix_log l x', p)
    end.
Proof.
  unfold validatePolicy.
  destruct (negb _ && negb _); [reflexivity|].
  destruct (Decode P _) as [p | err]; [|now rewrite prefix_log_decodeFailed].
  destruct (UnprocessableFileTypeAction p) as [u|]; [|reflexivity].
  destruct ((u <=? 0) || (u >=? 5)); [reflexivity|].
  destruct (GlasswallBlockedFilesAction p) as [g|]; [|reflexivity].
  destruct ((g <=? 0) || (g >=? 5)); reflexivity.
Qed.

(** The handlers only ever append to the log: lines already there come out
    in front, and nothing else depends on them. *)
Lemma prefix_log_updatePolicy (P : Platform) (cfg : Config) (k : Cluster)
    (l : list string) (x : Run) (r : Request) :
  updatePolicy P cfg k (prefix_log l x) r = prefix_log l (updatePolicy P cfg k x r).
Proof.
  unfold updatePolicy.
  destruct (String.eqb (Method r) "OPTIONS"); [reflexivity|].
  change (setCORS (prefix_log l x)) with (prefix_log l (setCORS x)).
  rewrite prefix_log_validatePolicy.
  destruct (validatePolicy P (setCORS x) r) as [x' | [x' p]]; [reflexivity|].
  destruct (GetClient k _).
  - now rewrite prefix_log_log_Println.
  - destruct (UpdatePolicy k _); [|reflexivity].
    change (record_update ?a (prefix_log l x'))
      with (prefix_log l (record_update a x')).
    now rewrite prefix_log_log_Println.
Qed.

Lemma prefix_log_createToken (P : Platform) (cfg : Config) (now : Time)
    (l : list string) (x : Run) (r : Request) :
  createToken P cfg now (prefix_log l x) r = prefix_log l (createToken P cfg now x r).
Proof.
  unfold createToken. destruct (String.eqb (Method r) "OPTIONS"); reflexivity.
Qed.

Lemma setCORS_idempotent (x : Run) : setCORS (setCORS x) = setCORS x.
Proof.
  destruct x as [[h s snt b] l u]. unfold setCORS, onW, http.Header_Set; simpl.
  set (m := <["Access-Control-Expose-Headers" := "*"]>
              (<["Access-Control-Allow-Headers" := "*"]>
                 (<["Access-Control-Allow-Origin" := "*"]>
                    (<["Access-Control-Allow-Methods" := "*"]> h)))).
  assert (Hm : permissive m).
  { unfold permissive, m.
    repeat split;
      repeat first [rewrite lookup_insert_eq; reflexivity
                   | rewrite lookup_insert_ne by discriminate]. }
  destruct Hm as (H1 & H2 & H3 & H4).
  rewrite (insert_id m _ _ H1), (insert_id m _ _ H2), (insert_id m _ _ H3),
    (insert_id m _ _ H4).
  reflexivity.
Qed.

Lemma updatePolicy_setCORS (P : Platform) (cfg : Config) (k : Cluster)
    (x : Run) (r : Request) :
  updatePolicy P cfg k (setCORS x) r = updatePolicy P cfg k x r.
Proof. unfold updatePolicy. now rewrite setCORS_idempotent. Qed.

Lemma createToken_setCORS (P : Platform) (cfg : Config) (now : Time)
    (x : Run) (r : Request) :
  createToken P cfg now (setCORS x) r = createToken P cfg now x r.
Proof. unfold createToken. now rewrite setCORS_idempotent. Qed.

Lemma authMiddleware_passes (authenticator : Request → Result Info)
    (next : Run → Request → Run) (w : Run) (r : Request) (user : Info) :
  Method r ≠ "OPTIONS" →
  authenticator r = Ok user →
  authMiddleware authenticator next w r
  = next (prefix_log (Log w ++ auth_lines user) (clear_log (setCORS w))) r.
Proof.
  intros Hm Ha. unfold authMiddleware.
  rewrite (eqb_false_of_ne _ _ Hm), Ha. f_equal.
  destruct w as [a l u]. unfold log_Println, prefix_log, clear_log, auth_lines; simpl.
  now rewrite app_nil_r, <- app_assoc.
Qed.

(** X6.  Behind [authMiddleware], an authenticated request gets from
    [updatePolicy] and from [createToken] exactly the response and the
    cluster calls of the bare handler; the only trace of the middleware is
    its two log lines, placed before the handler's own.  A pre-flight
    request is answered by the middleware alone, with what the bare handler
    would have answered. *)
Theorem middleware_is_transparent
    (P : Platform) (cfg : Config) (k : Cluster) (now : Time)
    (authenticator : Request → Result Info) (h : Run → Request → Run)
    (w : Run) (r : Request) :
  h = updatePolicy P cfg k ∨ h = createToken P cfg now →
  (Method r = "OPTIONS" → authMiddleware authenticator h w r = h w r)
  ∧ (∀ user, Method r ≠ "OPTIONS" → authenticator r = Ok user →
       W (authMiddleware authenticator h w r) = W (h w r)
       ∧ Updates (authMiddleware authenticator h w r) = Updates (h w r)
       ∧ ∃ lines,
           Log (h w r) = (Log w ++ lines)%list
           ∧ Log (authMiddleware authenticator h w r)
             = (Log w ++ auth_lines user ++ lines)%list).
Proof.
  intros Hh.
  assert (H1 : ∀ l x, h (prefix_log l x) r = prefix_log l (h x r)).
  { destruct Hh as [-> | ->]; intros l x;
      [apply prefix_log_updatePolicy | apply prefix_log_createToken]. }
  assert (H2 : h (setCORS w) r = h w r).
  { destruct Hh as [-> | ->]; [apply updatePolicy_setCORS | apply createToken_setCORS]. }
  assert (H3 : Method r = "OPTIONS" → h w r = setCORS w).
  { intros E. destruct Hh as [-> | ->]; unfold updatePolicy, createToken;
      rewrite E; reflexivity. }
  split.
  - intros E. rewrite (H3 E). unfold authMiddleware. rewrite E. reflexivity.
  - intros user Hm Ha.
    rewrite (authMiddleware_passes authenticator h w r user Hm Ha), H1.
    assert (E : h w r = prefix_log (Log w) (h (clear_log (setCORS w)) r)).
    { rewrite <- H1. change (Log w) with (Log (setCORS w)).
      now rewrite prefix_log_clear. }
    rewrite E. repeat split.
    exists (Log (h (clear_log (setCORS w)) r)). split; [reflexivity|].
    simpl. now rewrite <- app_assoc.
Qed.

Lemma middleware_is_transparent_witness :
  W (authMiddleware (Sample.password_authenticator "operator" "correct horse")
       (updatePolicy Ref.platform Ref.operator Ref.cluster_ok) start Sample.put_policy)
  = W (updatePolicy Ref.platform Ref.operator Ref.cluster_ok start Sample.put_policy)
  ∧ Updates (authMiddleware (Sample.password_authenticator "operator" "correct horse")
               (updatePolicy Ref.platform Ref.operator Ref.cluster_ok) start
               Sample.put_policy)
    = Updates (updatePolicy Ref.platform Ref.operator Ref.cluster_ok start
                 Sample.put_policy)
  ∧ ∃ lines,
      Log (updatePolicy Ref.platform Ref.operator Ref.cluster_ok start
             Sample.put_policy) = (Log start ++ lines)%list
      ∧ Log (authMiddleware (Sample.password_authenticator "operator" "correct horse")
               (updatePolicy Ref.platform Ref.operator Ref.cluster_ok) start
               Sample.put_policy)
        = (Log start ++ auth_lines (NewDefaultUser "operator" "1" [] ∅) ++ lines)%list.
Proof.
  apply (middleware_is_transparent Ref.platform Ref.operator Ref.cluster_ok Sample.t0
           (Sample.password_authenticator "operator" "correct horse")
           (updatePolicy Ref.platform Ref.operator Ref.cluster_ok)
           start Sample.put_policy (or_introl eq_refl));
    [vm_compute; discriminate | reflexivity].
Defined.

(** ** Binding an object to the policy *)

Lemma last_bound_snoc (f : PolicyField) (ms : list (string * JValue * Z))
    (m : string * JValue * Z) (cur : option Z) :
  last_bound f (ms ++ [m]) cur = last_bound f [m] (last_bound f ms cur).
Proof.
  revert cur. induction ms as [|[[k v] o] ms IH]; intros cur; [reflexivity|].
  cbn [last_bound app]. destruct (lookupField k) as [f'|]; [|apply IH].
  destruct f, f'; try destruct (storeIntPtr _ v o); apply IH.
Qed.

(** The state of the decoder after the members of an object. *)
Lemma fold_object_member (P : Platform) (ms : list (string * JValue * Z))
    (d : decodeState) :
  fold_left (object_member P) ms d
  = {| target :=
         {| UnprocessableFileTypeAction :=
              last_bound F_Unprocessable ms (UnprocessableFileTypeAction (target d));
            GlasswallBlockedFilesAction :=
              last_bound F_Glasswall ms (GlasswallBlockedFilesAction (target d)) |};
       savedError := match savedError d with
                     | Some e => Some e
                     | None => first_fault P ms
                     end |}.
Proof.
  revert d. induction ms as [|[[k v] o] ms IH]; intros [[a b] s].
  - simpl. destruct s; reflexivity.
  - cbn [fold_left]. rewrite IH. unfold first_fault.
    cbn [last_bound omap list_omap member_fault object_member].
    destruct (lookupField k) as [f|].
    + unfold storeIntPtr.
      destruct f; destruct v as [| |lit| | |]; try destruct (ParseInt lit); simpl;
        unfold saveError; simpl; destruct s; reflexivity.
    + unfold saveError; simpl. destruct s; reflexivity.
Qed.

Lemma unmarshal_object
    (P : Platform) (ms : list (string * JValue * Z)) (off : Z) :
  unmarshal P (JObject ms) off
  = match first_fault P ms with
    | Some e => Err e
    | None =>
        Ok {| UnprocessableFileTypeAction := last_bound F_Unprocessable ms None;
              GlasswallBlockedFilesAction := last_bound F_Glasswall ms None |}
    end.
Proof.
  unfold unmarshal. rewrite fold_object_member. simpl.
  destruct (first_fault P ms); reflexivity.
Qed.

(** X7.  Binding an object to the policy: the first member that names no
    field, or whose value the field cannot hold, decides the error, and such
    a member leaves the policy alone; without one, each field holds the
    value of the last member that selects it, and none if there is no such
    member or the last one is [null]. *)
Theorem unmarshal_first_fault_last_binding
    (P : Platform) (ms : list (string * JValue * Z)) (off : Z) :
  unmarshal P (JObject ms) off
  = match first_fault P ms with
    | Some e => Err e
    | None =>
        Ok {| UnprocessableFileTypeAction := last_bound F_Unprocessable ms None;
              GlasswallBlockedFilesAction := last_bound F_Glasswall ms None |}
    end.
Proof. apply unmarshal_object. Qed.

Lemma first_fault_app (P : Platform) (pre post : list (string * JValue * Z))
    (m : string * JValue * Z) (e : error) :
  first_fault P pre = None →
  member_fault P m = Some e →
  first_fault P (pre ++ m :: post) = Some e.
Proof.
  unfold first_fault. intros Hpre Hm.
  induction pre as [|x pre IH]; simpl in *.
  - now rewrite Hm.
  - destruct (member_fault P x); [discriminate | exact (IH Hpre)].
Qed.

(** Two [http.Error] calls on a fresh response: the first fixes the
    status, both add their line. *)
Lemma two_errors (w : Run) (line1 line2 : string) (code : Z) :
  http.status (W w) = None →
  answers_400 w (http_Error (http_Error w line1 400) line2 code) line1 line2.
Proof.
  intros Hs.
  destruct (http_Error_fresh w line1 400 Hs) as (H1 & H2 & _ & H4).
  destruct (http_Error_superfluous (http_Error w line1 400) line2 code 400 H1)
    as (G1 & G2 & _ & G4).
  split; [now apply statusCode_of_status|]. split.
  - rewrite G2, H2, !append_assoc. reflexivity.
  - now rewrite G4, H4.
Qed.

(** The decoder's verdict, once the content type is accepted and the body
    scans to an object. *)
Lemma validatePolicy_object (P : Platform) (w : Run) (r : Request)
    (ms : list (string * JValue * Z)) (e : error) :
  content_type_ok r →
  scans_to P r (JObject ms) →
  first_fault P ms = Some e →
  validatePolicy P w r = inl (decodeFailed P w e).
Proof.
  intros Hct Hscan Hf.
  apply (validatePolicy_decode_error P w r (JObject ms) e Hct Hscan).
  intros off. rewrite unmarshal_object, Hf. reflexivity.
Qed.

(** ** What the decoder's errors look like to the client *)

Lemma TrimPrefix_append (pre s : string) : TrimPrefix (pre +:+ s) pre = s.
Proof.
  unfold TrimPrefix, HasPrefix. rewrite prefix_append.
  induction pre as [|c pre IH]; [reflexivity|].
  rewrite append_cons. exact IH.
Qed.

Lemma decodeFailed_unknown (P : Platform) (w : Run) (key : string) :
  decodeFailed P w (errorString (msg_unknown P key))
  = http_Error (http_Error w (msg_unknown P key) 400)
      ("Request body contains unknown field " +:+ strconv_Quote P key) 400.
Proof.
  unfold decodeFailed.
  change (Error (errorString (msg_unknown P key))) with (msg_unknown P key).
  assert (H : HasPrefix (msg_unknown P key) "json: unknown field " = true)
    by apply prefix_append.
  rewrite H.
  assert (T : TrimPrefix (msg_unknown P key) "json: unknown field " = strconv_Quote P key)
    by apply TrimPrefix_append.
  rewrite T. reflexivity.
Qed.

(** X8.  For any object whose members all name a field and hold a number
    or [null], [updatePolicy]'s checks are decided by the last member that
    selects each field: a field given several times counts with its last
    value, and a field whose last value is [null] counts as missing. *)
Theorem policy_decided_by_last_members
    (P : Platform) (w : Run) (r : Request) (ms : list (string * JValue * Z)) :
  http.status (W w) = None →
  content_type_ok r →
  scans_to P r (JObject ms) →
  first_fault P ms = None →
  (∀ x y, last_bound F_Unprocessable ms None = Some x →
          last_bound F_Glasswall ms None = Some y →
          in_range x → in_range y →
          validatePolicy P w r
          = inr (w, {| UnprocessableFileTypeAction := Some x;
                       GlasswallBlockedFilesAction := Some y |}))
  ∧ (last_bound F_Unprocessable ms None = None →
     rejects w (validatePolicy P w r) 400 (msg_required F_Unprocessable))
  ∧ (∀ x, last_bound F_Unprocessable ms None = Some x → ¬ in_range x →
          rejects w (validatePolicy P w r) 400 (msg_range F_Unprocessable))
  ∧ (∀ x, last_bound F_Unprocessable ms None = Some x → in_range x →
          last_bound F_Glasswall ms None = None →
          rejects w (validatePolicy P w r) 400 (msg_required F_Glasswall))
  ∧ (∀ x y, last_bound F_Unprocessable ms None = Some x → in_range x →
            last_bound F_Glasswall ms None = Some y → ¬ in_range y →
            rejects w (validatePolicy P w r) 400 (msg_range F_Glasswall)).
Proof.
  intros Hs Hct Hscan Hf.
  assert (E := validatePolicy_decoded P w r (JObject ms)
                 (last_bound F_Unprocessable ms None) (last_bound F_Glasswall ms None)
                 Hct Hscan).
  rewrite E by (intros off; now rewrite unmarshal_object, Hf). clear E.
  split; [|split; [|split; [|split]]].
  - intros x y -> -> Hx Hy. apply range_test in Hx, Hy. now rewrite Hx, Hy.
  - intros ->. now apply rejects_http_Error.
  - intros x -> Hx. rewrite (range_test_fails x Hx). now apply rejects_http_Error.
  - intros x -> Hx ->. apply range_test in Hx. rewrite Hx. now apply rejects_http_Error.
  - intros x y -> Hx -> Hy. apply range_test in Hx.
    rewrite Hx, (range_test_fails y Hy). now apply rejects_http_Error.
Qed.

Lemma policy_decided_by_last_members_witness :
  validatePolicy Ref.platform start Probe.put_duplicate
  = inr (start, {| UnprocessableFileTypeAction := Some 1;
                   GlasswallBlockedFilesAction := Some 2 |})
  ∧ rejects start (validatePolicy Ref.platform start Probe.put_null_field) 400
      (msg_required F_Glasswall).
Proof.
  split.
  - refine (proj1 (policy_decided_by_last_members Ref.platform start Probe.put_duplicate
              [("unprocessableFileTypeAction", JNumber "9", 32);
               ("glasswallBlockedFilesAction", JNumber "2", 64);
               ("UnprocessableFileTypeAction", JNumber "1", 96)]
              eq_refl (content_type_ok_json _ _) _ eq_refl) 1 2 eq_refl eq_refl _ _).
    + exists 1. vm_compute. reflexivity.
    + unfold in_range; lia.
    + unfold in_range; lia.
  - refine (proj1 (proj2 (proj2 (proj2
              (policy_decided_by_last_members Ref.platform start Probe.put_null_field
                 [("unprocessableFileTypeAction", JNumber "1", 32);
                  ("glasswallBlockedFilesAction", JNull, 67)]
                 eq_refl (content_type_ok_json _ _) _ eq_refl)))) 1 eq_refl _ eq_refl).
    + exists 1. vm_compute. reflexivity.
    + unfold in_range; lia.
Defined.

(** X9.  When the first member the decoder cannot accept has a key that
    names no field, the answer is 400 with the decoder's message and a
    second line, both quoting the key; members after it do not matter and
    the cluster is not called. *)
Theorem unknown_field_named_in_answer
    (P : Platform) (cfg : Config) (k : Cluster) (w : Run) (r : Request)
    (pre post : list (string * JValue * Z)) (key : string) (v : JValue) (off : Z) :
  http.status (W w) = None →
  Method r ≠ "OPTIONS" →
  content_type_ok r →
  scans_to P r (JObject (pre ++ (key, v, off) :: post)) →
  first_fault P pre = None →
  lookupField key = None →
  answers_400 w (updatePolicy P cfg k w r)
    ("json: unknown field " +:+ strconv_Quote P key)
    ("Request body contains unknown field " +:+ strconv_Quote P key).
Proof.
  intros Hs Hm Hct Hscan Hpre Hkey.
  assert (Hf : first_fault P (pre ++ (key, v, off) :: post)
               = Some (errorString (msg_unknown P key))).
  { apply first_fault_app; [exact Hpre|]. unfold member_fault. now rewrite Hkey. }
  rewrite (updatePolicy_rejected P cfg k w _ r Hm
             (validatePolicy_object P (setCORS w) r _ _ Hct Hscan Hf)).
  rewrite decodeFailed_unknown.
  exact (two_errors (setCORS w) _ _ 400 Hs).
Qed.

Lemma unknown_field_named_in_answer_witness :
  answers_400 start
    (updatePolicy Ref.platform Ref.operator Ref.cluster_ok start Probe.put_comment)
    ("json: unknown field " +:+ strconv_Quote Ref.platform "comment")
    ("Request body contains unknown field " +:+ strconv_Quote Ref.platform "comment").
Proof.
  apply (unknown_field_named_in_answer Ref.platform Ref.operator Ref.cluster_ok start
           Probe.put_comment
           [("unprocessableFileTypeAction", JNumber "1", 32)]
           [("glasswallBlockedFilesAction", JNumber "2", 78)]
           "comment" (JString "x") 46 eq_refl).
  - vm_compute; discriminate.
  - apply content_type_ok_json.
  - exists 1. vm_compute. reflexivity.
  - reflexivity.
  - reflexivity.
Defined.

(** X10.  A field given a string, a boolean, an array or an object is
    refused, even when the string spells a number in range: the answer is
    400 with the decoder's message and a second line that quotes the field
    and the position of the value.  Both lines name the field as the
    decoder reports it: by its Go name, or by the key as the request spelled
    it, depending on the toolchain the image was built with. *)
Theorem wrong_kind_refused
    (P : Platform) (cfg : Config) (k : Cluster) (w : Run) (r : Request)
    (pre post : list (string * JValue * Z)) (key kind : string) (v : JValue)
    (off : Z) (f : PolicyField) :
  http.status (W w) = None →
  Method r ≠ "OPTIONS" →
  content_type_ok r →
  scans_to P r (JObject (pre ++ (key, v, off) :: post)) →
  first_fault P pre = None →
  lookupField key = Some f →
  kind_refused v = Some kind →
  answers_400 w (updatePolicy P cfg k w r)
    ("json: cannot unmarshal " +:+ kind +:+ " into Go struct field Policy."
     +:+ errorField P key f +:+ " of type int")
    ("Request body contains an invalid value for the "
     +:+ strconv_Quote P (errorField P key f)
     +:+ " field (at position " +:+ fmt_d off +:+ ")")
  ∧ (json_fieldNaming P = GoName → errorField P key f = fieldName f)
  ∧ (json_fieldNaming P = KeyAsSent → errorField P key f = key).
Proof.
  intros Hs Hm Hct Hscan Hpre Hkey Hkind.
  split; [|unfold errorField; split; intros ->; reflexivity].
  assert (Hf : first_fault P (pre ++ (key, v, off) :: post)
               = Some (UnmarshalTypeError kind "int" off "Policy" (errorField P key f))).
  { apply first_fault_app; [exact Hpre|]. unfold member_fault. rewrite Hkey.
    destruct v; simpl in Hkind; try discriminate; injection Hkind as <-; reflexivity. }
  rewrite (updatePolicy_rejected P cfg k w _ r Hm
             (validatePolicy_object P (setCORS w) r _ _ Hct Hscan Hf)).
  assert (E : Error (UnmarshalTypeError kind "int" off "Policy" (errorField P key f))
              = "json: cannot unmarshal " +:+ kind +:+ " into Go struct field Policy."
                +:+ errorField P key f +:+ " of type int") by reflexivity.
  rewrite <- E.
  exact (two_errors (setCORS w) _ _ 400 Hs).
Qed.

Lemma wrong_kind_refused_witness :
  answers_400 start
    (updatePolicy Ref.platform_as_sent Ref.operator Ref.cluster_ok start Probe.put_quoted)
    ("json: cannot unmarshal " +:+ "string" +:+ " into Go struct field Policy."
     +:+ "unprocessableFileTypeAction" +:+ " of type int")
    ("Request body contains an invalid value for the "
     +:+ strconv_Quote Ref.platform_as_sent "unprocessableFileTypeAction"
     +:+ " field (at position " +:+ fmt_d 34 +:+ ")")
  ∧ answers_400 start
      (updatePolicy Ref.platform Ref.operator Ref.cluster_ok start Probe.put_quoted)
      ("json: cannot unmarshal " +:+ "string" +:+ " into Go struct field Policy."
       +:+ "UnprocessableFileTypeAction" +:+ " of type int")
      ("Request body contains an invalid value for the "
       +:+ strconv_Quote Ref.platform "UnprocessableFileTypeAction"
       +:+ " field (at position " +:+ fmt_d 34 +:+ ")").
Proof.
  split.
  - refine (proj1 (wrong_kind_refused Ref.platform_as_sent Ref.operator Ref.cluster_ok
                     start Probe.put_quoted []
                     [("glasswallBlockedFilesAction", JNumber "2", 66)]
                     "unprocessableFileTypeAction" "string" (JString "1") 34
                     F_Unprocessable eq_refl _ (content_type_ok_json _ _) _
                     eq_refl eq_refl eq_refl)).
    + vm_compute; discriminate.
    + exists 1. vm_compute. reflexivity.
  - refine (proj1 (wrong_kind_refused Ref.platform Ref.operator Ref.cluster_ok
                     start Probe.put_quoted []
                     [("glasswallBlockedFilesAction", JNumber "2", 66)]
                     "unprocessableFileTypeAction" "string" (JString "1") 34
                     F_Unprocessable eq_refl _ (content_type_ok_json _ _) _
                     eq_refl eq_refl eq_refl)).
    + vm_compute; discriminate.
    + exists 1. vm_compute. reflexivity.
Defined.

Lemma MaxBytesReader_within (body : string) (n : Z) :
  len body <= n → MaxBytesReader (body_reader body) n = body_reader body.
Proof.
  intros H. unfold MaxBytesReader, body_reader; cbn [data].
  destruct (Z.leb_spec (len body) n); [reflexivity | lia].
Qed.

(** After the content type is accepted, the decoder's error decides. *)
Lemma validatePolicy_Decode_error (P : Platform) (w : Run) (r : Request) (e : error) :
  content_type_ok r →
  Decode P (MaxBytesReader (body_reader (Body r)) 1048576) = Err e →
  validatePolicy P w r = inl (decodeFailed P w e).
Proof.
  intros Hct He.
  rewrite validatePolicy_content_type_ok by assumption.
  unfold validatePolicy. rewrite Header_Get_without.
  change (Body (without_content_type r)) with (Body r).
  rewrite He. reflexivity.
Qed.

Lemma Decode_of_scan (P : Platform) (r : Request) (res : ScanResult) :
  scan_gives P r res →
  Decode P (MaxBytesReader (body_reader (Body r)) 1048576)
  = match res with
    | ScanValue v off => unmarshal P v off
    | ScanSyntax msg off => Err (SyntaxError msg off)
    | ScanIncomplete nonSpace =>
        match final (MaxBytesReader (body_reader (Body r)) 1048576) with
        | io_EOF => if nonSpace then Err io_ErrUnexpectedEOF else Err io_EOF
        | e => Err e
        end
    end.
Proof.
  unfold scan_gives, Decode. cbv zeta. intros ->. reflexivity.
Qed.

(** X11.  Bodies that hold no object.  Within the size limit, an empty or
    blank body, a body that stops inside a value, a body that is not JSON
    and a body whose value is a number, string, boolean or array are each
    answered 400 with the decoder's message and a second line; in the last
    case the second line quotes an empty field name.  The body [null] is
    taken for a policy with no fields. *)
Theorem bodies_without_object
    (P : Platform) (cfg : Config) (k : Cluster) (w : Run) (r : Request) :
  http.status (W w) = None →
  Method r ≠ "OPTIONS" →
  content_type_ok r →
  len (Body r) <= 1048576 →
  (scan_gives P r (ScanIncomplete false) →
     answers_400 w (updatePolicy P cfg k w r) "EOF" "Request body must not be empty")
  ∧ (scan_gives P r (ScanIncomplete true) →
     answers_400 w (updatePolicy P cfg k w r)
       "unexpected EOF" "Request body contains badly-formed JSON")
  ∧ (∀ msg off, scan_gives P r (ScanSyntax msg off) →
     answers_400 w (updatePolicy P cfg k w r) msg
       ("Request body contains badly-formed JSON (at position " +:+ fmt_d off +:+ ")"))
  ∧ (∀ v off kind, scan_gives P r (ScanValue v off) → kind_of_scalar v = Some kind →
     answers_400 w (updatePolicy P cfg k w r)
       ("json: cannot unmarshal " +:+ kind +:+ " into Go value of type main.Policy")
       ("Request body contains an invalid value for the " +:+ strconv_Quote P ""
        +:+ " field (at position " +:+ fmt_d off +:+ ")"))
  ∧ (∀ off, scan_gives P r (ScanValue JNull off) →
     http.statusCode (W (updatePolicy P cfg k w r)) = 400
     ∧ http.body (W (updatePolicy P cfg k w r))
       = http.body (W w) +:+ "UnprocessableFileTypeAction is required." +:+ newline
     ∧ Updates (updatePolicy P cfg k w r) = Updates w).
Proof.
  intros Hs Hm Hct Hlen.
  assert (R : ∀ res e, scan_gives P r res →
              match res with
              | ScanValue v off => unmarshal P v off
              | ScanSyntax msg off => Err (SyntaxError msg off)
              | ScanIncomplete nonSpace =>
                  if nonSpace then Err io_ErrUnexpectedEOF else Err io_EOF
              end = Err e →
              updatePolicy P cfg k w r = decodeFailed P (setCORS w) e).
  { intros res e Hscan He.
    apply (updatePolicy_rejected P cfg k w _ r Hm).
    apply (validatePolicy_Decode_error P (setCORS w) r e Hct).
    rewrite (Decode_of_scan P r res Hscan).
    rewrite (MaxBytesReader_within _ _ Hlen). exact He. }
  split; [|split; [|split; [|split]]].
  - intros H. rewrite (R _ io_EOF H eq_refl).
    exact (two_errors (setCORS w) "EOF" _ 400 Hs).
  - intros H. rewrite (R _ io_ErrUnexpectedEOF H eq_refl).
    exact (two_errors (setCORS w) "unexpected EOF" _ 400 Hs).
  - intros msg off H. rewrite (R _ (SyntaxError msg off) H eq_refl).
    exact (two_errors (setCORS w) msg _ 400 Hs).
  - intros v off kind H Hk.
    assert (E : unmarshal P v off = Err (UnmarshalTypeError kind "main.Policy" off "" ""))
      by (destruct v; simpl in Hk; try discriminate; injection Hk as <-; reflexivity).
    rewrite (R _ _ H E).
    exact (two_errors (setCORS w)
             ("json: cannot unmarshal " +:+ kind +:+ " into Go value of type main.Policy")
             _ 400 Hs).
  - intros off H.
    assert (Hv : validatePolicy P (setCORS w) r
                 = inl (http_Error (setCORS w) "UnprocessableFileTypeAction is required."
                          400)).
    { apply (validatePolicy_decoded P (setCORS w) r JNull None None Hct).
      - exists off. exact H.
      - intros o. reflexivity. }
    rewrite (updatePolicy_rejected P cfg k w _ r Hm Hv).
    destruct (http_Error_fresh (setCORS w) "UnprocessableFileTypeAction is required." 400 Hs)
      as (H1 & H2 & _ & H4).
    split; [now apply statusCode_of_status|]. split; [exact H2 | exact H4].
Qed.

Lemma bodies_without_object_witness :
  answers_400 start
    (updatePolicy Ref.platform Ref.operator Ref.cluster_ok start Probe.put_empty)
    "EOF" "Request body must not be empty"
  ∧ answers_400 start
      (updatePolicy Ref.platform Ref.operator Ref.cluster_ok start Probe.put_truncated)
      "unexpected EOF" "Request body contains badly-formed JSON"
  ∧ answers_400 start
      (updatePolicy Ref.platform Ref.operator Ref.cluster_ok start Probe.put_garbled)
      "invalid character ']' looking for beginning of object key string"
      ("Request body contains badly-formed JSON (at position " +:+ fmt_d 2 +:+ ")")
  ∧ answers_400 start
      (updatePolicy Ref.platform Ref.operator Ref.cluster_ok start Probe.put_array)
      ("json: cannot unmarshal " +:+ "array" +:+ " into Go value of type main.Policy")
      ("Request body contains an invalid value for the " +:+ strconv_Quote Ref.platform ""
       +:+ " field (at position " +:+ fmt_d 1 +:+ ")")
  ∧ http.statusCode (W (updatePolicy Ref.platform Ref.operator Ref.cluster_ok start
                          Probe.put_null)) = 400.
Proof.
  assert (N : ∀ body, Method (Probe.put body) ≠ "OPTIONS") by (intros body; discriminate).
  split; [|split; [|split; [|split]]].
  - refine (proj1 (bodies_without_object Ref.platform Ref.operator Ref.cluster_ok start
                     Probe.put_empty eq_refl (N _) (content_type_ok_json _ _) _) _);
      [vm_compute; discriminate | vm_compute; reflexivity].
  - refine (proj1 (proj2 (bodies_without_object Ref.platform Ref.operator Ref.cluster_ok
                     start Probe.put_truncated eq_refl (N _) (content_type_ok_json _ _) _))
              _);
      [vm_compute; discriminate | vm_compute; reflexivity].
  - refine (proj1 (proj2 (proj2 (bodies_without_object Ref.platform Ref.operator
                     Ref.cluster_ok start Probe.put_garbled eq_refl (N _)
                     (content_type_ok_json _ _) _)))
              _ 2 _);
      [vm_compute; discriminate | vm_compute; reflexivity].
  - refine (proj1 (proj2 (proj2 (proj2 (bodies_without_object Ref.platform Ref.operator
                     Ref.cluster_ok start Probe.put_array eq_refl (N _)
                     (content_type_ok_json _ _) _))))
              (JArray [JNumber "1"]) 1 "array" _ eq_refl);
      [vm_compute; discriminate | vm_compute; reflexivity].
  - refine (proj1 (proj2 (proj2 (proj2 (proj2 (bodies_without_object Ref.platform
                     Ref.operator Ref.cluster_ok start Probe.put_null eq_refl (N _)
                     (content_type_ok_json _ _) _))))
              4 _));
      [vm_compute; discriminate | vm_compute; reflexivity].
Defined.

(** X12.  Of a body longer than the limit only the first 1048576 bytes
    count: two such requests that agree on those bytes, the method and the
    headers get the same answer and cause the same cluster calls. *)
Theorem oversized_body_decided_by_prefix
    (P : Platform) (cfg : Config) (k : Cluster) (w : Run) (r1 r2 : Request) :
  Method r1 = Method r2 →
  Header r1 = Header r2 →
  1048576 < len (Body r1) →
  1048576 < len (Body r2) →
  take_string (Z.to_nat 1048576) (Body r1) = take_string (Z.to_nat 1048576) (Body r2) →
  updatePolicy P cfg k w r1 = updatePolicy P cfg k w r2.
Proof.
  intros Hm Hh H1 H2 Ht.
  unfold updatePolicy, validatePolicy.
  rewrite (MaxBytesReader_over _ _ H1), (MaxBytesReader_over _ _ H2), Hm, Hh, Ht.
  reflexivity.
Qed.

Lemma spaces_tail (n : nat) (t u : string) : spaces n (t +:+ u) = spaces n t +:+ u.
Proof.
  revert t. induction n as [|n IH]; intros t; [reflexivity|].
  cbn [spaces]. rewrite <- IH. reflexivity.
Qed.

Lemma length_spaces (n : nat) (t : string) :
  String.length (spaces n t) = (n + String.length t)%nat.
Proof.
  revert t. induction n as [|n IH]; intros t; [reflexivity|].
  cbn [spaces]. rewrite IH. simpl. lia.
Qed.

Lemma take_string_append (n : nat) (a b : string) :
  (n <= String.length a)%nat → take_string n (a +:+ b) = take_string n a.
Proof.
  revert a. induction n as [|n IH]; intros a H.
  - destruct a, b; reflexivity.
  - destruct a as [|c a]; simpl in H; [lia|].
    rewrite append_cons. cbn [take_string]. rewrite IH by lia. reflexivity.
Qed.

Lemma take_spaces_closed (n : nat) (t : string) :
  take_string n (String "{" (spaces n ""))
  = take_string n (String "{" (spaces n t)).
Proof.
  rewrite <- (append_nil_l t), spaces_tail.
  change (String "{" (spaces n "" +:+ t)) with (String "{" (spaces n "") +:+ t).
  symmetry. apply take_string_append.
  cbn [String.length]. rewrite length_spaces. lia.
Qed.

Lemma request_with_body (method contentType b1 b2 : string) :
  Method (request_with method contentType b1) = Method (request_with method contentType b2)
  ∧ Header (request_with method contentType b1)
    = Header (request_with method contentType b2).
Proof. split; reflexivity. Qed.

Lemma oversized_body_decided_by_prefix_witness :
  updatePolicy Ref.platform Ref.operator Ref.cluster_ok start Sample.put_oversized
  = updatePolicy Ref.platform Ref.operator Ref.cluster_ok start Probe.put_oversized_closed.
Proof.
  apply (oversized_body_decided_by_prefix Ref.platform Ref.operator Ref.cluster_ok start
           Sample.put_oversized Probe.put_oversized_closed).
  - exact (proj1 (request_with_body "PUT" "application/json" _ _)).
  - exact (proj2 (request_with_body "PUT" "application/json" _ _)).
  - vm_compute; reflexivity.
  - vm_compute; reflexivity.
  - exact (take_spaces_closed (Z.to_nat 1048576) "}").
Defined.

(** ** The media type of a request *)

Lemma forall_ascii (f : ascii → bool) :
  forallb f all_ascii = true → ∀ c, f c = true.
Proof.
  intros H c. rewrite forallb_forall in H. exact (H c (in_all_ascii c)).
Qed.

Lemma token_or_slash_lower (c : ascii) :
  token_or_slash (lower_ascii c) = true → token_or_slash c = true.
Proof.
  pose (f := fun c => implb (token_or_slash (lower_ascii c)) (token_or_slash c)).
  assert (H : ∀ c, f c = true) by (apply forall_ascii; vm_compute; reflexivity).
  specialize (H c). unfold f in H. intros E. now rewrite E in H.
Qed.

Lemma all_bytes_ToLower (a : string) :
  all_bytes token_or_slash (ToLower a) = true → all_bytes token_or_slash a = true.
Proof.
  induction a as [|c a IH]; [reflexivity|]. simpl.
  rewrite !andb_true_iff. intros [H1 H2].
  split; [now apply token_or_slash_lower | now apply IH].
Qed.

(** [expectTokenSlash] cuts its argument in two: a run of token octets and
    slashes, and a remainder that does not start with one. *)
Lemma expectTokenSlash_split (s : string) :
  s = fst (header.expectTokenSlash s) +:+ snd (header.expectTokenSlash s)
  ∧ all_bytes token_or_slash (fst (header.expectTokenSlash s)) = true
  ∧ ends_value (snd (header.expectTokenSlash s)).
Proof.
  induction s as [|c s (IH1 & IH2 & IH3)]; [repeat split|].
  simpl. fold (token_or_slash c).
  destruct (token_or_slash c) eqn:E.
  - destruct (header.expectTokenSlash s) as [tok rest]; simpl in *.
    split; [now rewrite append_cons, <- IH1|]. split; [now rewrite E | exact IH3].
  - simpl. split; [reflexivity|]. split; [reflexivity|].
    unfold token_or_slash in E. apply orb_false_iff in E as [E1 E2].
    split; [exact E1|]. intros ->. discriminate.
Qed.

Lemma expectTokenSlash_append (a rest : string) :
  all_bytes token_or_slash a = true →
  ends_value rest →
  header.expectTokenSlash (a +:+ rest) = (a, rest).
Proof.
  intros Ha Hr. induction a as [|c a IH].
  - rewrite append_nil_l. destruct rest as [|c rest]; [reflexivity|].
    destruct Hr as [H1 H2]. simpl. rewrite H1.
    destruct (Ascii.eqb_spec c "/"); [contradiction | reflexivity].
  - simpl in Ha. apply andb_true_iff in Ha as [Hc Ha].
    rewrite append_cons. simpl. fold (token_or_slash c). rewrite Hc, (IH Ha).
    reflexivity.
Qed.

(** X13.  The header values [updatePolicy] takes for JSON are exactly
    those that start with the sixteen letters of [application/json], in any
    mix of upper and lower case, and then end or go on with a byte that is
    neither a token octet nor a slash (a semicolon, a space, a comma, ...). *)
Theorem media_type_accepted_iff (ct : string) :
  media_value ct = "application/json"
  ↔ ∃ a rest, ct = a +:+ rest
              ∧ same_letters a "application/json"
              ∧ ends_value rest.
Proof.
  unfold media_value, same_letters. split.
  - intros H. destruct (expectTokenSlash_split ct) as (H1 & _ & H3).
    exists (fst (header.expectTokenSlash ct)), (snd (header.expectTokenSlash ct)).
    split; [exact H1|]. split; [rewrite H; reflexivity | exact H3].
  - intros (a & rest & -> & Ha & Hr).
    rewrite expectTokenSlash_append; [exact Ha | | exact Hr].
    apply all_bytes_ToLower. rewrite Ha. reflexivity.
Qed.

(** ** Tokens *)

Lemma Verify_time_claims (m : gmap string Any) (t : Z) :
  jwt.VerifyExpiresAt m t false
  = match time_claim m "exp" with Some e => t <=? e | None => true end
  ∧ jwt.VerifyIssuedAt m t false
    = match time_claim m "iat" with Some i => i <=? t | None => true end
  ∧ jwt.VerifyNotBefore m t false
    = match time_claim m "nbf" with Some n => n <=? t | None => true end.
Proof.
  unfold time_claim, jwt.VerifyExpiresAt, jwt.VerifyIssuedAt, jwt.VerifyNotBefore,
    jwt.verifyExp, jwt.verifyIat, jwt.verifyNbf.
  split; [|split].
  - destruct (m !! "exp") as [[| | |e| | |]|]; try reflexivity.
    destruct (e =? 0); reflexivity.
  - destruct (m !! "iat") as [[| | |i| | |]|]; try reflexivity.
    rewrite Z.geb_leb. destruct (i =? 0); reflexivity.
  - destruct (m !! "nbf") as [[| | |n| | |]|]; try reflexivity.
    rewrite Z.geb_leb. destruct (n =? 0); reflexivity.
Qed.

Lemma MapClaims_Valid_window (m : gmap string Any) (clock : Time) :
  jwt.MapClaims_Valid m clock = None ↔ in_window m (Time_Unix clock) = true.
Proof.
  destruct (Verify_time_claims m (Time_Unix clock)) as (E1 & E2 & E3).
  unfold jwt.MapClaims_Valid, in_window. cbv zeta.
  rewrite E1, E2, E3.
  destruct (match time_claim m "exp" with Some e => _ | None => true end),
    (match time_claim m "iat" with Some i => _ | None => true end),
    (match time_claim m "nbf" with Some n => _ | None => true end);
    vm_compute; split; congruence.
Qed.

(** What [verifyToken] makes of any token signed under an HMAC method with
    the configured key. *)
Lemma verify_signed (P : Platform) (now : Time) (name : string) (h : Hash)
    (claims : gmap string Any) :
  jwt.GetSigningMethod name = Some (jwt.SigningMethodHMAC name h) →
  hash_Available P h = true →
  wire_ok P (hmac_token name h claims) "secret" h →
  ∃ tok,
    jwt.SignedString P (hmac_token name h claims) "secret" = Ok tok
    ∧ ∀ now, verifyToken P now tok
      = match jwt.MapClaims_Valid (through_json <$> claims) now with
        | Some e => Returns (Err e)
        | None =>
            match (through_json <$> claims) !! "sub" with
            | Some (AString sub) => Returns (Ok (identity sub))
            | other =>
                Panics ("interface conversion: interface {} is "
                        +:+ dynamicType other +:+ ", not string")
            end
        end.
Proof.
  intros Hm Hav Hw.
  destruct (Parse_signed P now (hmac_token name h claims) name h eq_refl
              (lookup_insert_eq _ _ _) Hm Hav Hw) as (tok & Hsig & _ & _ & _).
  exists tok. split; [exact Hsig|]. intros tv.
  destruct (Parse_signed P tv (hmac_token name h claims) name h eq_refl
              (lookup_insert_eq _ _ _) Hm Hav Hw) as (tok' & Hsig' & _ & Hok & Herr).
  rewrite Hsig in Hsig'. injection Hsig' as <-.
  unfold verifyToken.
  change (jwt.Claims (hmac_token name h claims)) with claims in Hok, Herr.
  destruct (jwt.MapClaims_Valid (through_json <$> claims) tv) as [e|] eqn:Hv.
  - now rewrite (Herr e eq_refl).
  - destruct (Hok eq_refl) as (token & -> & Hvalid & Hclaims).
    rewrite Hvalid, Hclaims. unfold identity.
    destruct ((through_json <$> claims) !! "sub") as [[]|]; reflexivity.
Qed.

(** X14.  [verifyToken] accepts tokens under each of the three HMAC
    methods, not only the one [createToken] uses: for any claims signed
    with the configured key, the verdict is the error of the time checks if
    one of them fails, otherwise the identity named by a string [sub] claim,
    and a panic when [sub] is missing or not a string. *)
Theorem signed_token_verdict (P : Platform) (name : string) (h : Hash)
    (claims : gmap string Any) :
  jwt.GetSigningMethod name = Some (jwt.SigningMethodHMAC name h) →
  hash_Available P h = true →
  wire_ok P (hmac_token name h claims) "secret" h →
  ∃ tok,
    jwt.SignedString P (hmac_token name h claims) "secret" = Ok tok
    ∧ ∀ now, verifyToken P now tok
      = match jwt.MapClaims_Valid (through_json <$> claims) now with
        | Some e => Returns (Err e)
        | None =>
            match (through_json <$> claims) !! "sub" with
            | Some (AString sub) => Returns (Ok (identity sub))
            | other =>
                Panics ("interface conversion: interface {} is "
                        +:+ dynamicType other +:+ ", not string")
            end
        end.
Proof. intros Hm Hav Hw. exact (verify_signed P 0 name h claims Hm Hav Hw). Qed.

Lemma signed_token_verdict_witness :
  ∃ tok,
    jwt.SignedString Ref.platform (hmac_token "HS512" SHA512 Probe.eternal_claims) "secret"
    = Ok tok
    ∧ ∀ now, verifyToken Ref.platform now tok
      = match jwt.MapClaims_Valid (through_json <$> Probe.eternal_claims) now with
        | Some e => Returns (Err e)
        | None =>
            match (through_json <$> Probe.eternal_claims) !! "sub" with
            | Some (AString sub) => Returns (Ok (identity sub))
            | other =>
                Panics ("interface conversion: interface {} is "
                        +:+ dynamicType other +:+ ", not string")
            end
        end.
Proof.
  apply (signed_token_verdict Ref.platform "HS512" SHA512 Probe.eternal_claims);
    [reflexivity | reflexivity | apply wire_check_sound; vm_compute; reflexivity].
Defined.

(** X15.  A token signed with the configured key whose [sub] is a string
    is accepted exactly during the seconds its time claims allow: not after
    [exp], not before [iat] and [nbf].  A claim that is absent, zero or not
    a number allows every second, so a token without [exp] is accepted for
    ever. *)
Theorem token_accepted_iff_in_window (P : Platform) (name : string) (h : Hash)
    (claims : gmap string Any) (sub : string) :
  jwt.GetSigningMethod name = Some (jwt.SigningMethodHMAC name h) →
  hash_Available P h = true →
  wire_ok P (hmac_token name h claims) "secret" h →
  claims !! "sub" = Some (AString sub) →
  ∃ tok,
    jwt.SignedString P (hmac_token name h claims) "secret" = Ok tok
    ∧ ∀ now, verifyToken P now tok = Returns (Ok (identity sub))
             ↔ in_window (through_json <$> claims) (Time_Unix now) = true.
Proof.
  intros Hm Hav Hw Hsub.
  destruct (verify_signed P 0 name h claims Hm Hav Hw) as (tok & Hsig & Hv).
  exists tok. split; [exact Hsig|]. intros now.
  rewrite Hv, <- MapClaims_Valid_window, lookup_fmap, Hsub. simpl.
  destruct (jwt.MapClaims_Valid (through_json <$> claims) now);
    split; congruence.
Qed.

Lemma token_accepted_iff_in_window_witness :
  ∃ tok,
    jwt.SignedString Ref.platform (hmac_token "HS384" SHA384 Probe.windowed_claims) "secret"
    = Ok tok
    ∧ verifyToken Ref.platform (1600000600 * Second + 999999999) tok
      = Returns (Ok (identity "operator"))
    ∧ verifyToken Ref.platform (1600000601 * Second) tok
      ≠ Returns (Ok (identity "operator"))
    ∧ verifyToken Ref.platform (1600000000 * Second - 1) tok
      ≠ Returns (Ok (identity "operator")).
Proof.
  assert (Hw : wire_ok Ref.platform (hmac_token "HS384" SHA384 Probe.windowed_claims)
                 "secret" SHA384)
    by (apply wire_check_sound; vm_compute; reflexivity).
  destruct (token_accepted_iff_in_window Ref.platform "HS384" SHA384
              Probe.windowed_claims "operator" eq_refl eq_refl Hw eq_refl)
    as (tok & Hsig & H).
  exists tok. split; [exact Hsig|]. split; [|split].
  - apply H. vm_compute. reflexivity.
  - intros E. apply H in E. vm_compute in E. discriminate E.
  - intros E. apply H in E. vm_compute in E. discriminate E.
Defined.

Lemma Split_go_length (s cur : string) :
  List.length (Split_go "." s cur) = S (dots s).
Proof.
  revert cur. induction s as [|c s IH]; intros cur; [reflexivity|].
  simpl. destruct (Ascii.eqb c "."); simpl; now rewrite IH.
Qed.

(** X16.  A token string that has not exactly two dots is refused as
    malformed before anything in it is decoded, on every platform. *)
Theorem wrong_segment_count_rejected (P : Platform) (now : Time) (tok : string) :
  dots tok ≠ 2%nat →
  verifyToken P now tok
  = Returns (Err (ValidationError None "token contains an invalid number of segments"
                    jwt.ValidationErrorMalformed)).
Proof.
  intros H. unfold verifyToken, jwt.Parse, jwt.ParseUnverified.
  pose proof (Split_go_length tok "") as L. fold (Split tok ".") in L.
  destruct (Split tok ".") as [|p0 [|p1 [|p2 [|p3 l]]]]; try reflexivity.
  simpl in L. congruence.
Qed.

Lemma wrong_segment_count_rejected_witness :
  verifyToken Ref.platform Sample.t0 "Bearer abc.def"
  = Returns (Err (ValidationError None "token contains an invalid number of segments"
                    jwt.ValidationErrorMalformed)).
Proof.
  apply (wrong_segment_count_rejected Ref.platform Sample.t0 "Bearer abc.def").
  vm_compute. discriminate.
Defined.

(** ** The metrics of the second listing *)

Lemma Parse_erase (P : Platform) (clock : Time) (tok : string)
    (m : Instrumented.Metrics) :
  fst (Instrumented.Parse P clock tok Instrumented.keyFunc m)
  = jwt.Parse P clock tok keyFunc.
Proof.
  unfold Instrumented.Parse, jwt.Parse, bindR.
  destruct (jwt.ParseUnverified P tok) as [[token [[p0 p1] p2]] | e]; [|reflexivity].
  unfold Instrumented.keyFunc, keyFunc.
  destruct (jwt.Method token) as [[]|]; try reflexivity.
  cbv zeta.
  match goal with
  | |- context [if ?c then _ else _] => destruct c; reflexivity
  end.
Qed.

(** What the key function and the parser leave in the metrics. *)
Lemma Parse_metrics (P : Platform) (clock : Time) (tok : string)
    (m : Instrumented.Metrics) :
  snd (Instrumented.Parse P clock tok Instrumented.keyFunc m)
  = if refused_by_key P tok then Instrumented.authReqTotal_Inc Instrumented.jwterr m
    else m.
Proof.
  unfold Instrumented.Parse, refused_by_key.
  destruct (jwt.ParseUnverified P tok) as [[token [[p0 p1] p2]] | e]; [|reflexivity].
  unfold Instrumented.keyFunc, keyFunc.
  destruct (jwt.Method token) as [[]|]; try reflexivity.
  cbv zeta.
  match goal with
  | |- context [if ?c then _ else _] => destruct c; reflexivity
  end.
Qed.

Lemma refused_by_key_rejected (P : Platform) (clock : Time) (tok : string) :
  refused_by_key P tok = true → ∃ e, jwt.Parse P clock tok keyFunc = Err e.
Proof.
  unfold refused_by_key, jwt.Parse, bindR.
  destruct (jwt.ParseUnverified P tok) as [[token [[p0 p1] p2]] | e]; [|discriminate].
  destruct (keyFunc token) as [key | []]; [discriminate | | | | | |]; eauto.
Qed.

Lemma verifyToken_metered (P : Platform) (now : Time) (tok : string)
    (m : Instrumented.Metrics) :
  Instrumented.verifyToken P now tok m
  = (verifyToken P now tok,
     match verifyToken P now tok with
     | Returns (inr _) =>
         if refused_by_key P tok
         then Instrumented.authReqTotal_Inc Instrumented.jwterr
                (Instrumented.authReqTotal_Inc Instrumented.jwterr m)
         else Instrumented.authReqTotal_Inc Instrumented.jwterr m
     | _ => m
     end).
Proof.
  unfold Instrumented.verifyToken, verifyToken.
  pose proof (Parse_erase P now tok m) as E1.
  pose proof (Parse_metrics P now tok m) as E2.
  destruct (Instrumented.Parse P now tok Instrumented.keyFunc m) as [res m'].
  simpl in E1, E2. subst res m'.
  destruct (refused_by_key P tok) eqn:R.
  - destruct (refused_by_key_rejected P now tok R) as [e ->]. reflexivity.
  - destruct (jwt.Parse P now tok keyFunc) as [token | e]; [|reflexivity].
    destruct (jwt.Valid token); [|reflexivity].
    destruct (jwt.Claims token !! "sub") as [[]|]; reflexivity.
Qed.

Lemma ParseUnverified_inv (P : Platform) (tok : string) (token : jwt.Token)
    (p0 p1 p2 : string) :
  jwt.ParseUnverified P tok = Ok (token, (p0, p1, p2)) →
  ∃ hj hdr alg meth,
    Split tok "." = [p0; p1; p2]
    ∧ DecodeSegment P p0 = Ok hj
    ∧ json_Unmarshal P hj = Ok hdr
    ∧ hdr !! "alg" = Some (AString alg)
    ∧ jwt.GetSigningMethod alg = Some meth
    ∧ jwt.Method token = Some meth
    ∧ jwt.Header token = hdr.
Proof.
  unfold jwt.ParseUnverified.
  destruct (Split tok ".") as [|q0 [|q1 [|q2 [|q3 l]]]]; try discriminate.
  destruct (DecodeSegment P q0) as [hj|] eqn:D0;
    [|destruct (HasPrefix _ _); discriminate].
  destruct (json_Unmarshal P hj) as [hdr|] eqn:U0; [|discriminate].
  destruct (DecodeSegment P q1) as [cj|]; [|discriminate].
  destruct (json_Decode P cj) as [c|]; [|discriminate].
  destruct (hdr !! "alg") as [[| | | |alg| |]|] eqn:A; try discriminate.
  destruct (jwt.GetSigningMethod alg) as [meth|] eqn:G; [|discriminate].
  intros [= <- <- <- <-]. exists hj, hdr, alg, meth. repeat split; assumption.
Qed.

(** X17.  The metrics change nothing else: for every state of the
    metrics and every clock reading, each instrumented handler leaves the
    response, the log and the cluster calls of its plain counterpart, and
    each instrumented callback returns the same verdict. *)
Theorem instrumentation_is_transparent
    (P : Platform) (cfg : Config) (k : Cluster) (start now finish : Time)
    (w : Run) (m : Instrumented.Metrics) (r : Request) (usr pass tok : string) :
  fst (Instrumented.updatePolicy P cfg start finish k (w, m) r) = updatePolicy P cfg k w r
  ∧ fst (Instrumented.createToken P cfg start now finish (w, m) r)
    = createToken P cfg now w r
  ∧ fst (Instrumented.validateUser cfg usr pass m) = validateUser cfg usr pass
  ∧ fst (Instrumented.verifyToken P now tok m) = verifyToken P now tok
  ∧ ∀ authenticator authenticator' next next',
      (∀ m0, fst (authenticator' r m0) = authenticator r) →
      (∀ x m0, fst (next' (x, m0) r) = next x r) →
      fst (Instrumented.authMiddleware start finish authenticator' next' (w, m) r)
      = authMiddleware authenticator next w r.
Proof.
  split; [|split; [|split; [|split]]].
  - unfold Instrumented.updatePolicy, updatePolicy.
    destruct (String.eqb (Method r) "OPTIONS"); [reflexivity|].
    destruct (validatePolicy P (setCORS w) r) as [w' | [w' p]]; [reflexivity|].
    destruct (GetClient k _); [reflexivity|].
    destruct (UpdatePolicy k _); reflexivity.
  - unfold Instrumented.createToken, createToken.
    destruct (String.eqb (Method r) "OPTIONS"); reflexivity.
  - unfold Instrumented.validateUser, validateUser.
    destruct (if String.eqb usr (username cfg) then _ else false); reflexivity.
  - now rewrite verifyToken_metered.
  - intros a a' next next' Ha Hn.
    unfold Instrumented.authMiddleware, authMiddleware.
    destruct (String.eqb (Method r) "OPTIONS"); [reflexivity|].
    specialize (Ha m). destruct (a' r m) as [[user | err] m1]; simpl in Ha; rewrite <- Ha.
    + cbv zeta.
      rewrite <- (Hn _ (Instrumented.authReqTotal_Inc Instrumented.ok m1)).
      destruct (next' _ r) as [w2 m2]. reflexivity.
    + reflexivity.
Qed.

(** X19.  [verifyToken] counts [jwt_error] once for a token it rejects
    and not at all for a token it accepts or panics on, with one exception:
    a token that parses and declares a method outside the HMAC family is
    counted twice, once in the key function and once on return. *)
Theorem rejected_tokens_counted
    (P : Platform) (now : Time) (tok : string) (m : Instrumented.Metrics) :
  Instrumented.verifyToken P now tok m
  = (verifyToken P now tok,
     match verifyToken P now tok with
     | Returns (inr _) =>
         if refused_by_key P tok
         then Instrumented.authReqTotal_Inc Instrumented.jwterr
                (Instrumented.authReqTotal_Inc Instrumented.jwterr m)
         else Instrumented.authReqTotal_Inc Instrumented.jwterr m
     | _ => m
     end)
  ∧ (refused_by_key P tok = true →
     ∃ alg, declares_alg P tok alg ∧ ¬ hmac_scheme alg
            ∧ verifyToken P now tok
              = Returns (Err (ValidationError
                                (Some (errorString ("Unexpected signing method: " +:+ alg)))
                                "" jwt.ValidationErrorUnverifiable))).
Proof.
  split; [apply verifyToken_metered|].
  unfold refused_by_key. intros R.
  destruct (jwt.ParseUnverified P tok) as [[token [[p0 p1] p2]] | e] eqn:E;
    [|discriminate].
  destruct (ParseUnverified_inv P tok token p0 p1 p2 E)
    as (hj & hdr & alg & meth & HS & D0 & U0 & A & G & M & H).
  exists alg. split; [now exists p0, p1, p2, hj, hdr|].
  assert (K : keyFunc token = Err (errorString ("Unexpected signing method: " +:+ alg))
              ∧ ¬ hmac_scheme alg).
  { unfold keyFunc in *. rewrite M, H, A in *.
    destruct meth; try discriminate; (split; [reflexivity|]);
      intros [-> | [-> | ->]]; vm_compute in G; discriminate. }
  destruct K as [K Hn]. split; [exact Hn|].
  unfold verifyToken, jwt.Parse, bindR. rewrite E, K. reflexivity.
Qed.

Lemma rejected_tokens_counted_witness :
  Instrumented.count
    (Instrumented.authReqTotal
       (snd (Instrumented.verifyToken Ref.platform Sample.t0 Sample.unsigned_token
               Instrumented.no_metrics)))
    Instrumented.jwterr = 2.
Proof.
  rewrite (proj1 (rejected_tokens_counted Ref.platform Sample.t0 Sample.unsigned_token
                    Instrumented.no_metrics)).
  vm_compute. reflexivity.
Defined.

(** X18.  Every call of the instrumented [updatePolicy] adds one
    processing time and touches no metric of the other handlers.  A
    pre-flight request is not counted; any other request adds one to exactly
    one status of the update counter: [ok] with a 200 answer, [json_error]
    with 400 or 415, [k8s_client_error] with a 500 before the cluster was
    asked to update, [configmap_error] with a 500 after. *)
Theorem update_requests_counted_by_outcome
    (P : Platform) (cfg : Config) (k : Cluster) (start finish : Time)
    (w w' : Run) (m m' : Instrumented.Metrics) (r : Request) :
  http.status (W w) = None →
  Instrumented.updatePolicy P cfg start finish k (w, m) r = (w', m') →
  ∃ c, update_metered m m' (Instrumented.Milliseconds (Instrumented.Since start finish)) c
       ∧ (Method r = "OPTIONS" → c = Instrumented.policyUpdateReqTotal m)
       ∧ (Method r ≠ "OPTIONS" →
          ∃ l, c = Instrumented.Inc l (Instrumented.policyUpdateReqTotal m)
               ∧ (l = Instrumented.ok ∧ http.statusCode (W w') = 200
                  ∨ l = Instrumented.jsonerr
                    ∧ (http.statusCode (W w') = 400 ∨ http.statusCode (W w') = 415)
                  ∨ l = Instrumented.k8sclient
                    ∧ http.statusCode (W w') = 500 ∧ Updates w' = Updates w
                  ∨ l = Instrumented.configmaperr
                    ∧ http.statusCode (W w') = 500 ∧ Updates w' ≠ Updates w)).
Proof.
  intros Hs. unfold Instrumented.updatePolicy.
  destruct (String.eqb (Method r) "OPTIONS") eqn:Em.
  { intros [= <- <-]. eexists. split; [reflexivity|]. split; [reflexivity|].
    intros Hm. apply String.eqb_neq in Hm. congruence. }
  assert (O : ∀ c, (Method r = "OPTIONS" → c = Instrumented.policyUpdateReqTotal m))
    by (intros c E; rewrite E in Em; discriminate).
  destruct (validatePolicy_cases P (setCORS w) r Hs)
    as [(w1 & -> & Hc & Hu) | (p & -> & Hp)].
  - intros [= <- <-]. eexists. split; [reflexivity|]. split; [apply O|].
    intros _. exists Instrumented.jsonerr. split; [reflexivity|]. right. left.
    split; [reflexivity | exact Hc].
  - fold (cluster_args cfg p). unfold http.StatusInternalServerError.
    destruct (GetClient k (cluster_args cfg p)) as [e|].
    + intros [= <- <-]. eexists. split; [reflexivity|]. split; [apply O|].
      intros _. exists Instrumented.k8sclient. split; [reflexivity|]. right. right. left.
      destruct (http_Error_fresh
                  (log_Println ("Unable to get client: " +:+ Error e) (setCORS w))
                  "Something went wrong getting K8 Client." 500 Hs) as (H1 & _ & _ & H4).
      split; [reflexivity|]. split; [now apply statusCode_of_status | exact H4].
    + destruct (UpdatePolicy k (cluster_args cfg p)) as [e|].
      * intros [= <- <-]. eexists. split; [reflexivity|]. split; [apply O|].
        intros _. exists Instrumented.configmaperr. split; [reflexivity|].
        right. right. right.
        destruct (http_Error_fresh
                    (log_Println ("Unable to update policy: " +:+ Error e)
                       (record_update (cluster_args cfg p) (setCORS w)))
                    "Something went wrong when updating the config map." 500 Hs)
          as (H1 & _ & _ & H4).
        split; [reflexivity|]. split; [now apply statusCode_of_status|].
        rewrite H4. apply updates_grow.
      * intros [= <- <-]. eexists. split; [reflexivity|]. split; [apply O|].
        intros _. exists Instrumented.ok. split; [reflexivity|]. left.
        split; [reflexivity|].
        unfold http.statusCode, w_Write, onW, http.Write, http.WriteHeader.
        simpl. rewrite Hs. reflexivity.
Qed.

Lemma update_requests_counted_by_outcome_witness :
  ∃ c, update_metered Instrumented.no_metrics
         (snd (Instrumented.updatePolicy Ref.platform Ref.operator Sample.t0
                 (Sample.t0 + 2500000) Faults.cluster_unreachable
                 (start, Instrumented.no_metrics) Sample.put_policy))
         2 c
       ∧ Instrumented.count c Instrumented.k8sclient = 1.
Proof.
  destruct (update_requests_counted_by_outcome Ref.platform Ref.operator
              Faults.cluster_unreachable Sample.t0 (Sample.t0 + 2500000)
              start _ Instrumented.no_metrics _ Sample.put_policy eq_refl
              (surjective_pairing _)) as (c & Hc & _ & H).
  exists c. split; [exact Hc|].
  unfold update_metered in Hc.
  apply (f_equal Instrumented.policyUpdateReqTotal) in Hc.
  cbn [Instrumented.policyUpdateReqTotal] in Hc. rewrite <- Hc.
  vm_compute. reflexivity.
Defined.

(** ** The content type of error answers *)

Lemma sent_plain_Error_fresh (w : http.ResponseWriter) (msg : string) (code : Z) :
  http.status w = None → sent_plain (http.Error w msg code).
Proof.
  intros Hs. unfold sent_plain, http.Error, http.Write, http.WriteHeader,
    http.Header_Set; simpl. rewrite Hs; simpl.
  split; [discriminate|]. split.
  - rewrite lookup_insert_ne by discriminate. apply lookup_insert_eq.
  - apply lookup_insert_eq.
Qed.

Lemma sent_plain_Error (w : http.ResponseWriter) (msg : string) (code : Z) :
  sent_plain w → sent_plain (http.Error w msg code).
Proof.
  intros [Hs Hp]. unfold sent_plain, http.Error, http.Write, http.WriteHeader,
    http.Header_Set; simpl.
  destruct (http.status w); [simpl; split; [discriminate | exact Hp] | contradiction].
Qed.

Lemma sent_plain_delivered (w : http.ResponseWriter) :
  sent_plain w → plain_text (delivered w).
Proof.
  intros [Hs Hp]. unfold delivered. destruct (http.status w); [exact Hp | contradiction].
Qed.

Lemma sent_plain_decodeFailed (P : Platform) (w : Run) (e : error) :
  http.status (W w) = None → sent_plain (W (decodeFailed P w e)).
Proof.
  intros Hs.
  assert (H : sent_plain (W (http_Error w (Error e) http.StatusBadRequest)))
    by (apply sent_plain_Error_fresh; exact Hs).
  unfold decodeFailed. destruct e; cbv beta iota zeta;
    repeat match goal with
           | |- context [if ?c then _ else _] => destruct c
           end;
    apply sent_plain_Error; exact H.
Qed.

Lemma sent_plain_validatePolicy (P : Platform) (w w' : Run) (r : Request) :
  http.status (W w) = None → validatePolicy P w r = inl w' → sent_plain (W w').
Proof.
  intros Hs. unfold validatePolicy.
  destruct (negb _ && negb _);
    [intros [= <-]; apply sent_plain_Error_fresh; exact Hs|].
  destruct (Decode P _) as [p | err];
    [| intros [= <-]; apply sent_plain_decodeFailed; exact Hs].
  destruct (UnprocessableFileTypeAction p) as [u|];
    [| intros [= <-]; apply sent_plain_Error_fresh; exact Hs].
  destruct ((u <=? 0) || (u >=? 5));
    [intros [= <-]; apply sent_plain_Error_fresh; exact Hs|].
  destruct (GlasswallBlockedFilesAction p) as [g|];
    [| intros [= <-]; apply sent_plain_Error_fresh; exact Hs].
  destruct ((g <=? 0) || (g >=? 5));
    [intros [= <-]; apply sent_plain_Error_fresh; exact Hs | discriminate].
Qed.

(** X20.  Every answer of [updatePolicy] other than 200, and the 401 of
    [authMiddleware], goes out as [text/plain; charset=utf-8] with
    [X-Content-Type-Options: nosniff]: the errors of this JSON API are
    plain text lines. *)
Theorem error_answers_are_plain_text
    (P : Platform) (cfg : Config) (k : Cluster)
    (authenticator : Request → Result Info) (next : Run → Request → Run)
    (w : Run) (r : Request) :
  http.status (W w) = None →
  (http.statusCode (W (updatePolicy P cfg k w r)) ≠ 200 →
     plain_text (delivered (W (updatePolicy P cfg k w r))))
  ∧ (∀ e, Method r ≠ "OPTIONS" → authenticator r = Err e →
     plain_text (delivered (W (authMiddleware authenticator next w r)))).
Proof.
  intros Hs. split.
  - unfold updatePolicy.
    destruct (String.eqb (Method r) "OPTIONS").
    { unfold http.statusCode. rewrite status_setCORS, Hs. intros H. now contradiction H. }
    destruct (validatePolicy P (setCORS w) r) as [w' | [w' p]] eqn:Hv.
    + intros _. apply sent_plain_delivered.
      exact (sent_plain_validatePolicy P (setCORS w) w' r Hs Hv).
    + apply validatePolicy_inr in Hv. subst w'.
      destruct (GetClient k _);
        [intros _; apply sent_plain_delivered, sent_plain_Error_fresh; exact Hs|].
      destruct (UpdatePolicy k _);
        [intros _; apply sent_plain_delivered, sent_plain_Error_fresh; exact Hs|].
      unfold http.statusCode, w_Write, onW, http.Write, http.WriteHeader.
      simpl. rewrite Hs. intros H. now contradiction H.
  - intros e Hm Ha. unfold authMiddleware.
    rewrite (eqb_false_of_ne _ _ Hm), Ha.
    apply sent_plain_delivered, sent_plain_Error_fresh. exact Hs.
Qed.

Lemma error_answers_are_plain_text_witness :
  plain_text (delivered (W (updatePolicy Ref.platform Ref.operator Ref.cluster_ok
                              start Probe.put_comment)))
  ∧ plain_text (delivered (W (authMiddleware
                                (Sample.password_authenticator "operator" "guess")
                                Sample.downstream start Sample.put_policy))).
Proof.
  destruct (error_answers_are_plain_text Ref.platform Ref.operator Ref.cluster_ok
              (Sample.password_authenticator "operator" "guess") Sample.downstream
              start Probe.put_comment eq_refl) as [H1 _].
  destruct (error_answers_are_plain_text Ref.platform Ref.operator Ref.cluster_ok
              (Sample.password_authenticator "operator" "guess") Sample.downstream
              start Sample.put_policy eq_refl) as [_ H2].
  split.
  - apply H1. vm_compute. discriminate.
  - apply (H2 (errorString "Invalid credentials")); [vm_compute; discriminate | reflexivity].
Defined.
